(** * Game Store API: authentication, authorisation and order handlers

    A shallow embedding of [src/main.py] and [src/schemas.py].

    The handlers are Python functions over a process-wide MongoDB handle
    ([db]), the wall clock ([time.time]) and a random source
    ([secrets.token_hex]).  They are embedded as computations in a small
    state-and-exception monad over a [World] that carries the document
    store, the clock, the two sources of fresh values and a log of the
    store operations performed so far.

    What the handlers import from outside the repository is modelled by
    its documented contract: [pymongo] collections as lists of documents
    in insertion order, queried by field equality and by pattern;
    [bson.ObjectId] as the bytes that [bytes.fromhex] reads from a string
    of 24 characters, twelve of them in the ids that the store assigns;
    [pydantic] models as records that serialise to dictionaries;
    FastAPI's [Depends] as a computation that runs before the body of the
    handler.  Request bodies and parameters are the values FastAPI hands
    to the handler once its own validation has passed.

    Strings are byte strings.  What Python and the store do with text of
    any script is a parameter of the development: the lower-casing of an
    email address, the reading of an integer from a string, the digest
    of a password, and the compilation and the search of a regular
    expression. *)

From Stdlib Require Import ZArith NArith Ascii String List Bool Lia SpecFloat.
From stdpp Require Import base option list gmap strings fin_maps.

Local Open Scope string_scope.
Local Open Scope Z_scope.

(** ** Python strings *)

Module Py.

(** [str.lower] on one character. *)
Definition lower_ascii (c : ascii) : ascii :=
  let n := N_of_ascii c in
  if ((65 <=? n) && (n <=? 90))%N then ascii_of_N (n + 32) else c.

(** [s.lower()] on the letters A to Z.  It serves the test of the
    [Authorization] header, [h.lower().startswith("bearer ")], which
    comes out as in Python: the test reads the first seven characters of
    [h.lower()], and [str.lower] makes [b], [e], [a] and [r] of these
    letters alone, in either case.  The lower-casing of an email address
    is [str_lower] below. *)
Fixpoint lower (s : string) : string :=
  match s with
  | EmptyString => EmptyString
  | String c s' => String (lower_ascii c) (lower s')
  end.

(** [s.startswith(p)] *)
Fixpoint startswith (s p : string) {struct p} : bool :=
  match p with
  | EmptyString => true
  | String a p' =>
      match s with
      | EmptyString => false
      | String b s' => Ascii.eqb a b && startswith s' p'
      end
  end.

(** [s.split(" ", 1)[1]]: what follows the first space; [None] stands
    for the [IndexError] raised when [s] has no space. *)
Fixpoint split_space_1 (s : string) : option string :=
  match s with
  | EmptyString => None
  | String c s' => if Ascii.eqb c " " then Some s' else split_space_1 s'
  end.

(** [int(x)] for a float: truncation towards zero; [None] stands for
    the error raised on infinities and NaN. *)
Definition int_of_float (f : spec_float) : option Z :=
  match f with
  | S754_zero _ => Some 0
  | S754_finite sg m e =>
      let a := if (0 <=? e) then Z.pos m * 2 ^ e else Z.pos m / 2 ^ (- e) in
      Some (if sg then - a else a)
  | S754_infinity _ | S754_nan => None
  end.

End Py.

(** ** [bson.ObjectId]

    An identifier holds bytes ([binary]): twelve when the store made it.
    The constructor takes a string of 24 characters that [bytes.fromhex]
    reads and keeps the bytes read, so 24 hexadecimal digits of either
    case give twelve bytes, and a string with white space between pairs
    of digits gives fewer.  The string form is two lowercase hexadecimal
    digits for each byte.  Two identifiers are equal when their bytes
    are. *)

Module ObjectId.

Definition t := string.

Definition hex_val (c : ascii) : option N :=
  let n := N_of_ascii c in
  (if (48 <=? n) && (n <=? 57) then Some (n - 48)
   else if (97 <=? n) && (n <=? 102) then Some (n - 87)
   else if (65 <=? n) && (n <=? 70) then Some (n - 55)
   else None)%N.

(** The white space that [bytes.fromhex] skips: tab, newline, vertical
    tab, form feed, carriage return and space. *)
Definition is_space (c : ascii) : bool :=
  let n := N_of_ascii c in
  (((9 <=? n) && (n <=? 13)) || (n =? 32))%N.

(** [bytes.fromhex(s)]: two hexadecimal digits for each byte, white
    space skipped before a byte and at the end; [None] stands for the
    [ValueError]. *)
Fixpoint fromhex (s : string) : option string :=
  match s with
  | EmptyString => Some EmptyString
  | String c s' =>
      if is_space c then fromhex s'
      else
        match hex_val c, s' with
        | Some top, String c' s'' =>
            match hex_val c' with
            | Some bot => String (ascii_of_N (16 * top + bot)) <$> fromhex s''
            | None => None
            end
        | _, _ => None
        end
  end.

(** [ObjectId(s)]; [None] stands for [bson.errors.InvalidId]. *)
Definition of_str (s : string) : option t :=
  if Nat.eqb (String.length s) 24 then fromhex s else None.

(** [ObjectId.is_valid(s)] *)
Definition is_valid (s : string) : bool :=
  match of_str s with Some _ => true | None => false end.

Definition hex_char (d : N) : ascii :=
  (if d <? 10 then ascii_of_N (48 + d) else ascii_of_N (87 + d))%N.

(** [binascii.hexlify(b)] *)
Fixpoint hexlify (b : string) : string :=
  match b with
  | EmptyString => EmptyString
  | String c b' =>
      let n := N_of_ascii c in
      String (hex_char (n / 16)%N) (String (hex_char (n mod 16)%N) (hexlify b'))
  end.

(** [str(oid)] *)
Definition to_str (o : t) : string := hexlify o.

(** [o1 == o2] *)
Definition eqb (o1 o2 : t) : bool := String.eqb o1 o2.

(** The [k] low hexadecimal digits of [n], most significant first. *)
Fixpoint hex_digits (k : nat) (n : N) : string :=
  match k with
  | O => EmptyString
  | S k' => hex_digits k' (n / 16)%N +:+ String (hex_char (n mod 16)%N) EmptyString
  end.

(** The [k] low bytes of [n], most significant first. *)
Fixpoint bytes_of (k : nat) (n : N) : string :=
  match k with
  | O => EmptyString
  | S k' => bytes_of k' (n / 256)%N +:+ String (ascii_of_N (n mod 256)%N) EmptyString
  end.

(** The identifier of twelve bytes that reads as the number [n]. *)
Definition of_N (n : N) : t := bytes_of 12 n.

End ObjectId.

Arguments ObjectId.of_N : simpl never.
Arguments ObjectId.to_str : simpl never.
Arguments ObjectId.of_str : simpl never.
Arguments ObjectId.eqb : simpl never.

(** ** Documents and the store *)

(** The Python values that the schemas of [src/schemas.py] put in a
    document. *)
Inductive value :=
| VNone
| VBool (b : bool)
| VInt (z : Z)
| VFloat (f : spec_float)
| VStr (s : string)
| VList (l : list string).

(** A stored document: the [_id] the store assigned, and the other
    fields.  A Python [dict] of fields is a [gmap string value].  A
    document read back from the store always carries its [_id], so it is
    never an empty dictionary and [if not doc] tests for [None] alone. *)
Record document := Doc {
  doc_id : ObjectId.t;
  doc_fields : gmap string value;
}.

(** [d.get(k)] on the fields of a document. *)
Definition get (d : document) (k : string) : option value := doc_fields d !! k.

(** [v == s] and [v != s] for a Python string [s]. *)
Definition eq_str (v : option value) (s : string) : bool :=
  match v with
  | Some (VStr x) => String.eqb x s
  | _ => false
  end.

(** Query filters.  Every equality filter of the source compares a field
    with a string; [Regex] is [{"$regex": p, "$options": o}]; [AnyOf] is
    ["$or"] over single-field filters.  A filter is the conjunction of
    its clauses. *)
Inductive cond :=
| Eq (s : string)
| Regex (pattern options : string).

Inductive clause :=
| ById (o : ObjectId.t)
| Field (k : string) (c : cond)
| AnyOf (alts : list (string * cond)).

Definition query := list clause.

(** The store operations a handler can perform, as they are logged. *)
Inductive store_op :=
| FindOne (coll : string) (q : query)
| Find (coll : string) (q : query) (limit : option nat)
| InsertOne (coll : string) (d : document)
| UpdateOne (coll : string) (q : query) (upd : gmap string value)
| DeleteOne (coll : string) (q : query)
| ListCollectionNames.

Record World := MkWorld {
  db : gmap string (list document);  (* collection name -> documents, in insertion order *)
  clock : Z;                         (* int(time.time()) *)
  token_src : nat -> string;         (* what secrets.token_hex(32) returns, draw by draw *)
  tokens_drawn : nat;
  oid_src : nat -> N;                (* the twelve bytes of the ids the store assigns,
                                        as a number, insert by insert *)
  oids_drawn : nat;
  log : list store_op;               (* store operations so far, oldest first *)
}.

(** [db[name]]: a collection that was never written is empty. *)
Definition coll (w : World) (name : string) : list document :=
  default [] (db w !! name).

Definition set_clock (t : Z) (w : World) : World :=
  MkWorld (db w) t (token_src w) (tokens_drawn w) (oid_src w) (oids_drawn w) (log w).

(** ** The monad of handlers *)

Inductive outcome (A : Type) :=
| Return (a : A)
| HTTPException (status_code : Z) (detail : string)
| Uncaught (exn : string).
Arguments Return {A} a.
Arguments HTTPException {A} status_code detail.
Arguments Uncaught {A} exn.

Definition M (A : Type) : Type := World -> outcome A * World.

Definition ret {A} (a : A) : M A := fun w => (Return a, w).

Definition bind {A B} (m : M A) (k : A -> M B) : M B :=
  fun w =>
    match m w with
    | (Return a, w') => k a w'
    | (HTTPException c d, w') => (HTTPException c d, w')
    | (Uncaught e, w') => (Uncaught e, w')
    end.

Definition raise {A} (status_code : Z) (detail : string) : M A :=
  fun w => (HTTPException status_code detail, w).

Definition crash {A} (exn : string) : M A := fun w => (Uncaught exn, w).

Declare Scope handler_scope.
Delimit Scope handler_scope with handler.
Notation "x <- m ;; k" := (bind m (fun x => k))
  (at level 100, m at next level, right associativity) : handler_scope.
Notation "m ;;; k" := (bind m (fun _ => k))
  (at level 100, right associativity) : handler_scope.
Local Open Scope handler_scope.

(** [int(time.time())] *)
Definition time_now : M Z := fun w => (Return (clock w), w).

(** [secrets.token_hex(32)] *)
Definition token_hex : M string :=
  fun w =>
    (Return (token_src w (tokens_drawn w)),
     MkWorld (db w) (clock w) (token_src w) (S (tokens_drawn w))
             (oid_src w) (oids_drawn w) (log w)).

Definition log_op (op : store_op) (w : World) : World :=
  MkWorld (db w) (clock w) (token_src w) (tokens_drawn w)
          (oid_src w) (oids_drawn w) (log w ++ [op]).

Definition set_coll (name : string) (docs : list document) (w : World) : World :=
  MkWorld (<[name := docs]> (db w)) (clock w) (token_src w) (tokens_drawn w)
          (oid_src w) (oids_drawn w) (log w).

(** ** Schemas ([src/schemas.py]) and request bodies

    Each module is one pydantic model; [model_dump] is the dictionary the
    model serialises to. *)

Module UserSchema.
Record t := Build {
  name : string;
  email : string;
  password_hash : string;
  role : string;
  is_active : bool;
}.
Definition model_dump (u : t) : gmap string value :=
  <["name" := VStr (name u)]>
  (<["email" := VStr (email u)]>
  (<["password_hash" := VStr (password_hash u)]>
  (<["role" := VStr (role u)]>
  (<["is_active" := VBool (is_active u)]> ∅)))).
End UserSchema.

Module GameSchema.
Record t := Build {
  title : string;
  platform : string;
  description : option string;
  price : spec_float;
  images : list string;
  category : option string;
  in_stock : bool;
}.
(** [Field(..., ge=0)] on [price]. *)
Definition price_ok (f : spec_float) : bool :=
  match f with
  | S754_zero _ => true
  | S754_finite sg _ _ => negb sg
  | S754_infinity sg => negb sg
  | S754_nan => false
  end.
Definition opt_str (o : option string) : value :=
  match o with Some s => VStr s | None => VNone end.
Definition model_dump (g : t) : gmap string value :=
  <["title" := VStr (title g)]>
  (<["platform" := VStr (platform g)]>
  (<["description" := opt_str (description g)]>
  (<["price" := VFloat (price g)]>
  (<["images" := VList (images g)]>
  (<["category" := opt_str (category g)]>
  (<["in_stock" := VBool (in_stock g)]> ∅)))))).
End GameSchema.

Module OrderSchema.
Record t := Build {
  user_id : option string;
  game_id : string;
  transaction_id : string;
  payment_method : string;
  delivery_email : string;
  status : string;
}.
Definition model_dump (o : t) : gmap string value :=
  <["user_id" := GameSchema.opt_str (user_id o)]>
  (<["game_id" := VStr (game_id o)]>
  (<["transaction_id" := VStr (transaction_id o)]>
  (<["payment_method" := VStr (payment_method o)]>
  (<["delivery_email" := VStr (delivery_email o)]>
  (<["status" := VStr (status o)]> ∅))))).
End OrderSchema.

Module SessionSchema.
Record t := Build {
  user_id : string;
  token : string;
  expires_at : Z;
}.
Definition model_dump (s : t) : gmap string value :=
  <["user_id" := VStr (user_id s)]>
  (<["token" := VStr (token s)]>
  (<["expires_at" := VInt (expires_at s)]> ∅)).
End SessionSchema.

Module RegisterRequest.
Record t := Build { name : string; email : string; password : string }.
End RegisterRequest.

Module LoginRequest.
Record t := Build { email : string; password : string }.
End LoginRequest.

Module TokenResponse.
Record t := Build { token : string; role : string; name : string; email : string }.
End TokenResponse.

Module GameCreateRequest.
Record t := Build {
  title : string;
  platform : string;
  price : spec_float;
  description : option string;
  images : list string;
  category : option string;
  in_stock : bool;
}.
End GameCreateRequest.

Module GameUpdateRequest.
Record t := Build {
  title : option string;
  platform : option string;
  price : option spec_float;
  description : option string;
  images : option (list string);
  category : option string;
  in_stock : option bool;
}.
(** [payload.model_dump().items()]; [None] is a field left unset. *)
Definition items (p : t) : list (string * option value) :=
  [ ("title", VStr <$> title p);
    ("platform", VStr <$> platform p);
    ("price", VFloat <$> price p);
    ("description", VStr <$> description p);
    ("images", VList <$> images p);
    ("category", VStr <$> category p);
    ("in_stock", VBool <$> in_stock p) ].
End GameUpdateRequest.

Module CreateOrderRequest.
Record t := Build {
  game_id : string;
  transaction_id : string;
  delivery_email : string;
}.
End CreateOrderRequest.

Module UpdateOrderStatusRequest.
Record t := Build { status : string }.
End UpdateOrderStatusRequest.

(** ** Constants of [src/main.py] *)

Definition COL_USER : string := "user".
Definition COL_GAME : string := "game".
Definition COL_ORDER : string := "order".
Definition COL_SESSION : string := "session".

Definition SESSION_TTL_SECONDS : Z := 7 * 24 * 3600.

Section GameStore.

(** [os.getenv("SECRET_KEY", "dev-secret-key")], read once at start. *)
Variable SECRET_KEY : string.

(** [hashlib.sha256(b).hexdigest()] *)
Variable sha256_hexdigest : string -> string.

(** [s.lower()] on the text of an email address: Python's lower-casing
    of every cased character, of any script.  Lower-casing what is
    already lower-cased changes nothing. *)
Variable str_lower : string -> string.
Hypothesis str_lower_idem : forall s, str_lower (str_lower s) = str_lower s.

(** [int(s)] for a string [s]: Python's reading of a decimal literal
    (white space around it, a sign, underscores between digits, the
    decimal digits of any script); [None] stands for the [ValueError]. *)
Variable int_of_str : string -> option Z.

(** Whether the store compiles the pattern of a [$regex] with its
    options.  A query with a pattern that it cannot compile fails as a
    whole, with [pymongo.errors.OperationFailure]. *)
Variable regex_compiles : string -> string -> bool.

(** The store's [$regex] search with a pattern that compiles: pattern,
    options, subject. *)
Variable regex_search : string -> string -> string -> bool.

(** [int(v)]; [None] stands for the error that [int_error] names. *)
Definition py_int (v : value) : option Z :=
  match v with
  | VInt z => Some z
  | VBool b => Some (Z.b2z b)
  | VFloat f => Py.int_of_float f
  | VStr s => int_of_str s
  | VNone | VList _ => None
  end.

(** The exception [int(v)] raises when it raises. *)
Definition int_error (v : value) : string :=
  match v with
  | VStr _ | VFloat S754_nan => "ValueError"
  | VFloat _ => "OverflowError"
  | _ => "TypeError"
  end.

(** *** The document store ([pymongo]) *)

(** Whether a value satisfies a condition; for a pattern, one that the
    store compiles (see [query_ok] below). *)
Definition cond_holds (c : cond) (v : option value) : bool :=
  match c with
  | Eq s => eq_str v s
  | Regex p o =>
      match v with
      | Some (VStr x) => regex_search p o x
      | _ => false
      end
  end.

Definition clause_holds (d : document) (cl : clause) : bool :=
  match cl with
  | ById o => ObjectId.eqb (doc_id d) o
  | Field k c => cond_holds c (get d k)
  | AnyOf alts => existsb (fun kc => cond_holds (snd kc) (get d (fst kc))) alts
  end.

Definition matches (q : query) (d : document) : bool :=
  forallb (clause_holds d) q.

(** A filter the store accepts: every pattern in it compiles. *)
Definition cond_ok (c : cond) : bool :=
  match c with
  | Eq _ => true
  | Regex p o => regex_compiles p o
  end.

Definition clause_ok (cl : clause) : bool :=
  match cl with
  | ById _ => true
  | Field _ c => cond_ok c
  | AnyOf alts => forallb (fun kc => cond_ok (snd kc)) alts
  end.

Definition query_ok (q : query) : bool := forallb clause_ok q.

(** [db[name].find_one(q)]: the first match in insertion order.  The
    source calls it with filters on an id or on the equality of a field,
    which the store accepts whatever the strings in them. *)
Definition find_one (name : string) (q : query) : M (option document) :=
  fun w => (Return (List.find (matches q) (coll w name)), log_op (FindOne name q) w).

(** [db[name].find(q)] and [db[name].find(q).limit(n)], read to the
    end: the matches in insertion order, or the failure of the store on
    a filter it does not accept. *)
Definition find (name : string) (q : query) (limit : option nat) : M (list document) :=
  fun w =>
    let hits := List.filter (matches q) (coll w name) in
    (if query_ok q
     then Return (match limit with Some n => take n hits | None => hits end)
     else Uncaught "OperationFailure",
     log_op (Find name q limit) w).

(** [db[name].insert_one(fields).inserted_id] *)
Definition insert_one (name : string) (fields : gmap string value) : M ObjectId.t :=
  fun w =>
    let o := (ObjectId.of_N (oid_src w (oids_drawn w))) in
    let d := Doc o fields in
    (Return o,
     MkWorld (<[name := (coll w name ++ [d])%list]> (db w)) (clock w)
             (token_src w) (tokens_drawn w) (oid_src w) (S (oids_drawn w))
             (log w ++ [InsertOne name d])).

Fixpoint update_first (q : query) (upd : gmap string value) (docs : list document)
  : option (list document) :=
  match docs with
  | [] => None
  | d :: ds =>
      if matches q d
      then Some (Doc (doc_id d) (upd ∪ doc_fields d) :: ds)
      else cons d <$> update_first q upd ds
  end.

(** [db[name].update_one(q, {"$set": upd}).matched_count] *)
Definition update_one (name : string) (q : query) (upd : gmap string value) : M nat :=
  fun w =>
    match update_first q upd (coll w name) with
    | Some docs => (Return 1%nat, log_op (UpdateOne name q upd) (set_coll name docs w))
    | None => (Return 0%nat, log_op (UpdateOne name q upd) w)
    end.

Fixpoint delete_first (q : query) (docs : list document) : option (list document) :=
  match docs with
  | [] => None
  | d :: ds => if matches q d then Some ds else cons d <$> delete_first q ds
  end.

(** [db[name].delete_one(q).deleted_count] *)
Definition delete_one (name : string) (q : query) : M nat :=
  fun w =>
    match delete_first q (coll w name) with
    | Some docs => (Return 1%nat, log_op (DeleteOne name q) (set_coll name docs w))
    | None => (Return 0%nat, log_op (DeleteOne name q) w)
    end.

(** [db.list_collection_names()] *)
Definition list_collection_names : M (list string) :=
  fun w => (Return (fst <$> map_to_list (db w)), log_op ListCollectionNames w).

(** Modelled from the spec: [database.create_document] is imported by
    [src/main.py] and its module is not among the sources.  The spec
    has a record persisted with an assigned id and timestamps; the
    handlers use the return value as the new id in string form. *)
Definition create_document (name : string) (data : gmap string value) : M string :=
  now <- time_now;;
  o <- insert_one name (<["updated_at" := VInt now]> (<["created_at" := VInt now]> data));;
  ret (ObjectId.to_str o).

(** *** Utilities *)

Definition oid (id_str : string) : M ObjectId.t :=
  match ObjectId.of_str id_str with
  | Some o => ret o
  | None => raise 400 "Invalid id format"
  end.

Definition hash_password (password : string) : string :=
  sha256_hexdigest (SECRET_KEY +:+ password).

Definition create_session (user_id : string) : M string :=
  token <- token_hex;;
  now <- time_now;;
  let expires_at := now + SESSION_TTL_SECONDS in
  let doc := SessionSchema.Build user_id token expires_at in
  create_document COL_SESSION (SessionSchema.model_dump doc);;;
  ret token.

(** [ObjectId.is_valid(v)] on a value read from a document. *)
Definition is_valid_value (v : value) : bool :=
  match v with
  | VStr s => ObjectId.is_valid s
  | _ => false
  end.

Definition get_current_user (authorization : option string) : M (option document) :=
  match authorization with
  | None => ret None
  | Some h =>
      if String.eqb h "" || negb (Py.startswith (Py.lower h) "bearer ")
      then ret None
      else
        match Py.split_space_1 h with
        | None => crash "IndexError"
        | Some token =>
            sess <- find_one COL_SESSION [Field "token" (Eq token)];;
            match sess with
            | None => ret None
            | Some sess =>
                now <- time_now;;
                match py_int (default (VInt 0) (get sess "expires_at")) with
                | None => crash (int_error (default (VInt 0) (get sess "expires_at")))
                | Some expires_at =>
                    if now >? expires_at then ret None
                    else if is_valid_value (default (VStr "") (get sess "user_id"))
                    then
                      match get sess "user_id" with
                      | Some (VStr s) =>
                          o <- oid s;;
                          find_one COL_USER [ById o]
                      | Some _ => raise 400 "Invalid id format"
                      | None => crash "KeyError"
                      end
                    else ret None
                end
            end
        end
  end.

(** *** Public endpoints *)

Definition root : M string := ret "Game Store Backend Running".

(** The status dictionary of [/test]: [backend], [database] and
    [collections]; the handle [db] is connected. *)
Definition test_database : M (string * string * list string) :=
  names <- list_collection_names;;
  ret ("✅ Running", "✅ Connected", names).

(** *** Auth *)

Definition register (payload : RegisterRequest.t) : M TokenResponse.t :=
  existing <- find_one COL_USER
    [Field "email" (Eq (str_lower (RegisterRequest.email payload)))];;
  match existing with
  | Some _ => raise 400 "Email already registered"
  | None =>
      let user_doc := UserSchema.Build
        (RegisterRequest.name payload)
        (str_lower (RegisterRequest.email payload))
        (hash_password (RegisterRequest.password payload))
        "user"
        true in
      user_id <- create_document COL_USER (UserSchema.model_dump user_doc);;
      token <- create_session user_id;;
      ret (TokenResponse.Build token "user" (RegisterRequest.name payload)
             (str_lower (RegisterRequest.email payload)))
  end.

(** [user.get(k, dflt)] passed to a [str] field of [TokenResponse]:
    a value that is not a string fails the model's validation. *)
Definition str_field (d : document) (k dflt : string) : M string :=
  match get d k with
  | None => ret dflt
  | Some (VStr s) => ret s
  | Some _ => crash "ValidationError"
  end.

(** [user.get("email", "")] passed to the [EmailStr] field of
    [TokenResponse]: the empty default is no address and fails the
    validation; the stored string is the address [login] searched for. *)
Definition email_field (d : document) : M string :=
  match get d "email" with
  | Some (VStr s) => ret s
  | _ => crash "ValidationError"
  end.

Definition login (payload : LoginRequest.t) : M TokenResponse.t :=
  user <- find_one COL_USER
    [Field "email" (Eq (str_lower (LoginRequest.email payload)))];;
  match user with
  | None => raise 401 "Invalid email or password"
  | Some user =>
      if negb (eq_str (get user "password_hash")
                 (hash_password (LoginRequest.password payload)))
      then raise 401 "Invalid email or password"
      else
        token <- create_session (ObjectId.to_str (doc_id user));;
        role <- str_field user "role" "user";;
        name <- str_field user "name" "";;
        email <- email_field user;;
        ret (TokenResponse.Build token role name email)
  end.

(** [d["_id"] = str(d["_id"])] on the dictionary of a stored document. *)
Definition stringify_id (d : document) : gmap string value :=
  <["_id" := VStr (ObjectId.to_str (doc_id d))]> (doc_fields d).

Definition me (user : option document) : M (gmap string value) :=
  match user with
  | None => raise 401 "Unauthorized"
  | Some user => ret (delete "password_hash" (stringify_id user))
  end.

(** *** Games (public) *)

(** [if s:] for an optional query parameter. *)
Definition given (s : option string) : option string :=
  match s with
  | Some x => if String.eqb x "" then None else Some x
  | None => None
  end.

Definition list_games_query (search platform category : option string) : query :=
  (match given platform with
   | Some p => [Field "platform" (Regex ("^" +:+ p +:+ "$") "i")]
   | None => []
   end ++
   match given category with
   | Some c => [Field "category" (Regex c "i")]
   | None => []
   end ++
   match given search with
   | Some s => [AnyOf [("title", Regex s "i"); ("description", Regex s "i")]]
   | None => []
   end)%list.

Definition list_games (search platform category : option string)
  : M (list (gmap string value)) :=
  docs <- find COL_GAME (list_games_query search platform category) (Some 50%nat);;
  ret (stringify_id <$> docs).

Definition get_game (game_id : string) : M (gmap string value) :=
  o <- oid game_id;;
  doc <- find_one COL_GAME [ById o];;
  match doc with
  | None => raise 404 "Game not found"
  | Some doc => ret (stringify_id doc)
  end.

(** *** Admin middleware *)

Definition require_admin (user : option document) : M document :=
  match user with
  | None => raise 401 "Unauthorized"
  | Some user =>
      if negb (eq_str (get user "role") "admin")
      then raise 403 "Admin access required"
      else ret user
  end.

(** *** Admin: games *)

Definition create_game (payload : GameCreateRequest.t) (user : document) : M string :=
  if negb (GameSchema.price_ok (GameCreateRequest.price payload))
  then crash "ValidationError"
  else
    let game := GameSchema.Build
      (GameCreateRequest.title payload)
      (GameCreateRequest.platform payload)
      (GameCreateRequest.description payload)
      (GameCreateRequest.price payload)
      (GameCreateRequest.images payload)
      (GameCreateRequest.category payload)
      (GameCreateRequest.in_stock payload) in
    create_document COL_GAME (GameSchema.model_dump game).

(** [{k: v for k, v in payload.model_dump().items() if v is not None}] *)
Definition updates_of (payload : GameUpdateRequest.t) : list (string * value) :=
  omap (fun kv => pair (fst kv) <$> snd kv) (GameUpdateRequest.items payload).

Definition update_game (game_id : string) (payload : GameUpdateRequest.t)
    (user : document) : M bool :=
  let updates := updates_of payload in
  match updates with
  | [] => ret false
  | _ =>
      now <- time_now;;
      let updates := <["updated_at" := VInt now]> (list_to_map updates) in
      o <- oid game_id;;
      matched_count <- update_one COL_GAME [ById o] updates;;
      if Nat.eqb matched_count 0
      then raise 404 "Game not found"
      else ret true
  end.

Definition delete_game (game_id : string) (user : document) : M bool :=
  o <- oid game_id;;
  deleted_count <- delete_one COL_GAME [ById o];;
  if Nat.eqb deleted_count 0
  then raise 404 "Game not found"
  else ret true.

(** *** Orders *)

Definition create_order (payload : CreateOrderRequest.t) (user : option document)
  : M (string * string) :=
  o <- oid (CreateOrderRequest.game_id payload);;
  game <- find_one COL_GAME [ById o];;
  match game with
  | None => raise 404 "Game not found"
  | Some _ =>
      dup <- find_one COL_ORDER
        [Field "transaction_id" (Eq (CreateOrderRequest.transaction_id payload))];;
      match dup with
      | Some _ => raise 400 "Transaction ID already used"
      | None =>
          let order := OrderSchema.Build
            ((fun u => ObjectId.to_str (doc_id u)) <$> user)
            (CreateOrderRequest.game_id payload)
            (CreateOrderRequest.transaction_id payload)
            "NAGAD"
            (CreateOrderRequest.delivery_email payload)
            "pending" in
          order_id <- create_document COL_ORDER (OrderSchema.model_dump order);;
          ret (order_id, "Order placed. Delivery within 2 hours after verification.")
      end
  end.

Definition my_orders (user : option document) : M (list (gmap string value)) :=
  match user with
  | None => raise 401 "Unauthorized"
  | Some user =>
      docs <- find COL_ORDER [Field "user_id" (Eq (ObjectId.to_str (doc_id user)))] None;;
      ret (stringify_id <$> docs)
  end.

(** *** Admin: orders *)

Definition admin_list_orders (status : option string) (user : document)
  : M (list (gmap string value)) :=
  let q := match given status with
           | Some s => [Field "status" (Eq s)]
           | None => []
           end in
  docs <- find COL_ORDER q (Some 100%nat);;
  ret (stringify_id <$> docs).

Definition allowed_status (s : string) : bool :=
  existsb (String.eqb s) ["pending"; "verified"; "delivered"; "cancelled"].

Definition update_order_status (order_id : string)
    (payload : UpdateOrderStatusRequest.t) (user : document) : M bool :=
  let status := UpdateOrderStatusRequest.status payload in
  if negb (allowed_status status)
  then raise 400 "Invalid status"
  else
    o <- oid order_id;;
    now <- time_now;;
    matched_count <- update_one COL_ORDER [ById o]
      (<["status" := VStr status]> (<["updated_at" := VInt now]> ∅));;
    if Nat.eqb matched_count 0
    then raise 404 "Order not found"
    else ret true.

(** *** Routing

    A request is the [Authorization] header and the operation with its
    validated parameters.  [Depends(get_current_user)] and
    [Depends(require_admin)] run before the body of the handler. *)

Inductive operation :=
| GetRoot
| GetTest
| PostRegister (payload : RegisterRequest.t)
| PostLogin (payload : LoginRequest.t)
| GetMe
| GetGames (search platform category : option string)
| GetGame (game_id : string)
| PostAdminGames (payload : GameCreateRequest.t)
| PutAdminGame (game_id : string) (payload : GameUpdateRequest.t)
| DeleteAdminGame (game_id : string)
| PostOrders (payload : CreateOrderRequest.t)
| GetOrdersMine
| GetAdminOrders (status : option string)
| PostAdminOrderStatus (order_id : string) (payload : UpdateOrderStatusRequest.t)
| GetSchema.

Inductive response :=
| JMessage (message : string)
| JStatus (backend database : string) (collections : list string)
| JToken (t : TokenResponse.t)
| JDoc (d : gmap string value)
| JDocs (l : list (gmap string value))
| JId (_id : string)
| JUpdated (updated : bool)
| JDeleted (deleted : bool)
| JOrder (_id message : string)
| JSchema.

Definition admin_only (op : operation) : bool :=
  match op with
  | PostAdminGames _ | PutAdminGame _ _ | DeleteAdminGame _
  | GetAdminOrders _ | PostAdminOrderStatus _ _ => true
  | _ => false
  end.

Definition fmap_M {A B} (f : A -> B) (m : M A) : M B := x <- m;; ret (f x).

Definition handle (authorization : option string) (op : operation) : M response :=
  match op with
  | GetRoot => fmap_M JMessage root
  | GetTest => fmap_M (fun r => JStatus (fst (fst r)) (snd (fst r)) (snd r)) test_database
  | PostRegister payload => fmap_M JToken (register payload)
  | PostLogin payload => fmap_M JToken (login payload)
  | GetMe => user <- get_current_user authorization;; fmap_M JDoc (me user)
  | GetGames search platform category =>
      fmap_M JDocs (list_games search platform category)
  | GetGame game_id => fmap_M JDoc (get_game game_id)
  | PostAdminGames payload =>
      user <- get_current_user authorization;;
      user <- require_admin user;;
      fmap_M JId (create_game payload user)
  | PutAdminGame game_id payload =>
      user <- get_current_user authorization;;
      user <- require_admin user;;
      fmap_M JUpdated (update_game game_id payload user)
  | DeleteAdminGame game_id =>
      user <- get_current_user authorization;;
      user <- require_admin user;;
      fmap_M JDeleted (delete_game game_id user)
  | PostOrders payload =>
      user <- get_current_user authorization;;
      fmap_M (fun r => JOrder (fst r) (snd r)) (create_order payload user)
  | GetOrdersMine =>
      user <- get_current_user authorization;;
      fmap_M JDocs (my_orders user)
  | GetAdminOrders status =>
      user <- get_current_user authorization;;
      user <- require_admin user;;
      fmap_M JDocs (admin_list_orders status user)
  | PostAdminOrderStatus order_id payload =>
      user <- get_current_user authorization;;
      user <- require_admin user;;
      fmap_M JUpdated (update_order_status order_id payload user)
  | GetSchema => ret JSchema
  end.

(** A client session: requests arriving at given clock readings. *)
Fixpoint run (reqs : list (Z * option string * operation)) (w : World) : World :=
  match reqs with
  | [] => w
  | (t, authorization, op) :: rest =>
      run rest (snd (handle authorization op (set_clock t w)))
  end.

(** ** Notions used in the statements *)

(** The session document [create_session user_id] writes in world [w]. *)
Definition issued_session (user_id : string) (w : World) : document :=
  Doc (ObjectId.of_N (oid_src w (oids_drawn w)))
      (<["updated_at" := VInt (clock w)]>
        (<["created_at" := VInt (clock w)]>
          (SessionSchema.model_dump
             (SessionSchema.Build user_id (token_src w (tokens_drawn w))
                (clock w + SESSION_TTL_SECONDS))))).

(** [h] presents the bearer token [tok]: a scheme that reads [bearer]
    in some casing, one space, the token. *)
Definition bearer (h tok : string) : Prop :=
  exists scheme, Py.lower scheme = "bearer" /\ h = scheme +:+ " " +:+ tok.

(** A user document as registration writes it. *)
Definition plain_user (d : document) : Prop :=
  get d "role" = Some (VStr "user") /\
  get d "is_active" = Some (VBool true).

(** The data model's invariant on stored emails: they are lowercase,
    which is to say that [str.lower] leaves them as they are. *)
Definition emails_lowercase (users : list document) : Prop :=
  Forall (fun d => forall e, get d "email" = Some (VStr e) -> str_lower e = e) users.

(** A stored user whose email equals [email] up to case: the two have
    the same lower-casing. *)
Definition email_taken (users : list document) (email : string) : Prop :=
  Exists (fun d => exists e, get d "email" = Some (VStr e) /\
                             str_lower e = str_lower email) users.

Definition is_admin (d : document) : bool := eq_str (get d "role") "admin".

(** [w'] has the users and sessions of [w], in place and unchanged,
    followed by new plain users and new sessions. *)
Definition grows (w w' : World) : Prop :=
  exists us ss,
    coll w' COL_USER = (coll w COL_USER ++ us)%list /\
    Forall plain_user us /\
    coll w' COL_SESSION = (coll w COL_SESSION ++ ss)%list.

(** The same, with no new user. *)
Definition same_users (w w' : World) : Prop :=
  coll w' COL_USER = coll w COL_USER /\
  exists ss, coll w' COL_SESSION = (coll w COL_SESSION ++ ss)%list.

(** Every run of [m] relates the world before to the world after. *)
Definition keeps (R : relation World) {A} (m : M A) : Prop :=
  forall w, R w (snd (m w)).

(** Every [HTTPException] that [m] can raise has a status code in [P]. *)
Definition raises_only (P : Z -> Prop) {A} (m : M A) : Prop :=
  forall w c d, fst (m w) = HTTPException c d -> P c.

(** The body of an admin-only handler, as it runs once
    [Depends(require_admin)] has returned [user]. *)
Definition behind_gate (op : operation) (user : document) : M response :=
  match op with
  | PostAdminGames payload => fmap_M JId (create_game payload user)
  | PutAdminGame game_id payload => fmap_M JUpdated (update_game game_id payload user)
  | DeleteAdminGame game_id => fmap_M JDeleted (delete_game game_id user)
  | GetAdminOrders status => fmap_M JDocs (admin_list_orders status user)
  | PostAdminOrderStatus order_id payload =>
      fmap_M JUpdated (update_order_status order_id payload user)
  | _ => ret JSchema
  end.

(** The user document [register payload] writes in world [w]. *)
Definition registered_user (payload : RegisterRequest.t) (w : World) : document :=
  Doc (ObjectId.of_N (oid_src w (oids_drawn w)))
      (<["updated_at" := VInt (clock w)]>
        (<["created_at" := VInt (clock w)]>
          (UserSchema.model_dump
             (UserSchema.Build (RegisterRequest.name payload)
                (str_lower (RegisterRequest.email payload))
                (hash_password (RegisterRequest.password payload))
                "user" true)))).

(** The order document [create_order payload user] writes in world [w]. *)
Definition placed_order (payload : CreateOrderRequest.t) (user : option document)
    (w : World) : document :=
  Doc (ObjectId.of_N (oid_src w (oids_drawn w)))
      (<["updated_at" := VInt (clock w)]>
        (<["created_at" := VInt (clock w)]>
          (OrderSchema.model_dump
             (OrderSchema.Build
                ((fun u => ObjectId.to_str (doc_id u)) <$> user)
                (CreateOrderRequest.game_id payload)
                (CreateOrderRequest.transaction_id payload)
                "NAGAD"
                (CreateOrderRequest.delivery_email payload)
                "pending")))).

(** ** A sample store

    One admin and one plain user, a live session for each, a session
    whose user is gone, one game and one order. *)

Definition sample_admin : document :=
  Doc (ObjectId.of_N 1) (UserSchema.model_dump
           (UserSchema.Build "Ada" "ada@example.com" "hash-of-ada" "admin" true)).

Definition sample_user : document :=
  Doc (ObjectId.of_N 2) (UserSchema.model_dump
           (UserSchema.Build "Bob" "bob@example.com" "hash-of-bob" "user" true)).

Definition sample_sessions : list document :=
  [ Doc (ObjectId.of_N 11) (SessionSchema.model_dump
              (SessionSchema.Build (ObjectId.to_str (ObjectId.of_N 1)) "admin-token" 5000));
    Doc (ObjectId.of_N 12) (SessionSchema.model_dump
              (SessionSchema.Build (ObjectId.to_str (ObjectId.of_N 2)) "bob-token" 5000));
    Doc (ObjectId.of_N 13) (SessionSchema.model_dump
              (SessionSchema.Build (ObjectId.to_str (ObjectId.of_N 9)) "ghost-token" 5000)) ].

Definition sample_game : document :=
  Doc (ObjectId.of_N 21) (GameSchema.model_dump
            (GameSchema.Build "Chess" "PC" None (S754_zero false) [] None true)).

Definition sample_order : document :=
  Doc (ObjectId.of_N 31) (OrderSchema.model_dump
            (OrderSchema.Build None (ObjectId.to_str (ObjectId.of_N 21)) "TX-1" "NAGAD"
               "carol@example.com" "pending")).

Definition sample_world : World :=
  MkWorld
    (<[COL_USER := [sample_admin; sample_user]]>
      (<[COL_SESSION := sample_sessions]>
        (<[COL_GAME := [sample_game]]>
          (<[COL_ORDER := [sample_order]]> ∅))))
    1000
    (fun n => "token-" +:+ ObjectId.hex_digits 4 (N.of_nat n))
    0
    (fun n => 100 + N.of_nat n)%N
    0
    [].

(** Stand-ins for the digest, the lower-casing, the reading of integers
    and the regular-expression engine. *)
Definition sample_digest (s : string) : string := "sha256:" +:+ s.
Definition sample_lower (s : string) : string := Py.lower s.
Definition sample_int (s : string) : option Z := None.
Definition sample_compiles (pattern options : string) : bool := true.
Definition sample_regex (pattern options subject : string) : bool := false.

Definition sample_registration : RegisterRequest.t :=
  RegisterRequest.Build "Carol" "Carol@Example.com" "s3cret".

(** A payload that sets no field, and one that sets the title. *)
Definition empty_update : GameUpdateRequest.t :=
  GameUpdateRequest.Build None None None None None None None.

Definition title_update : GameUpdateRequest.t :=
  GameUpdateRequest.Build (Some "Go") None None None None None None.


(** [w] after the store operations [ops] were logged and nothing else
    changed. *)
Definition logged (ops : list store_op) (w : World) : World :=
  MkWorld (db w) (clock w) (token_src w) (tokens_drawn w)
          (oid_src w) (oids_drawn w) (log w ++ ops).


(** The collection [name] is the same in [w'] as in [w]. *)
Definition untouched (name : string) : relation World :=
  fun w w' => coll w' name = coll w name.

(** The collection [name] in [w'] is that of [w] followed by new
    documents. *)
Definition appended (name : string) : relation World :=
  fun w w' => exists new, coll w' name = (coll w name ++ new)%list.

(** The collections an operation may write to. *)
Definition writes (op : operation) : list string :=
  match op with
  | PostRegister _ => [COL_USER; COL_SESSION]
  | PostLogin _ => [COL_SESSION]
  | PostAdminGames _ | PutAdminGame _ _ | DeleteAdminGame _ => [COL_GAME]
  | PostOrders _ | PostAdminOrderStatus _ _ => [COL_ORDER]
  | _ => []
  end.


(** What identifies an order: its id and every field but [status] and
    [updated_at]. *)
Definition order_core (d : document) : ObjectId.t * gmap string value :=
  (doc_id d, delete "status" (delete "updated_at" (doc_fields d))).

(** The orders of [w] are still in [w'], in place, up to [status] and
    [updated_at], followed by new orders. *)
Definition orders_kept : relation World :=
  fun w w' => exists new,
    order_core <$> coll w' COL_ORDER = ((order_core <$> coll w COL_ORDER) ++ new)%list.


(** The clock reads the same in [w'] as in [w]. *)
Definition same_clock : relation World := fun w w' => clock w' = clock w.


(** The game a [POST /admin/games] payload describes. *)
Definition game_of (payload : GameCreateRequest.t) : GameSchema.t :=
  GameSchema.Build
    (GameCreateRequest.title payload)
    (GameCreateRequest.platform payload)
    (GameCreateRequest.description payload)
    (GameCreateRequest.price payload)
    (GameCreateRequest.images payload)
    (GameCreateRequest.category payload)
    (GameCreateRequest.in_stock payload).

(** The game document [create_game payload] writes in world [w]. *)
Definition created_game (payload : GameCreateRequest.t) (w : World) : document :=
  Doc (ObjectId.of_N (oid_src w (oids_drawn w)))
      (<["updated_at" := VInt (clock w)]>
        (<["created_at" := VInt (clock w)]>
          (GameSchema.model_dump (game_of payload)))).

(** A sample game payload. *)
Definition sample_game_request : GameCreateRequest.t :=
  GameCreateRequest.Build "Go" "Mobile"
    (S754_finite false 5 0) (Some "The game of Go") ["go.png"] (Some "Board") true.


(** The email a user document carries, when it is a string. *)
Definition email_of (d : document) : option string :=
  match get d "email" with
  | Some (VStr e) => Some e
  | _ => None
  end.

(** No two stored users have the same email up to case. *)
Definition emails_distinct (users : list document) : Prop :=
  NoDup (str_lower <$> omap email_of users).


(** The status codes with which an operation can be refused. *)
Definition statuses (op : operation) : list Z :=
  match op with
  | GetRoot | GetTest | GetSchema | GetGames _ _ _ => []
  | PostRegister _ => [400]
  | PostLogin _ | GetMe | GetOrdersMine => [401]
  | GetGame _ | PostOrders _ => [400; 404]
  | PostAdminGames _ | GetAdminOrders _ => [401; 403]
  | PutAdminGame _ _ | DeleteAdminGame _ | PostAdminOrderStatus _ _ =>
      [400; 401; 403; 404]
  end.

(** In the words of the spec, a valid identifier: 24 hexadecimal
    digits. *)
Fixpoint all_hex (s : string) : bool :=
  match s with
  | EmptyString => true
  | String c s' =>
      match ObjectId.hex_val c with
      | Some _ => all_hex s'
      | None => false
      end
  end.

Definition hex24 (s : string) : bool :=
  Nat.eqb (String.length s) 24 && all_hex s.

(** * Properties *)

(** ** The embedding on concrete inputs *)

Example ttl_is_seven_days : SESSION_TTL_SECONDS = 604800.
Proof. reflexivity. Qed.

Example lower_mixed_case : Py.lower "BeArEr Tok3N" = "bearer tok3n".
Proof. reflexivity. Qed.

Example split_keeps_later_spaces : Py.split_space_1 "Bearer abc def" = Some "abc def".
Proof. reflexivity. Qed.

Example split_without_space : Py.split_space_1 "Bearer" = None.
Proof. reflexivity. Qed.

Example object_id_to_str :
  ObjectId.to_str (ObjectId.of_N 255) = "0000000000000000000000ff".
Proof. reflexivity. Qed.

Example object_id_of_upper_case :
  ObjectId.of_str "0000000000000000000000FF" = Some (ObjectId.of_N 255).
Proof. reflexivity. Qed.

Example object_id_with_spaces :
  ObjectId.of_str "00 00 00 00 00 00 00 15 " = Some (ObjectId.bytes_of 8 21).
Proof. reflexivity. Qed.

Example object_id_split_byte : ObjectId.of_str "0 0000000000000000000000" = None.
Proof. reflexivity. Qed.

Example object_id_too_short : ObjectId.is_valid "ff" = false.
Proof. reflexivity. Qed.

Example object_id_not_hex : ObjectId.is_valid "00000000000000000000000g" = false.
Proof. reflexivity. Qed.

Example updates_of_empty : updates_of empty_update = [].
Proof. reflexivity. Qed.

Example updates_of_title : updates_of title_update = [("title", VStr "Go")].
Proof. reflexivity. Qed.

(** ** Strings and object identifiers *)

Lemma lower_ascii_idem c : Py.lower_ascii (Py.lower_ascii c) = Py.lower_ascii c.
Proof. destruct c as [[] [] [] [] [] [] [] []]; reflexivity. Qed.

Lemma lower_idem s : Py.lower (Py.lower s) = Py.lower s.
Proof.
  induction s as [|c s IH]; simpl; [reflexivity|].
  now rewrite lower_ascii_idem, IH.
Qed.

Lemma string_length_app (s1 s2 : string) :
  String.length (s1 +:+ s2) = (String.length s1 + String.length s2)%nat.
Proof. induction s1 as [|c s1 IH]; simpl; [reflexivity | now rewrite IH]. Qed.

Lemma hex_val_hex_char d :
  (d < 16)%N -> ObjectId.hex_val (ObjectId.hex_char d) = Some d.
Proof.
  intros Hd. rewrite <- (N2Nat.id d).
  assert (Hn : (N.to_nat d < 16)%nat) by lia.
  clear Hd. revert Hn. generalize (N.to_nat d). intros n Hn.
  do 16 (destruct n as [|n]; [reflexivity|]). lia.
Qed.

Lemma is_space_hex_char d :
  (d < 16)%N -> ObjectId.is_space (ObjectId.hex_char d) = false.
Proof.
  intros Hd. rewrite <- (N2Nat.id d).
  assert (Hn : (N.to_nat d < 16)%nat) by lia.
  clear Hd. revert Hn. generalize (N.to_nat d). intros n Hn.
  do 16 (destruct n as [|n]; [reflexivity|]). lia.
Qed.

Lemma fromhex_byte c s :
  ObjectId.fromhex
    (String (ObjectId.hex_char (N_of_ascii c / 16))
       (String (ObjectId.hex_char (N_of_ascii c mod 16)) s))
  = String c <$> ObjectId.fromhex s.
Proof.
  assert (Hc : (N_of_ascii c < 256)%N) by apply N_ascii_bounded.
  assert (Hhi : (N_of_ascii c / 16 < 16)%N)
    by (apply N.Div0.div_lt_upper_bound; lia).
  assert (Hlo : (N_of_ascii c mod 16 < 16)%N) by (apply N.mod_lt; lia).
  cbn [ObjectId.fromhex].
  rewrite (is_space_hex_char _ Hhi), (hex_val_hex_char _ Hhi), (hex_val_hex_char _ Hlo).
  rewrite <- N.div_mod by lia. now rewrite ascii_N_embedding.
Qed.

(** [bytes.fromhex] reads back what [hexlify] wrote. *)
Lemma fromhex_hexlify b : ObjectId.fromhex (ObjectId.hexlify b) = Some b.
Proof.
  induction b as [|c b IH]; [reflexivity|].
  cbn [ObjectId.hexlify]. now rewrite fromhex_byte, IH.
Qed.

Lemma length_hexlify b :
  String.length (ObjectId.hexlify b) = (2 * String.length b)%nat.
Proof. induction b as [|c b IH]; simpl; [reflexivity|]. rewrite IH. lia. Qed.

Lemma length_bytes_of k n : String.length (ObjectId.bytes_of k n) = k.
Proof.
  revert n. induction k as [|k IH]; intros n; simpl; [reflexivity|].
  rewrite string_length_app, IH. simpl. lia.
Qed.

(** [ObjectId(str(o))] is [o] again when [o] has twelve bytes: the
    string form is accepted by the constructor and names the same
    bytes. *)
Lemma of_str_to_str o :
  String.length o = 12%nat -> ObjectId.of_str (ObjectId.to_str o) = Some o.
Proof.
  intros Hlen. unfold ObjectId.of_str, ObjectId.to_str.
  rewrite length_hexlify, Hlen. cbn [Nat.mul Nat.add Nat.eqb].
  apply fromhex_hexlify.
Qed.

(** So it is for every identifier the store assigns. *)
Lemma of_str_of_N n :
  ObjectId.of_str (ObjectId.to_str (ObjectId.of_N n)) = Some (ObjectId.of_N n).
Proof. apply of_str_to_str, length_bytes_of. Qed.

Lemma hex_val_not_space c d :
  ObjectId.hex_val c = Some d -> ObjectId.is_space c = false.
Proof.
  destruct c as [[] [] [] [] [] [] [] []]; cbv; intros H;
    try discriminate H; reflexivity.
Qed.

Lemma fromhex_all_hex n s :
  String.length s = (2 * n)%nat -> all_hex s = true ->
  exists b, ObjectId.fromhex s = Some b.
Proof.
  revert s. induction n as [|n IH]; intros s Hlen Hhex.
  - destruct s; [now exists EmptyString | discriminate Hlen].
  - destruct s as [|c1 [|c2 s]]; try (simpl in Hlen; lia).
    cbn [all_hex] in Hhex.
    destruct (ObjectId.hex_val c1) as [d1|] eqn:H1; [|discriminate Hhex].
    destruct (ObjectId.hex_val c2) as [d2|] eqn:H2; [|discriminate Hhex].
    destruct (IH s ltac:(simpl in Hlen; lia) Hhex) as [b Hb].
    exists (String (ascii_of_N (16 * d1 + d2)) b).
    cbn [ObjectId.fromhex]. now rewrite (hex_val_not_space _ _ H1), H1, H2, Hb.
Qed.

(** The constructor accepts every string of 24 hexadecimal digits; the
    strings it accepts beside these have white space between pairs of
    digits. *)
Lemma hex24_valid s : hex24 s = true -> ObjectId.is_valid s = true.
Proof.
  unfold hex24, ObjectId.is_valid, ObjectId.of_str.
  intros H. apply andb_true_iff in H as [Hlen Hhex]. rewrite Hlen.
  apply Nat.eqb_eq in Hlen.
  destruct (fromhex_all_hex 12 s Hlen Hhex) as [b ->]. reflexivity.
Qed.

Lemma object_id_eqb_refl o : ObjectId.eqb o o = true.
Proof. apply String.eqb_refl. Qed.

Lemma object_id_eqb_eq o1 o2 : ObjectId.eqb o1 o2 = true <-> o1 = o2.
Proof. apply String.eqb_eq. Qed.

(** ** The store *)

Lemma find_app_none {A} (f : A -> bool) (l l' : list A) :
  List.find f l = None -> List.find f (l ++ l') = List.find f l'.
Proof.
  induction l as [|x l IH]; simpl; [reflexivity|].
  destruct (f x); [discriminate | exact IH].
Qed.

Lemma find_app_some {A} (f : A -> bool) (l l' : list A) x :
  List.find f l = Some x -> List.find f (l ++ l') = Some x.
Proof.
  induction l as [|y l IH]; simpl; [discriminate|].
  destruct (f y); [trivial | exact IH].
Qed.

Lemma coll_insert_one_eq name fields w :
  coll (snd (insert_one name fields w)) name =
  (coll w name ++ [Doc (ObjectId.of_N (oid_src w (oids_drawn w))) fields])%list.
Proof. unfold coll at 1, insert_one; simpl. now rewrite lookup_insert_eq. Qed.

Lemma coll_insert_one_ne name name' fields w :
  name <> name' -> coll (snd (insert_one name fields w)) name' = coll w name'.
Proof. intros H. unfold coll, insert_one; simpl. now rewrite lookup_insert_ne. Qed.

Lemma coll_update_one_ne name name' q upd w :
  name <> name' -> coll (snd (update_one name q upd w)) name' = coll w name'.
Proof.
  intros H. unfold update_one.
  destruct (update_first q upd (coll w name)); simpl; [|reflexivity].
  unfold log_op, coll; simpl. now rewrite lookup_insert_ne.
Qed.

Lemma coll_delete_one_ne name name' q w :
  name <> name' -> coll (snd (delete_one name q w)) name' = coll w name'.
Proof.
  intros H. unfold delete_one.
  destruct (delete_first q (coll w name)); simpl; [|reflexivity].
  unfold log_op, coll; simpl. now rewrite lookup_insert_ne.
Qed.

(** ** The bearer header *)

Lemma lower_ascii_not_space c a :
  Py.lower_ascii c = a -> a <> " "%char -> Ascii.eqb c " " = false.
Proof.
  intros H Ha. destruct (Ascii.eqb_spec c " ") as [->|]; [|reflexivity].
  exfalso. apply Ha. rewrite <- H. reflexivity.
Qed.

Lemma bearer_parts h tok :
  bearer h tok ->
  String.eqb h "" = false /\
  Py.startswith (Py.lower h) "bearer " = true /\
  Py.split_space_1 h = Some tok.
Proof.
  intros [scheme [Hs ->]].
  destruct scheme as [|c1 [|c2 [|c3 [|c4 [|c5 [|c6 [|c7 s]]]]]]];
    simpl in Hs; try discriminate.
  injection Hs as H1 H2 H3 H4 H5 H6.
  split; [reflexivity|]. split.
  - simpl. rewrite H1, H2, H3, H4, H5, H6. reflexivity.
  - simpl.
    rewrite (lower_ascii_not_space _ _ H1), (lower_ascii_not_space _ _ H2),
      (lower_ascii_not_space _ _ H3), (lower_ascii_not_space _ _ H4),
      (lower_ascii_not_space _ _ H5), (lower_ascii_not_space _ _ H6)
      by discriminate.
    reflexivity.
Qed.

Lemma bearer_canonical tok : bearer ("Bearer " +:+ tok) tok.
Proof. exists "Bearer". split; reflexivity. Qed.

(** ** The authenticator, case by case *)

Lemma get_current_user_no_header w : get_current_user None w = (Return None, w).
Proof. reflexivity. Qed.

Lemma get_current_user_not_bearer h w :
  Py.startswith (Py.lower h) "bearer " = false ->
  get_current_user (Some h) w = (Return None, w).
Proof.
  intros H. unfold get_current_user. rewrite H.
  now rewrite orb_true_r.
Qed.

Lemma get_current_user_unknown h tok w :
  bearer h tok ->
  List.find (matches [Field "token" (Eq tok)]) (coll w COL_SESSION) = None ->
  get_current_user (Some h) w =
  (Return None, log_op (FindOne COL_SESSION [Field "token" (Eq tok)]) w).
Proof.
  intros Hb Hf. destruct (bearer_parts _ _ Hb) as (H1 & H2 & H3).
  unfold get_current_user. rewrite H1, H2, H3. simpl.
  unfold bind, find_one. rewrite Hf. reflexivity.
Qed.

(** With a stored session whose expiry reads as an integer, the result
    is decided by the clock and by the lookup of the session's user. *)
Lemma get_current_user_session h tok sess exp w :
  bearer h tok ->
  List.find (matches [Field "token" (Eq tok)]) (coll w COL_SESSION) = Some sess ->
  py_int (default (VInt 0) (get sess "expires_at")) = Some exp ->
  fst (get_current_user (Some h) w) =
  Return (if clock w >? exp then None
          else match get sess "user_id" with
               | Some (VStr s) =>
                   match ObjectId.of_str s with
                   | Some o => List.find (matches [ById o]) (coll w COL_USER)
                   | None => None
                   end
               | _ => None
               end).
Proof.
  intros Hb Hf He. destruct (bearer_parts _ _ Hb) as (H1 & H2 & H3).
  unfold get_current_user. rewrite H1, H2, H3. simpl.
  unfold bind, find_one. rewrite Hf. cbn [fst snd time_now log_op clock].
  rewrite He. cbn [fst snd].
  destruct (clock w >? exp); [reflexivity|].
  destruct (get sess "user_id") as [[| | | |s|]|]; try reflexivity.
  simpl. unfold ObjectId.is_valid, oid.
  destruct (ObjectId.of_str s); reflexivity.
Qed.

(** With a stored session whose expiry does not read as an integer,
    [int] raises and nothing catches it. *)
Lemma get_current_user_unreadable h tok sess w :
  bearer h tok ->
  List.find (matches [Field "token" (Eq tok)]) (coll w COL_SESSION) = Some sess ->
  py_int (default (VInt 0) (get sess "expires_at")) = None ->
  fst (get_current_user (Some h) w) =
  Uncaught (int_error (default (VInt 0) (get sess "expires_at"))).
Proof.
  intros Hb Hf He. destruct (bearer_parts _ _ Hb) as (H1 & H2 & H3).
  unfold get_current_user. rewrite H1, H2, H3. simpl.
  unfold bind, find_one. rewrite Hf. cbn [fst snd time_now log_op clock].
  now rewrite He.
Qed.

(** ** What the handlers leave in place

    A relation between the world before and the world after that only
    looks at the users and the sessions, and that admits a new session,
    is kept by every handler but [register]. *)

Section Keeps.

Context (R : relation World) `{!PreOrder R}.

Hypothesis R_view : forall w w',
  coll w' COL_USER = coll w COL_USER ->
  coll w' COL_SESSION = coll w COL_SESSION -> R w w'.

Hypothesis R_session : forall w w' d,
  coll w' COL_USER = coll w COL_USER ->
  coll w' COL_SESSION = (coll w COL_SESSION ++ [d])%list -> R w w'.

Lemma keeps_ret {A} (a : A) : keeps R (ret a).
Proof. intros w. simpl. reflexivity. Qed.

Lemma keeps_raise {A} c d : keeps R (@raise A c d).
Proof. intros w. simpl. reflexivity. Qed.

Lemma keeps_crash {A} e : keeps R (@crash A e).
Proof. intros w. simpl. reflexivity. Qed.

Lemma keeps_bind {A B} (m : M A) (k : A -> M B) :
  keeps R m -> (forall a, keeps R (k a)) -> keeps R (bind m k).
Proof.
  intros Hm Hk w. unfold bind. specialize (Hm w).
  destruct (m w) as [[a|c d|e] w1]; simpl in *; [|assumption..].
  etransitivity; [exact Hm | apply Hk].
Qed.

Lemma keeps_fmap_M {A B} (f : A -> B) (m : M A) : keeps R m -> keeps R (fmap_M f m).
Proof. intros Hm. apply keeps_bind; [assumption | intros; apply keeps_ret]. Qed.

Lemma keeps_time_now : keeps R time_now.
Proof. intros w. simpl. reflexivity. Qed.

Lemma keeps_token_hex : keeps R token_hex.
Proof. intros w. apply R_view; reflexivity. Qed.

Lemma keeps_find_one name q : keeps R (find_one name q).
Proof. intros w. apply R_view; reflexivity. Qed.

Lemma keeps_find name q limit : keeps R (find name q limit).
Proof. intros w. apply R_view; reflexivity. Qed.

Lemma keeps_list_collection_names : keeps R list_collection_names.
Proof. intros w. apply R_view; reflexivity. Qed.

Lemma keeps_oid s : keeps R (oid s).
Proof. unfold oid. destruct (ObjectId.of_str s); [apply keeps_ret | apply keeps_raise]. Qed.

Lemma keeps_insert_one name fields :
  name <> COL_USER -> keeps R (insert_one name fields).
Proof.
  intros Hu w. destruct (decide (name = COL_SESSION)) as [->|Hs].
  - eapply R_session.
    + now apply coll_insert_one_ne.
    + apply coll_insert_one_eq.
  - apply R_view; now apply coll_insert_one_ne.
Qed.

Lemma keeps_create_document name data :
  name <> COL_USER -> keeps R (create_document name data).
Proof.
  intros Hu. unfold create_document.
  apply keeps_bind; [apply keeps_time_now | intros now].
  apply keeps_bind; [now apply keeps_insert_one | intros o; apply keeps_ret].
Qed.

Lemma keeps_update_one name q upd :
  name <> COL_USER -> name <> COL_SESSION -> keeps R (update_one name q upd).
Proof. intros Hu Hs w. apply R_view; now apply coll_update_one_ne. Qed.

Lemma keeps_delete_one name q :
  name <> COL_USER -> name <> COL_SESSION -> keeps R (delete_one name q).
Proof. intros Hu Hs w. apply R_view; now apply coll_delete_one_ne. Qed.

Ltac keeps_step :=
  lazymatch goal with
  | |- keeps _ (let _ := _ in _) => cbv zeta
  | |- keeps _ (ret _) => apply keeps_ret
  | |- keeps _ (raise _ _) => apply keeps_raise
  | |- keeps _ (crash _) => apply keeps_crash
  | |- keeps _ time_now => apply keeps_time_now
  | |- keeps _ token_hex => apply keeps_token_hex
  | |- keeps _ (find_one _ _) => apply keeps_find_one
  | |- keeps _ (find _ _ _) => apply keeps_find
  | |- keeps _ list_collection_names => apply keeps_list_collection_names
  | |- keeps _ (oid _) => apply keeps_oid
  | |- keeps _ (create_document _ _) => apply keeps_create_document; discriminate
  | |- keeps _ (update_one _ _ _) => apply keeps_update_one; discriminate
  | |- keeps _ (delete_one _ _) => apply keeps_delete_one; discriminate
  | |- keeps _ (fmap_M _ _) => apply keeps_fmap_M
  | |- keeps _ (bind _ _) => apply keeps_bind; [|intros ?]
  | |- keeps _ (match ?x with _ => _ end) => destruct x
  end.

Ltac keeps_auto := repeat keeps_step.

Lemma keeps_create_session user_id : keeps R (create_session user_id).
Proof. unfold create_session. keeps_auto. Qed.

Lemma keeps_get_current_user authorization : keeps R (get_current_user authorization).
Proof. unfold get_current_user. keeps_auto. Qed.

Lemma keeps_require_admin user : keeps R (require_admin user).
Proof. unfold require_admin. keeps_auto. Qed.

Lemma keeps_login payload : keeps R (login payload).
Proof.
  unfold login. apply keeps_bind; [apply keeps_find_one | intros [user|]].
  - destruct (negb _); [apply keeps_raise|].
    apply keeps_bind; [apply keeps_create_session | intros token].
    unfold str_field, email_field. keeps_auto.
  - apply keeps_raise.
Qed.

Lemma keeps_create_order payload user : keeps R (create_order payload user).
Proof. unfold create_order. keeps_auto. Qed.

Lemma keeps_update_game game_id payload user : keeps R (update_game game_id payload user).
Proof. unfold update_game. keeps_auto. Qed.

Lemma keeps_update_order_status order_id payload user :
  keeps R (update_order_status order_id payload user).
Proof. unfold update_order_status. keeps_auto. Qed.

(** Every operation other than registration. *)
Lemma keeps_handle authorization op :
  (forall payload, op <> PostRegister payload) ->
  keeps R (handle authorization op).
Proof.
  intros Hop. destruct op; cbn [handle];
    try (exfalso; eapply Hop; reflexivity).
  - unfold root. keeps_auto.
  - unfold test_database. keeps_auto.
  - apply keeps_fmap_M, keeps_login.
  - apply keeps_bind; [apply keeps_get_current_user | intros user].
    unfold me. keeps_auto.
  - unfold list_games. keeps_auto.
  - unfold get_game. keeps_auto.
  - apply keeps_bind; [apply keeps_get_current_user | intros user].
    apply keeps_bind; [apply keeps_require_admin | intros admin].
    unfold create_game. keeps_auto.
  - apply keeps_bind; [apply keeps_get_current_user | intros user].
    apply keeps_bind; [apply keeps_require_admin | intros admin].
    apply keeps_fmap_M, keeps_update_game.
  - apply keeps_bind; [apply keeps_get_current_user | intros user].
    apply keeps_bind; [apply keeps_require_admin | intros admin].
    unfold delete_game. keeps_auto.
  - apply keeps_bind; [apply keeps_get_current_user | intros user].
    apply keeps_fmap_M, keeps_create_order.
  - apply keeps_bind; [apply keeps_get_current_user | intros user].
    unfold my_orders. keeps_auto.
  - apply keeps_bind; [apply keeps_get_current_user | intros user].
    apply keeps_bind; [apply keeps_require_admin | intros admin].
    unfold admin_list_orders. keeps_auto.
  - apply keeps_bind; [apply keeps_get_current_user | intros user].
    apply keeps_bind; [apply keeps_require_admin | intros admin].
    apply keeps_fmap_M, keeps_update_order_status.
  - keeps_auto.
Qed.

End Keeps.

(** ** Users and sessions are only ever appended *)

#[local] Instance grows_preorder : PreOrder grows.
Proof.
  split.
  - intros w. exists [], []. rewrite !app_nil_r. repeat split. constructor.
  - intros w1 w2 w3 (us & ss & Hu & Hp & Hs) (us' & ss' & Hu' & Hp' & Hs').
    exists (us ++ us')%list, (ss ++ ss')%list.
    rewrite Hu', Hu, Hs', Hs, !app_assoc. repeat split.
    apply Forall_app; split; assumption.
Qed.

#[local] Instance same_users_preorder : PreOrder same_users.
Proof.
  split.
  - intros w. split; [reflexivity|]. exists []. now rewrite app_nil_r.
  - intros w1 w2 w3 (Hu & ss & Hs) (Hu' & ss' & Hs').
    split; [congruence|]. exists (ss ++ ss')%list.
    now rewrite Hs', Hs, app_assoc.
Qed.

Lemma grows_view w w' :
  coll w' COL_USER = coll w COL_USER ->
  coll w' COL_SESSION = coll w COL_SESSION -> grows w w'.
Proof.
  intros Hu Hs. exists [], []. rewrite !app_nil_r. repeat split; auto.
Qed.

Lemma grows_session w w' d :
  coll w' COL_USER = coll w COL_USER ->
  coll w' COL_SESSION = (coll w COL_SESSION ++ [d])%list -> grows w w'.
Proof.
  intros Hu Hs. exists [], [d]. rewrite app_nil_r. repeat split; auto.
Qed.

Lemma same_users_view w w' :
  coll w' COL_USER = coll w COL_USER ->
  coll w' COL_SESSION = coll w COL_SESSION -> same_users w w'.
Proof. intros Hu Hs. split; [assumption|]. exists []. now rewrite app_nil_r. Qed.

Lemma same_users_session w w' d :
  coll w' COL_USER = coll w COL_USER ->
  coll w' COL_SESSION = (coll w COL_SESSION ++ [d])%list -> same_users w w'.
Proof. intros Hu Hs. split; [assumption|]. now exists [d]. Qed.

(** The user document [register] writes in world [w]. *)
Lemma register_user_plain (payload : RegisterRequest.t) o now :
  plain_user
    (Doc o (<["updated_at" := VInt now]> (<["created_at" := VInt now]>
       (UserSchema.model_dump
          (UserSchema.Build (RegisterRequest.name payload)
             (str_lower (RegisterRequest.email payload))
             (hash_password (RegisterRequest.password payload)) "user" true))))).
Proof.
  split; reflexivity.
Qed.

Lemma keeps_register payload : keeps grows (register payload).
Proof.
  unfold register.
  apply (keeps_bind grows); [apply (keeps_find_one _ grows_view) | intros [existing|]].
  { apply keeps_raise; typeclasses eauto. }
  cbv zeta. apply (keeps_bind grows).
  - intros w. unfold create_document, bind, time_now. cbn [fst snd].
    set (fields := <["updated_at" := VInt (clock w)]> _).
    exists [Doc (ObjectId.of_N (oid_src w (oids_drawn w))) fields], [].
    rewrite app_nil_r. split; [apply coll_insert_one_eq|]. split.
    + constructor; [apply register_user_plain | constructor].
    + now apply coll_insert_one_ne.
  - intros user_id.
    apply (keeps_bind grows);
      [apply (keeps_create_session _ grows_view grows_session) | intros token].
    apply keeps_ret; typeclasses eauto.
Qed.

Lemma keeps_handle_grows authorization op : keeps grows (handle authorization op).
Proof.
  destruct op; try (apply (keeps_handle _ grows_view grows_session); discriminate).
  cbn [handle]. apply keeps_fmap_M; [typeclasses eauto | apply keeps_register].
Qed.

Lemma coll_set_clock t w name : coll (set_clock t w) name = coll w name.
Proof. reflexivity. Qed.

Lemma run_grows reqs w : grows w (run reqs w).
Proof.
  revert w. induction reqs as [|[[t authorization] op] reqs IH]; intros w.
  - reflexivity.
  - cbn [run]. etransitivity; [|apply IH].
    etransitivity; [|apply keeps_handle_grows].
    apply grows_view; reflexivity.
Qed.

(** ** Session issue and validation *)

Lemma create_session_sessions user_id w :
  coll (snd (create_session user_id w)) COL_SESSION =
  (coll w COL_SESSION ++ [issued_session user_id w])%list.
Proof.
  unfold create_session, create_document, bind, token_hex, time_now; simpl.
  unfold coll at 1; simpl. now rewrite lookup_insert_eq.
Qed.

Lemma create_session_users user_id w :
  coll (snd (create_session user_id w)) COL_USER = coll w COL_USER.
Proof.
  unfold create_session, create_document, bind, token_hex, time_now; simpl.
  unfold coll; simpl. now rewrite lookup_insert_ne.
Qed.

Lemma issued_session_matches user_id w :
  matches [Field "token" (Eq (token_src w (tokens_drawn w)))]
    (issued_session user_id w) = true.
Proof.
  unfold matches, issued_session; simpl. unfold get; simpl.
  replace ((<["updated_at" := VInt (clock w)]> (<["created_at" := VInt (clock w)]>
    (SessionSchema.model_dump
       (SessionSchema.Build user_id (token_src w (tokens_drawn w))
          (clock w + SESSION_TTL_SECONDS))))) !! "token")
    with (Some (VStr (token_src w (tokens_drawn w)))) by reflexivity.
  simpl. now rewrite String.eqb_refl.
Qed.

(** Where the freshly issued session is found, whatever requests were
    served since. *)
Lemma issued_session_found user_id w reqs t :
  List.find (matches [Field "token" (Eq (token_src w (tokens_drawn w)))])
    (coll w COL_SESSION) = None ->
  List.find (matches [Field "token" (Eq (token_src w (tokens_drawn w)))])
    (coll (set_clock t (run reqs (snd (create_session user_id w)))) COL_SESSION)
  = Some (issued_session user_id w).
Proof.
  intros Hfresh. rewrite coll_set_clock.
  destruct (run_grows reqs (snd (create_session user_id w))) as (us & ss & _ & _ & Hs).
  rewrite Hs, create_session_sessions.
  apply find_app_some. rewrite (find_app_none _ _ _ Hfresh). cbn [List.find].
  now rewrite issued_session_matches.
Qed.

Lemma users_after user_id w reqs t o u :
  List.find (matches [ById o]) (coll w COL_USER) = Some u ->
  List.find (matches [ById o])
    (coll (set_clock t (run reqs (snd (create_session user_id w)))) COL_USER) = Some u.
Proof.
  intros Hu. rewrite coll_set_clock.
  destruct (run_grows reqs (snd (create_session user_id w))) as (us & ss & Hus & _ & _).
  rewrite Hus, create_session_users. now apply find_app_some.
Qed.

(** C1: a session issued by [create_session] at time [T] with a fresh
    token authenticates its bearer as the owning user at every time
    [t <= T + 604800], the instant of expiry included, and as nobody at
    every later time; this holds whatever requests the API has served in
    between. *)
Theorem session_valid_until_expiry w user_id h reqs t :
  let tok := token_src w (tokens_drawn w) in
  let authenticated :=
    fst (get_current_user (Some h)
           (set_clock t (run reqs (snd (create_session user_id w))))) in
  bearer h tok ->
  List.find (matches [Field "token" (Eq tok)]) (coll w COL_SESSION) = None ->
  fst (create_session user_id w) = Return tok /\
  (forall o u,
      ObjectId.of_str user_id = Some o ->
      List.find (matches [ById o]) (coll w COL_USER) = Some u ->
      t <= clock w + 604800 ->
      authenticated = Return (Some u)) /\
  (clock w + 604800 < t -> authenticated = Return None).
Proof.
  intros tok authenticated Hb Hfresh.
  assert (Hauth : authenticated =
    Return (if t >? clock w + 604800 then None
            else match ObjectId.of_str user_id with
                 | Some o => List.find (matches [ById o])
                     (coll (set_clock t (run reqs (snd (create_session user_id w))))
                        COL_USER)
                 | None => None
                 end)).
  { unfold authenticated.
    erewrite get_current_user_session;
      [ | exact Hb | apply issued_session_found, Hfresh | reflexivity ].
    reflexivity. }
  split; [reflexivity|]. split.
  - intros o u Ho Hu Ht. rewrite Hauth.
    replace (t >? clock w + 604800) with false by (symmetry; rewrite Z.gtb_ltb; apply Z.ltb_ge; lia).
    rewrite Ho. f_equal. now apply users_after.
  - intros Ht. rewrite Hauth.
    replace (t >? clock w + 604800) with true by (symmetry; rewrite Z.gtb_ltb; apply Z.ltb_lt; lia).
    reflexivity.
Qed.

(** ** Which status codes a handler can raise *)

Section RaisesOnly.

Context (P : Z -> Prop).

Lemma raises_only_ret {A} (a : A) : raises_only P (ret a).
Proof. intros w c d H. discriminate. Qed.

Lemma raises_only_crash {A} e : raises_only P (@crash A e).
Proof. intros w c d H. discriminate. Qed.

Lemma raises_only_raise {A} c d : P c -> raises_only P (@raise A c d).
Proof. intros Hc w c' d' H. injection H as <- _. exact Hc. Qed.

Lemma raises_only_bind {A B} (m : M A) (k : A -> M B) :
  raises_only P m -> (forall a, raises_only P (k a)) -> raises_only P (bind m k).
Proof.
  intros Hm Hk w c d. unfold bind. specialize (Hm w).
  destruct (m w) as [[a|c' d'|e] w1]; simpl in *.
  - apply Hk.
  - intros H. injection H as <- _. now apply (Hm c' d').
  - discriminate.
Qed.

Lemma raises_only_fmap_M {A B} (f : A -> B) (m : M A) :
  raises_only P m -> raises_only P (fmap_M f m).
Proof. intros Hm. apply raises_only_bind; [assumption | intros; apply raises_only_ret]. Qed.

Lemma raises_only_time_now : raises_only P time_now.
Proof. intros w c d H. discriminate. Qed.

Lemma raises_only_find_one name q : raises_only P (find_one name q).
Proof. intros w c d H. discriminate. Qed.

Lemma raises_only_find name q limit : raises_only P (find name q limit).
Proof. intros w c d. unfold find. cbn [fst]. destruct (query_ok q); discriminate. Qed.

Lemma raises_only_update_one name q upd : raises_only P (update_one name q upd).
Proof.
  intros w c d. unfold update_one.
  destruct (update_first q upd (coll w name)); discriminate.
Qed.

Lemma raises_only_delete_one name q : raises_only P (delete_one name q).
Proof.
  intros w c d. unfold delete_one.
  destruct (delete_first q (coll w name)); discriminate.
Qed.

Lemma raises_only_create_document name data : raises_only P (create_document name data).
Proof. intros w c d H. discriminate. Qed.

Hypothesis P_400 : P 400.

Lemma raises_only_oid s : raises_only P (oid s).
Proof.
  unfold oid. destruct (ObjectId.of_str s);
    [apply raises_only_ret | now apply raises_only_raise].
Qed.

Ltac raises_step :=
  lazymatch goal with
  | |- raises_only _ (let _ := _ in _) => cbv zeta
  | |- raises_only _ (ret _) => apply raises_only_ret
  | |- raises_only _ (crash _) => apply raises_only_crash
  | |- raises_only _ (raise _ _) => apply raises_only_raise
  | |- raises_only _ time_now => apply raises_only_time_now
  | |- raises_only _ (find_one _ _) => apply raises_only_find_one
  | |- raises_only _ (find _ _ _) => apply raises_only_find
  | |- raises_only _ (oid _) => apply raises_only_oid
  | |- raises_only _ (create_document _ _) => apply raises_only_create_document
  | |- raises_only _ (update_one _ _ _) => apply raises_only_update_one
  | |- raises_only _ (delete_one _ _) => apply raises_only_delete_one
  | |- raises_only _ (fmap_M _ _) => apply raises_only_fmap_M
  | |- raises_only _ (bind _ _) => apply raises_only_bind; [|intros ?]
  | |- raises_only _ (match ?x with _ => _ end) => destruct x
  end.

Lemma raises_only_get_current_user authorization :
  raises_only P (get_current_user authorization).
Proof. unfold get_current_user. repeat raises_step; assumption. Qed.

Hypothesis P_404 : P 404.

Lemma raises_only_behind_gate op user : raises_only P (behind_gate op user).
Proof.
  destruct op;
    unfold behind_gate, create_game, update_game, delete_game, admin_list_orders,
      update_order_status;
    repeat raises_step; assumption.
Qed.

End RaisesOnly.

(** ** The authorisation gate *)

Lemma eq_str_true v s : eq_str v s = true <-> v = Some (VStr s).
Proof.
  unfold eq_str. destruct v as [[| | | |x|]|]; try (split; discriminate).
  rewrite String.eqb_eq. split; [now intros -> | now intros [= ->]].
Qed.

Lemma eq_str_false v s : eq_str v s = false <-> v <> Some (VStr s).
Proof.
  rewrite <- eq_str_true. destruct (eq_str v s); split; congruence.
Qed.

Lemma handle_admin_only authorization op :
  admin_only op = true ->
  handle authorization op =
  (user <- get_current_user authorization;;
   user <- require_admin user;;
   behind_gate op user).
Proof. intros Hop. destruct op; try discriminate Hop; reflexivity. Qed.

(** C2: on an admin-only operation, no identity gives 401, an
    identity whose role is not "admin" gives 403, and a 403 is only ever
    answered to an authenticated user whose role is not "admin". *)
Theorem admin_gate authorization op w :
  admin_only op = true ->
  let who := fst (get_current_user authorization w) in
  let w1 := snd (get_current_user authorization w) in
  (who = Return None ->
   handle authorization op w = (HTTPException 401 "Unauthorized", w1)) /\
  (forall u, who = Return (Some u) -> get u "role" <> Some (VStr "admin") ->
   handle authorization op w = (HTTPException 403 "Admin access required", w1)) /\
  (forall d, fst (handle authorization op w) = HTTPException 403 d ->
   exists u, who = Return (Some u) /\ get u "role" <> Some (VStr "admin")).
Proof.
  intros Hop who w1. rewrite (handle_admin_only _ _ Hop).
  subst who w1. unfold bind. cbv beta.
  pose proof (raises_only_get_current_user (fun c => c <> 403) ltac:(discriminate)
                authorization w) as Hauth.
  destruct (get_current_user authorization w) as [[user|c d|e] w1]; cbn [fst snd] in *.
  - destruct user as [u|].
    + unfold require_admin.
      destruct (eq_str (get u "role") "admin") eqn:Hrole; cbn [negb fst snd].
      * apply eq_str_true in Hrole. repeat split.
        -- discriminate.
        -- intros u' [= <-] Hne. contradiction.
        -- intros d Hd. exfalso.
           now apply (raises_only_behind_gate (fun c => c <> 403)
                        ltac:(discriminate) ltac:(discriminate) op u w1 403 d).
      * apply eq_str_false in Hrole. repeat split.
        -- discriminate.
        -- intros d _. exists u. split; [reflexivity | assumption].
    + repeat split; try discriminate.
  - repeat split; try discriminate.
    intros d' [= -> _]. exfalso. now apply (Hauth 403 d).
  - repeat split; discriminate.
Qed.

(** ** Anonymous requests *)

Lemma lower_ascii_space c : Py.lower_ascii c = " "%char -> c = " "%char.
Proof. destruct c as [[] [] [] [] [] [] [] []]; try discriminate; reflexivity. Qed.

(** A header that passes the prefix test presents some token. *)
Lemma startswith_bearer h :
  Py.startswith (Py.lower h) "bearer " = true -> exists tok, bearer h tok.
Proof.
  destruct h as [|c1 [|c2 [|c3 [|c4 [|c5 [|c6 [|c7 rest]]]]]]];
    cbn [Py.lower Py.startswith];
    rewrite ?andb_false_r; try discriminate.
  rewrite andb_true_r, !andb_true_iff, !Ascii.eqb_eq.
  intros (H1 & H2 & H3 & H4 & H5 & H6 & H7).
  symmetry in H7. apply lower_ascii_space in H7. subst c7.
  exists rest, (String c1 (String c2 (String c3 (String c4 (String c5 (String c6 "")))))).
  split; [|reflexivity].
  cbn [Py.lower]. now rewrite <- H1, <- H2, <- H3, <- H4, <- H5, <- H6.
Qed.

(** C3: the authenticator answers "no identity", and raises nothing,
    when the header is absent, when it does not begin with the bearer
    prefix in some casing, when the token matches no stored session, and
    when the session's user reference resolves to no user. *)
Theorem authenticate_anonymous :
  (forall w, get_current_user None w = (Return None, w)) /\
  (forall h w,
      Py.startswith (Py.lower h) "bearer " = false ->
      get_current_user (Some h) w = (Return None, w)) /\
  (forall h tok w,
      bearer h tok ->
      List.find (matches [Field "token" (Eq tok)]) (coll w COL_SESSION) = None ->
      fst (get_current_user (Some h) w) = Return None) /\
  (forall h tok sess exp w,
      bearer h tok ->
      List.find (matches [Field "token" (Eq tok)]) (coll w COL_SESSION) = Some sess ->
      py_int (default (VInt 0) (get sess "expires_at")) = Some exp ->
      (forall s o, get sess "user_id" = Some (VStr s) ->
                   ObjectId.of_str s = Some o ->
                   List.find (matches [ById o]) (coll w COL_USER) = None) ->
      fst (get_current_user (Some h) w) = Return None).
Proof.
  split; [exact get_current_user_no_header|].
  split; [exact get_current_user_not_bearer|].
  split.
  - intros h tok w Hb Hf. now rewrite (get_current_user_unknown _ _ _ Hb Hf).
  - intros h tok sess exp w Hb Hf He Hdangling.
    rewrite (get_current_user_session _ _ _ _ _ Hb Hf He). f_equal.
    destruct (clock w >? exp); [reflexivity|].
    destruct (get sess "user_id") as [[| | | |s|]|] eqn:Hs; try reflexivity.
    destruct (ObjectId.of_str s) as [o|] eqn:Ho; [|reflexivity].
    now apply (Hdangling s o).
Qed.

(** ** [GET /me] *)

(** C5: a successful [GET /me] answers the record of the authenticated
    user, with the identifier in string form and without the
    [password_hash] field. *)
Theorem me_hides_password_hash authorization w r :
  fst (handle authorization GetMe w) = Return r ->
  exists u d,
    fst (get_current_user authorization w) = Return (Some u) /\
    r = JDoc d /\
    d !! "password_hash" = None /\
    d !! "_id" = Some (VStr (ObjectId.to_str (doc_id u))) /\
    (forall k, k <> "password_hash" -> k <> "_id" -> d !! k = get u k).
Proof.
  cbn [handle]. unfold bind at 1.
  destruct (get_current_user authorization w) as [[[u|]|c d|e] w1];
    cbn [fst snd]; try discriminate.
  intros [= <-]. exists u, (delete "password_hash" (stringify_id u)).
  split; [reflexivity|]. split; [reflexivity|]. split; [|split].
  - apply lookup_delete_eq.
  - rewrite lookup_delete_ne by discriminate. apply lookup_insert_eq.
  - intros k Hk Hid. rewrite lookup_delete_ne by congruence.
    unfold stringify_id. rewrite lookup_insert_ne by congruence. reflexivity.
Qed.

(** ** Registration *)

Lemma matches_field_eq k s d : matches [Field k (Eq s)] d = eq_str (get d k) s.
Proof. unfold matches; simpl. apply andb_true_r. Qed.

Lemma matches_by_id o d : matches [ById o] d = ObjectId.eqb (doc_id d) o.
Proof. unfold matches; simpl. apply andb_true_r. Qed.

Lemma find_field_exists k s docs :
  (exists u, List.find (matches [Field k (Eq s)]) docs = Some u)
  <-> Exists (fun d => get d k = Some (VStr s)) docs.
Proof.
  rewrite Exists_exists. split.
  - intros [u Hu]. apply find_some in Hu as [Hin Hm].
    rewrite matches_field_eq in Hm. apply eq_str_true in Hm.
    exists u. split; [now apply list_elem_of_In | assumption].
  - intros (u & Hin & Hu).
    destruct (List.find _ docs) as [u'|] eqn:Hf; [now exists u'|].
    exfalso. apply list_elem_of_In in Hin.
    pose proof (find_none _ _ Hf u Hin) as Hm.
    rewrite matches_field_eq in Hm. now apply eq_str_false in Hm.
Qed.

(** On lowercase emails, an exact match with the lowercased address is
    a match up to case. *)
Lemma email_taken_exact users email :
  emails_lowercase users ->
  Exists (fun d => get d "email" = Some (VStr (str_lower email))) users
  <-> email_taken users email.
Proof.
  intros Hlow. unfold email_taken, emails_lowercase in *.
  rewrite !Exists_exists. rewrite Forall_forall in Hlow. split.
  - intros (u & Hin & Hu). exists u. split; [assumption|].
    exists (str_lower email). split; [assumption | apply str_lower_idem].
  - intros (u & Hin & e & He & Hci). exists u. split; [assumption|].
    rewrite He. now rewrite <- Hci, (Hlow u Hin e He).
Qed.

Lemma register_taken payload w u :
  List.find (matches [Field "email" (Eq (str_lower (RegisterRequest.email payload)))])
    (coll w COL_USER) = Some u ->
  register payload w =
  (HTTPException 400 "Email already registered",
   log_op (FindOne COL_USER
             [Field "email" (Eq (str_lower (RegisterRequest.email payload)))]) w).
Proof. intros Hf. unfold register, bind, find_one. now rewrite Hf. Qed.

Lemma register_free payload w :
  List.find (matches [Field "email" (Eq (str_lower (RegisterRequest.email payload)))])
    (coll w COL_USER) = None ->
  let w1 := snd (register payload w) in
  fst (register payload w) =
    Return (TokenResponse.Build (token_src w (tokens_drawn w)) "user"
              (RegisterRequest.name payload)
              (str_lower (RegisterRequest.email payload))) /\
  coll w1 COL_USER = (coll w COL_USER ++ [registered_user payload w])%list /\
  coll w1 COL_SESSION =
    (coll w COL_SESSION ++
     [Doc (ObjectId.of_N (oid_src w (S (oids_drawn w))))
        (<["updated_at" := VInt (clock w)]>
          (<["created_at" := VInt (clock w)]>
            (SessionSchema.model_dump
               (SessionSchema.Build
                  (ObjectId.to_str (doc_id (registered_user payload w)))
                  (token_src w (tokens_drawn w))
                  (clock w + SESSION_TTL_SECONDS)))))])%list /\
  clock w1 = clock w /\
  token_src w1 = token_src w /\
  tokens_drawn w1 = S (tokens_drawn w).
Proof.
  intros Hf. unfold register, bind, find_one. rewrite Hf.
  unfold create_document, create_session, bind, time_now, token_hex, insert_one, ret,
    log_op; simpl.
  repeat split; unfold coll; simpl;
    repeat (first [rewrite lookup_insert_eq | rewrite lookup_insert_ne by discriminate];
            simpl);
    reflexivity.
Qed.

(** C6: registration fails, with 400, exactly when some stored user
    has the requested email in lowercase, which on a store whose emails
    are lowercase is to say: when some user's email equals the requested
    one up to case.  A failed registration leaves every collection as it
    was; a successful one appends a user whose email is the requested one
    in lowercase. *)
Theorem register_email_unique payload w :
  let email := RegisterRequest.email payload in
  let outcome := fst (register payload w) in
  let w1 := snd (register payload w) in
  (outcome = HTTPException 400 "Email already registered"
   <-> Exists (fun d => get d "email" = Some (VStr (str_lower email)))
         (coll w COL_USER)) /\
  (emails_lowercase (coll w COL_USER) ->
   (outcome = HTTPException 400 "Email already registered"
    <-> email_taken (coll w COL_USER) email)) /\
  (forall c d, outcome = HTTPException c d -> c = 400 /\ db w1 = db w) /\
  (forall resp, outcome = Return resp ->
     coll w1 COL_USER = (coll w COL_USER ++ [registered_user payload w])%list /\
     get (registered_user payload w) "email" = Some (VStr (str_lower email))).
Proof.
  intros email outcome w1.
  assert (Hexact : outcome = HTTPException 400 "Email already registered"
                   <-> Exists (fun d => get d "email" = Some (VStr (str_lower email)))
                         (coll w COL_USER)).
  { rewrite <- find_field_exists. subst outcome.
    destruct (List.find (matches [Field "email" (Eq (str_lower email))])
                (coll w COL_USER)) as [u|] eqn:Hf.
    - rewrite (register_taken _ _ _ Hf). split; [now exists u | reflexivity].
    - destruct (register_free _ _ Hf) as (Hr & _). rewrite Hr.
      split; [discriminate | now intros [u Hu]]. }
  split; [exact Hexact|]. split; [|split].
  - intros Hlow. now rewrite Hexact, (email_taken_exact _ _ Hlow).
  - subst outcome w1. intros c d.
    destruct (List.find (matches [Field "email" (Eq (str_lower email))])
                (coll w COL_USER)) as [u|] eqn:Hf.
    + rewrite (register_taken _ _ _ Hf). cbn [fst snd].
      intros [= <- _]. split; reflexivity.
    + destruct (register_free _ _ Hf) as (Hr & _). rewrite Hr. discriminate.
  - subst outcome w1. intros resp.
    destruct (List.find (matches [Field "email" (Eq (str_lower email))])
                (coll w COL_USER)) as [u|] eqn:Hf.
    + rewrite (register_taken _ _ _ Hf). discriminate.
    + destruct (register_free _ _ Hf) as (_ & Hu & _).
      intros _. split; [exact Hu | reflexivity].
Qed.

Lemma handle_emails_lowercase authorization op w :
  emails_lowercase (coll w COL_USER) ->
  emails_lowercase (coll (snd (handle authorization op w)) COL_USER).
Proof.
  intros Hlow.
  assert (Hother : (forall payload, op <> PostRegister payload) ->
                   emails_lowercase (coll (snd (handle authorization op w)) COL_USER)).
  { intros Hop.
    destruct (keeps_handle same_users same_users_view same_users_session
                authorization op Hop w) as [-> _]. exact Hlow. }
  destruct op; try (apply Hother; discriminate).
  assert (Hsnd : snd (handle authorization (PostRegister payload) w)
                 = snd (register payload w)).
  { cbn [handle]. unfold fmap_M, bind, ret.
    now destruct (register payload w) as [[resp|c d|e] w1]. }
  rewrite Hsnd.
  destruct (List.find
              (matches [Field "email" (Eq (str_lower (RegisterRequest.email payload)))])
              (coll w COL_USER)) as [u|] eqn:Hf.
  - rewrite (register_taken _ _ _ Hf). exact Hlow.
  - destruct (register_free _ _ Hf) as (_ & Hu & _). rewrite Hu.
    apply Forall_app. split; [exact Hlow|].
    apply Forall_singleton. intros e He.
    assert (Hemail : get (registered_user payload w) "email"
                     = Some (VStr (str_lower (RegisterRequest.email payload))))
      by reflexivity.
    rewrite Hemail in He. injection He as <-. apply str_lower_idem.
Qed.

Lemma run_emails_lowercase reqs w :
  emails_lowercase (coll w COL_USER) -> emails_lowercase (coll (run reqs w) COL_USER).
Proof.
  revert w. induction reqs as [|[[t authorization] op] reqs IH]; intros w Hlow.
  - exact Hlow.
  - cbn [run]. apply IH. now apply (handle_emails_lowercase _ _ (set_clock t w)).
Qed.

(** ** Registration, then login *)

Lemma create_session_eq user_id w :
  create_session user_id w =
  (Return (token_src w (tokens_drawn w)), snd (create_session user_id w)).
Proof. reflexivity. Qed.

Lemma login_registered payload w wl :
  let q := [Field "email" (Eq (str_lower (RegisterRequest.email payload)))] in
  List.find (matches q) (coll wl COL_USER) = Some (registered_user payload w) ->
  login (LoginRequest.Build (RegisterRequest.email payload)
           (RegisterRequest.password payload)) wl =
  (Return (TokenResponse.Build (token_src wl (tokens_drawn wl)) "user"
             (RegisterRequest.name payload)
             (str_lower (RegisterRequest.email payload))),
   snd (create_session (ObjectId.to_str (doc_id (registered_user payload w)))
          (log_op (FindOne COL_USER q) wl))).
Proof.
  intros q Hf. unfold login, bind at 1, find_one.
  cbn [LoginRequest.email LoginRequest.password]. fold q. rewrite Hf.
  replace (eq_str (get (registered_user payload w) "password_hash")
             (hash_password (RegisterRequest.password payload))) with true
    by (symmetry; apply eq_str_true; reflexivity).
  cbn [negb]. unfold bind at 1. rewrite create_session_eq.
  reflexivity.
Qed.

(** C4: after a successful registration, a login with the same email
    and password succeeds, and its token authenticates as the user that
    the registration created, for as long as the session lasts and
    whatever requests the API serves in between; the identifier and the
    token that the store and the random source hand out are taken to be
    unused. *)
Theorem register_then_login payload w resp reqs1 t1 reqs2 t2 h :
  let email := RegisterRequest.email payload in
  let password := RegisterRequest.password payload in
  let u := registered_user payload w in
  let wl := set_clock t1 (run reqs1 (snd (register payload w))) in
  let attempt := login (LoginRequest.Build email password) wl in
  fst (register payload w) = Return resp ->
  List.find (matches [ById (doc_id u)]) (coll w COL_USER) = None ->
  List.find (matches [Field "token" (Eq (token_src wl (tokens_drawn wl)))])
    (coll wl COL_SESSION) = None ->
  In u (coll (snd (register payload w)) COL_USER) /\
  exists resp2,
    fst attempt = Return resp2 /\
    (bearer h (TokenResponse.token resp2) ->
     t2 <= t1 + 604800 ->
     fst (get_current_user (Some h) (set_clock t2 (run reqs2 (snd attempt))))
     = Return (Some u)).
Proof.
  intros email password u wl attempt Hreg Hid Htok.
  assert (Hfree : List.find (matches [Field "email" (Eq (str_lower email))])
                    (coll w COL_USER) = None).
  { destruct (List.find (matches [Field "email" (Eq (str_lower email))])
                (coll w COL_USER)) as [u'|] eqn:Hf; [|reflexivity].
    rewrite (register_taken _ _ _ Hf) in Hreg. discriminate. }
  destruct (register_free _ _ Hfree) as (_ & Hu1 & _).
  fold u in Hu1.
  assert (Hul : exists us, coll wl COL_USER = ((coll w COL_USER ++ [u]) ++ us)%list).
  { destruct (run_grows reqs1 (snd (register payload w))) as (us & ss & Hus & _ & _).
    exists us. subst wl. now rewrite coll_set_clock, Hus, Hu1. }
  destruct Hul as [us Hul].
  split; [rewrite Hu1; apply in_or_app; right; now left|].
  assert (Hlogin := login_registered payload w wl).
  cbv zeta in Hlogin. fold u email password in Hlogin.
  rewrite Hul in Hlogin. specialize (Hlogin ltac:(
    apply find_app_some; rewrite (find_app_none _ _ _ Hfree); cbn [List.find];
    rewrite matches_field_eq;
    replace (eq_str (get u "email") (str_lower email)) with true
      by (symmetry; apply eq_str_true; reflexivity);
    reflexivity)).
  fold attempt in Hlogin. rewrite Hlogin. cbn [fst snd TokenResponse.token].
  eexists. split; [reflexivity|].
  intros Hb Ht.
  set (q := [Field "email" (Eq (str_lower email))]) in *.
  set (w0 := log_op (FindOne COL_USER q) wl) in *.
  erewrite get_current_user_session;
    [ | exact Hb | apply (issued_session_found _ w0), Htok | reflexivity ].
  replace (clock (set_clock t2 _) >? clock w0 + SESSION_TTL_SECONDS) with false
    by (symmetry; rewrite Z.gtb_ltb; apply Z.ltb_ge;
        change (clock (set_clock t2 _)) with t2;
        change (clock w0) with t1; change SESSION_TTL_SECONDS with 604800; lia).
  replace (get (issued_session (ObjectId.to_str (doc_id u)) w0) "user_id")
    with (Some (VStr (ObjectId.to_str (doc_id u)))) by reflexivity.
  change (doc_id u) with (ObjectId.of_N (oid_src w (oids_drawn w))).
  rewrite of_str_of_N.
  f_equal. apply users_after.
  change (coll w0 COL_USER) with (coll wl COL_USER). rewrite Hul.
  apply find_app_some. rewrite (find_app_none _ _ _ Hid). cbn [List.find].
  rewrite matches_by_id, object_id_eqb_refl. reflexivity.
Qed.

(** ** Orders *)

(** The authenticator only reads. *)
Lemma get_current_user_db authorization w :
  db (snd (get_current_user authorization w)) = db w.
Proof.
  unfold get_current_user, bind, find_one, time_now, oid, ret, raise, crash.
  destruct authorization as [h|]; [|reflexivity].
  repeat (cbn [fst snd db log_op];
          match goal with
          | |- context [match ?x with _ => _ end] =>
              lazymatch x with
              | context [match _ with _ => _ end] => fail
              | _ => destruct x
              end
          end);
    reflexivity.
Qed.

Lemma handle_post_orders authorization payload w user w1 :
  get_current_user authorization w = (Return user, w1) ->
  handle authorization (PostOrders payload) w =
  fmap_M (fun r => JOrder (fst r) (snd r)) (create_order payload user) w1.
Proof. intros H. cbn [handle]. unfold bind at 1. now rewrite H. Qed.

Lemma create_order_run payload user w o :
  ObjectId.of_str (CreateOrderRequest.game_id payload) = Some o ->
  let q := [Field "transaction_id" (Eq (CreateOrderRequest.transaction_id payload))] in
  let w' := log_op (FindOne COL_ORDER q) (log_op (FindOne COL_GAME [ById o]) w) in
  create_order payload user w =
  match List.find (matches [ById o]) (coll w COL_GAME) with
  | None => (HTTPException 404 "Game not found", log_op (FindOne COL_GAME [ById o]) w)
  | Some _ =>
      match List.find (matches q) (coll w COL_ORDER) with
      | Some _ => (HTTPException 400 "Transaction ID already used", w')
      | None =>
          (Return (ObjectId.to_str (doc_id (placed_order payload user w)),
                   "Order placed. Delivery within 2 hours after verification."),
           snd (insert_one COL_ORDER (doc_fields (placed_order payload user w)) w'))
      end
  end.
Proof.
  intros Ho q w'. unfold create_order, oid. rewrite Ho.
  unfold bind at 1, ret at 1. unfold bind at 1, find_one at 1.
  change (coll (log_op (FindOne COL_GAME [ById o]) w) COL_GAME) with (coll w COL_GAME).
  destruct (List.find (matches [ById o]) (coll w COL_GAME)) as [g|]; [|reflexivity].
  fold q. unfold bind at 1, find_one at 1.
  change (coll (log_op (FindOne COL_GAME [ById o]) w) COL_ORDER) with (coll w COL_ORDER).
  destruct (List.find (matches q) (coll w COL_ORDER)) as [d|]; reflexivity.
Qed.

(** C7: [POST /orders] with a well-formed game id answers 404 when the
    game is missing and fails when the transaction identifier is already
    used, with 400 once the game is found, and stores nothing in either
    case; otherwise it stores one order, pending, owned by the
    authenticated user or by nobody. *)
Theorem create_order_checks authorization payload w user w1 o :
  let result := handle authorization (PostOrders payload) w in
  let game := List.find (matches [ById o]) (coll w COL_GAME) in
  let dup := List.find
    (matches [Field "transaction_id" (Eq (CreateOrderRequest.transaction_id payload))])
    (coll w COL_ORDER) in
  get_current_user authorization w = (Return user, w1) ->
  ObjectId.of_str (CreateOrderRequest.game_id payload) = Some o ->
  (game = None ->
     fst result = HTTPException 404 "Game not found" /\ db (snd result) = db w) /\
  (dup <> None ->
     (game <> None -> fst result = HTTPException 400 "Transaction ID already used") /\
     (exists c d, fst result = HTTPException c d) /\
     db (snd result) = db w) /\
  (game <> None -> dup = None ->
     exists order,
       fst result =
         Return (JOrder (ObjectId.to_str (doc_id order))
                   "Order placed. Delivery within 2 hours after verification.") /\
       db (snd result) = <[COL_ORDER := (coll w COL_ORDER ++ [order])%list]> (db w) /\
       get order "status" = Some (VStr "pending") /\
       get order "user_id" =
         Some (match user with
               | Some u => VStr (ObjectId.to_str (doc_id u))
               | None => VNone
               end) /\
       get order "game_id" = Some (VStr (CreateOrderRequest.game_id payload)) /\
       get order "transaction_id" =
         Some (VStr (CreateOrderRequest.transaction_id payload))).
Proof.
  intros result game dup Hauth Ho. subst result.
  rewrite (handle_post_orders _ _ _ _ _ Hauth).
  assert (Hdb : db w1 = db w).
  { change w1 with (snd (Return user, w1)). rewrite <- Hauth.
    apply get_current_user_db. }
  assert (Hcoll : forall name, coll w1 name = coll w name).
  { intros name. unfold coll. now rewrite Hdb. }
  unfold fmap_M, bind. rewrite (create_order_run _ _ _ _ Ho), !Hcoll.
  fold game dup. destruct game as [g|].
  - destruct dup as [d|].
    + split; [discriminate|]. split; [|intros _ H; discriminate H].
      intros _. split; [reflexivity|]. split; [|exact Hdb].
      now exists 400, "Transaction ID already used".
    + split; [discriminate|]. split; [intros H; now contradiction H|].
      intros _ _. exists (placed_order payload user w1).
      split; [reflexivity|]. split.
      { unfold insert_one; cbn [fst snd db log_op].
        change (coll (log_op _ (log_op _ w1)) COL_ORDER) with (coll w1 COL_ORDER).
        rewrite Hcoll, Hdb. reflexivity. }
      destruct user; repeat split; reflexivity.
  - split; [|split; [|intros H; now contradiction H]].
    + intros _. split; [reflexivity | exact Hdb].
    + intros _. split; [intros H; now contradiction H|]. split; [|exact Hdb].
      now exists 404, "Game not found".
Qed.

(** ** Identifiers and missing games *)

Lemma is_valid_false s : ObjectId.is_valid s = false <-> ObjectId.of_str s = None.
Proof. unfold ObjectId.is_valid. destruct (ObjectId.of_str s); split; congruence. Qed.

Lemma oid_invalid s w :
  ObjectId.of_str s = None -> oid s w = (HTTPException 400 "Invalid id format", w).
Proof. intros H. unfold oid. now rewrite H. Qed.

Lemma oid_valid s o w : ObjectId.of_str s = Some o -> oid s w = (Return o, w).
Proof. intros H. unfold oid. now rewrite H. Qed.

Lemma update_first_none q upd docs :
  List.find (matches q) docs = None -> update_first q upd docs = None.
Proof.
  induction docs as [|d docs IH]; simpl; [reflexivity|].
  destruct (matches q d); [discriminate|]. intros H. now rewrite IH.
Qed.

(** Past the gate: an admin's request runs the body of the handler. *)
Lemma handle_as_admin authorization op w u w1 :
  admin_only op = true ->
  get_current_user authorization w = (Return (Some u), w1) ->
  get u "role" = Some (VStr "admin") ->
  handle authorization op w = behind_gate op u w1.
Proof.
  intros Hop Hauth Hrole. rewrite (handle_admin_only _ _ Hop).
  unfold bind at 1. rewrite Hauth. unfold bind at 1, require_admin.
  apply eq_str_true in Hrole. now rewrite Hrole.
Qed.

(** Before the gate: without an identity the answer is 401. *)
Lemma handle_unauthenticated authorization op w :
  admin_only op = true ->
  fst (get_current_user authorization w) = Return None ->
  handle authorization op w =
  (HTTPException 401 "Unauthorized", snd (get_current_user authorization w)).
Proof.
  intros Hop Hauth. rewrite (handle_admin_only _ _ Hop). unfold bind at 1.
  destruct (get_current_user authorization w) as [r w1]. cbn [fst snd] in *.
  now subst r.
Qed.

(** At the gate: an identity that is not an admin's is answered 403. *)
Lemma handle_forbidden authorization op w u :
  admin_only op = true ->
  fst (get_current_user authorization w) = Return (Some u) ->
  get u "role" <> Some (VStr "admin") ->
  handle authorization op w =
  (HTTPException 403 "Admin access required", snd (get_current_user authorization w)).
Proof.
  intros Hop Hauth Hrole. rewrite (handle_admin_only _ _ Hop). unfold bind at 1.
  destruct (get_current_user authorization w) as [r w1]. cbn [fst snd] in *.
  subst r. unfold bind, require_admin. apply eq_str_false in Hrole.
  now rewrite Hrole.
Qed.

Lemma update_game_missing game_id payload user w o :
  updates_of payload <> [] ->
  ObjectId.of_str game_id = Some o ->
  List.find (matches [ById o]) (coll w COL_GAME) = None ->
  exists w', update_game game_id payload user w =
               (HTTPException 404 "Game not found", w') /\ db w' = db w.
Proof.
  intros Hupd Ho Hf. unfold update_game.
  destruct (updates_of payload) as [|kv rest]; [contradiction|].
  unfold bind at 1, time_now. unfold bind at 1. rewrite (oid_valid _ _ _ Ho).
  unfold bind, update_one. rewrite (update_first_none _ _ _ Hf).
  eexists. split; reflexivity.
Qed.

Lemma update_game_invalid game_id payload user w :
  updates_of payload <> [] ->
  ObjectId.of_str game_id = None ->
  update_game game_id payload user w = (HTTPException 400 "Invalid id format", w).
Proof.
  intros Hupd Ho. unfold update_game.
  destruct (updates_of payload) as [|kv rest]; [contradiction|].
  unfold bind at 1, time_now. unfold bind at 1. now rewrite (oid_invalid _ _ Ho).
Qed.

Lemma update_game_nothing game_id payload user w :
  updates_of payload = [] -> update_game game_id payload user w = (Return false, w).
Proof. intros Hupd. unfold update_game. now rewrite Hupd. Qed.

Lemma delete_game_invalid game_id user w :
  ObjectId.of_str game_id = None ->
  delete_game game_id user w = (HTTPException 400 "Invalid id format", w).
Proof. intros Ho. unfold delete_game, bind. now rewrite (oid_invalid _ _ Ho). Qed.

Lemma update_order_status_invalid order_id payload user w :
  ObjectId.of_str order_id = None ->
  update_order_status order_id payload user w =
  (HTTPException 400
     (if allowed_status (UpdateOrderStatusRequest.status payload)
      then "Invalid id format" else "Invalid status"), w).
Proof.
  intros Ho. unfold update_order_status.
  destruct (allowed_status _); cbn [negb]; [|reflexivity].
  unfold bind at 1. now rewrite (oid_invalid _ _ Ho).
Qed.

Lemma get_game_invalid game_id w :
  ObjectId.of_str game_id = None ->
  get_game game_id w = (HTTPException 400 "Invalid id format", w).
Proof. intros Ho. unfold get_game, bind. now rewrite (oid_invalid _ _ Ho). Qed.

Lemma create_order_invalid payload user w :
  ObjectId.of_str (CreateOrderRequest.game_id payload) = None ->
  create_order payload user w = (HTTPException 400 "Invalid id format", w).
Proof. intros Ho. unfold create_order, bind. now rewrite (oid_invalid _ _ Ho). Qed.

(** C8, as the code has it: an admin's [PUT /admin/games/{id}] that
    sets at least one field, with a well-formed id that matches no
    stored game, answers 404 and leaves the store as it was. *)
Theorem update_missing_game_not_found authorization game_id payload w u w1 o :
  get_current_user authorization w = (Return (Some u), w1) ->
  get u "role" = Some (VStr "admin") ->
  ObjectId.of_str game_id = Some o ->
  List.find (matches [ById o]) (coll w COL_GAME) = None ->
  updates_of payload <> [] ->
  let result := handle authorization (PutAdminGame game_id payload) w in
  fst result = HTTPException 404 "Game not found" /\ db (snd result) = db w.
Proof.
  intros Hauth Hrole Ho Hf Hupd result. subst result.
  rewrite (handle_as_admin _ (PutAdminGame game_id payload) _ _ _ eq_refl Hauth Hrole).
  assert (Hdb : db w1 = db w).
  { change w1 with (snd (Return (Some u), w1)). rewrite <- Hauth.
    apply get_current_user_db. }
  assert (Hf1 : List.find (matches [ById o]) (coll w1 COL_GAME) = None).
  { unfold coll. now rewrite Hdb. }
  destruct (update_game_missing game_id payload u w1 o Hupd Ho Hf1) as (w2 & Hr & Hs).
  cbn [behind_gate]. unfold fmap_M, bind. rewrite Hr.
  split; [reflexivity | cbn [snd]; congruence].
Qed.

(** C9, as the code has it: an id that the constructor of [ObjectId]
    does not accept (a string that has not 24 characters, or that
    [bytes.fromhex] does not read) is answered with 400 and no store
    operation is made with it.  [GET /games/{id}] touches the store not
    at all and
    [POST /orders] only to authenticate.  The admin operations pass the
    gate first: for an admin, [DELETE] and the order status update answer
    400, and so does [PUT] when the payload sets a field, with nothing
    done to the store after authentication; without an identity the
    answer is 401, and for an identity that is not an admin's 403,
    whatever the id. *)
Theorem malformed_id_rejected id :
  ObjectId.is_valid id = false ->
  (forall authorization w,
      handle authorization (GetGame id) w = (HTTPException 400 "Invalid id format", w)) /\
  (forall authorization payload w user w1,
      CreateOrderRequest.game_id payload = id ->
      get_current_user authorization w = (Return user, w1) ->
      handle authorization (PostOrders payload) w =
      (HTTPException 400 "Invalid id format", w1)) /\
  (forall authorization w u w1,
      get_current_user authorization w = (Return (Some u), w1) ->
      get u "role" = Some (VStr "admin") ->
      handle authorization (DeleteAdminGame id) w =
        (HTTPException 400 "Invalid id format", w1) /\
      (forall payload, updates_of payload <> [] ->
         handle authorization (PutAdminGame id payload) w =
         (HTTPException 400 "Invalid id format", w1)) /\
      (forall payload, exists detail,
         handle authorization (PostAdminOrderStatus id payload) w =
         (HTTPException 400 detail, w1))) /\
  (forall authorization op w,
      admin_only op = true ->
      fst (get_current_user authorization w) = Return None ->
      handle authorization op w =
      (HTTPException 401 "Unauthorized", snd (get_current_user authorization w))) /\
  (forall authorization op w u,
      admin_only op = true ->
      fst (get_current_user authorization w) = Return (Some u) ->
      get u "role" <> Some (VStr "admin") ->
      handle authorization op w =
      (HTTPException 403 "Admin access required",
       snd (get_current_user authorization w))).
Proof.
  intros Hid. apply is_valid_false in Hid.
  split; [|split; [|split; [|split]]].
  - intros authorization w. cbn [handle]. unfold fmap_M, bind.
    now rewrite (get_game_invalid _ _ Hid).
  - intros authorization payload w user w1 <- Hauth.
    rewrite (handle_post_orders _ _ _ _ _ Hauth). unfold fmap_M, bind.
    now rewrite (create_order_invalid _ _ _ Hid).
  - intros authorization w u w1 Hauth Hrole. split; [|split].
    + rewrite (handle_as_admin _ (DeleteAdminGame id) _ _ _ eq_refl Hauth Hrole).
      cbn [behind_gate]. unfold fmap_M, bind.
      now rewrite (delete_game_invalid _ _ _ Hid).
    + intros payload Hupd.
      rewrite (handle_as_admin _ (PutAdminGame id payload) _ _ _ eq_refl Hauth Hrole).
      cbn [behind_gate]. unfold fmap_M, bind.
      now rewrite (update_game_invalid _ _ _ _ Hupd Hid).
    + intros payload. eexists.
      rewrite (handle_as_admin _ (PostAdminOrderStatus id payload) _ _ _ eq_refl
                 Hauth Hrole).
      cbn [behind_gate]. unfold fmap_M, bind.
      rewrite (update_order_status_invalid _ _ _ _ Hid). reflexivity.
  - intros authorization op w Hop Hauth.
    now apply handle_unauthenticated.
  - intros authorization op w u Hop Hauth Hrole.
    now apply (handle_forbidden _ _ _ u).
Qed.

(** ** Users come from registration only *)

Lemma plain_user_not_admin us :
  Forall plain_user us -> List.filter is_admin us = [].
Proof.
  induction 1 as [|d us (Hrole & _) _ IH]; [reflexivity|].
  cbn [List.filter]. unfold is_admin at 1. now rewrite Hrole.
Qed.

(** C10: no operation but registration changes the user collection;
    over any run of the API the stored users stay in place, unchanged,
    and every user added has role "user" and is active; so the admins
    after the run are the admins before it. *)
Theorem users_only_by_registration :
  (forall authorization op w,
      (forall payload, op <> PostRegister payload) ->
      coll (snd (handle authorization op w)) COL_USER = coll w COL_USER) /\
  (forall reqs w, exists us,
      coll (run reqs w) COL_USER = (coll w COL_USER ++ us)%list /\
      Forall (fun d => get d "role" = Some (VStr "user") /\
                       get d "is_active" = Some (VBool true)) us) /\
  (forall reqs w,
      List.filter is_admin (coll (run reqs w) COL_USER) =
      List.filter is_admin (coll w COL_USER)).
Proof.
  split; [|split].
  - intros authorization op w Hop.
    now destruct (keeps_handle same_users same_users_view same_users_session
                    authorization op Hop w) as [Hu _].
  - intros reqs w. destruct (run_grows reqs w) as (us & ss & Hu & Hplain & _).
    exists us. split; [assumption|].
    eapply Forall_impl; [exact Hplain|]. now intros d (? & ?).
  - intros reqs w. destruct (run_grows reqs w) as (us & ss & Hu & Hplain & _).
    rewrite Hu, List.filter_app, (plain_user_not_admin _ Hplain).
    apply app_nil_r.
Qed.


(** * Further properties of the handlers *)

(** ** The authenticator only reads *)

Lemma logged_nil w : logged [] w = w.
Proof. destruct w. unfold logged; simpl. now rewrite app_nil_r. Qed.

Lemma logged_two a b w : log_op b (log_op a w) = logged [a; b] w.
Proof. unfold log_op, logged; simpl. now rewrite <- app_assoc. Qed.

Lemma get_current_user_logged authorization w :
  exists ops,
    snd (get_current_user authorization w) = logged ops w /\
    (ops = [] \/
     (exists tok, ops = [FindOne COL_SESSION [Field "token" (Eq tok)]]) \/
     (exists tok o, ops = [FindOne COL_SESSION [Field "token" (Eq tok)];
                           FindOne COL_USER [ById o]])).
Proof.
  destruct authorization as [h|];
    [|exists []; split; [symmetry; apply logged_nil | now left]].
  unfold get_current_user, bind, find_one, time_now, oid, ret, raise, crash.
  repeat (cbn [fst snd];
          match goal with
          | |- context [match ?x with _ => _ end] =>
              lazymatch x with
              | context [match _ with _ => _ end] => fail
              | _ => destruct x
              end
          end);
    cbn [fst snd];
    first
      [ exists []; split; [symmetry; apply logged_nil | now left]
      | eexists [_]; split; [reflexivity | right; left; eexists; reflexivity]
      | eexists [_; _]; split;
        [apply logged_two | right; right; eexists; eexists; reflexivity] ].
Qed.

(** X1: authentication never writes: it leaves the store, the clock and
    the random source as they were, and makes at most two lookups, one
    for the session and then one for the user. *)
Theorem authenticator_reads_only authorization w :
  exists ops,
    snd (get_current_user authorization w) = logged ops w /\
    (ops = [] \/
     (exists tok, ops = [FindOne COL_SESSION [Field "token" (Eq tok)]]) \/
     (exists tok o, ops = [FindOne COL_SESSION [Field "token" (Eq tok)];
                           FindOne COL_USER [ById o]])).
Proof. apply get_current_user_logged. Qed.

Lemma get_current_user_clock authorization w :
  clock (snd (get_current_user authorization w)) = clock w.
Proof. destruct (get_current_user_logged authorization w) as (ops & -> & _). reflexivity. Qed.

Lemma coll_log_op op w name : coll (log_op op w) name = coll w name.
Proof. reflexivity. Qed.

Lemma clock_log_op op w : clock (log_op op w) = clock w.
Proof. reflexivity. Qed.

(** What the authenticator answers depends on the sessions, the users
    and the clock alone. *)
Lemma get_current_user_stable authorization w w' :
  coll w' COL_SESSION = coll w COL_SESSION ->
  coll w' COL_USER = coll w COL_USER ->
  clock w' = clock w ->
  fst (get_current_user authorization w') = fst (get_current_user authorization w).
Proof.
  intros Hs Hu Hc. destruct authorization as [h|]; [|reflexivity].
  unfold get_current_user.
  destruct (String.eqb h "" || negb _); [reflexivity|].
  destruct (Py.split_space_1 h) as [token|]; [|reflexivity].
  unfold bind, find_one, time_now, oid, ret, raise, crash. rewrite Hs.
  destruct (List.find _ (coll w COL_SESSION)) as [sess|]; [|reflexivity].
  cbn [fst snd]. rewrite !clock_log_op, Hc.
  repeat (match goal with
          | |- context [match ?x with _ => _ end] =>
              lazymatch x with
              | context [match _ with _ => _ end] => fail
              | _ => destruct x
              end
          end; cbn [fst snd]);
    rewrite ?coll_log_op, ?Hu; reflexivity.
Qed.


(** ** Which operation writes where *)

#[local] Instance untouched_preorder name : PreOrder (untouched name).
Proof.
  split; [intros w; reflexivity|].
  intros w1 w2 w3 H12 H23. unfold untouched in *. congruence.
Qed.

#[local] Instance appended_preorder name : PreOrder (appended name).
Proof.
  split.
  - intros w. exists []. now rewrite app_nil_r.
  - intros w1 w2 w3 [n1 H1] [n2 H2]. exists (n1 ++ n2)%list.
    now rewrite H2, H1, app_assoc.
Qed.

Lemma untouched_appended name w w' : untouched name w w' -> appended name w w'.
Proof. intros H. exists []. now rewrite app_nil_r. Qed.

Lemma untouched_insert_one name name' fields :
  name' <> name -> keeps (untouched name) (insert_one name' fields).
Proof. intros H w. now apply coll_insert_one_ne. Qed.

Lemma untouched_update_one name name' q upd :
  name' <> name -> keeps (untouched name) (update_one name' q upd).
Proof. intros H w. now apply coll_update_one_ne. Qed.

Lemma untouched_delete_one name name' q :
  name' <> name -> keeps (untouched name) (delete_one name' q).
Proof. intros H w. now apply coll_delete_one_ne. Qed.

Lemma appended_insert_one name name' fields :
  keeps (appended name) (insert_one name' fields).
Proof.
  intros w. destruct (decide (name' = name)) as [->|Hne].
  - eexists. apply coll_insert_one_eq.
  - apply untouched_appended. now apply coll_insert_one_ne.
Qed.

(** Walks a handler down to the store operations it performs and leaves
    those to [leaf]. *)
Ltac walk leaf :=
  repeat lazymatch goal with
  | |- keeps _ (let _ := _ in _) => cbv zeta
  | |- keeps ?R (ret _) => apply (keeps_ret R)
  | |- keeps ?R (raise _ _) => apply (keeps_raise R)
  | |- keeps ?R (crash _) => apply (keeps_crash R)
  | |- keeps ?R time_now => apply (keeps_time_now R)
  | |- keeps ?R (oid _) => apply (keeps_oid R)
  | |- keeps ?R (fmap_M _ _) => apply (keeps_fmap_M R)
  | |- keeps ?R (bind _ _) => apply (keeps_bind R); [|intros ?]
  | |- keeps _ (create_document _ _) => unfold create_document
  | |- keeps _ (create_session _) => unfold create_session
  | |- keeps _ (str_field _ _ _) => unfold str_field
  | |- keeps _ (email_field _) => unfold email_field
  | |- keeps _ (match ?x with _ => _ end) => destruct x
  | |- keeps _ _ => leaf tt
  end.

Ltac untouched_leaf Hname :=
  lazymatch goal with
  | |- keeps _ (insert_one _ _) =>
      apply untouched_insert_one; intros <-; apply Hname; simpl; tauto
  | |- keeps _ (update_one _ _ _) =>
      apply untouched_update_one; intros <-; apply Hname; simpl; tauto
  | |- keeps _ (delete_one _ _) =>
      apply untouched_delete_one; intros <-; apply Hname; simpl; tauto
  | |- keeps _ _ => intros ?; reflexivity
  end.

Lemma handle_untouched authorization op w name :
  ~ In name (writes op) ->
  coll (snd (handle authorization op w)) name = coll w name.
Proof.
  intros Hname. change (untouched name w (snd (handle authorization op w))).
  revert w. change (keeps (untouched name) (handle authorization op)).
  destruct op; cbn [handle writes] in *;
    unfold root, test_database, list_collection_names, register, login, me,
      list_games, get_game, get_current_user, require_admin, create_game,
      update_game, delete_game, create_order, my_orders, admin_list_orders,
      update_order_status;
    walk ltac:(fun _ => untouched_leaf Hname).
Qed.


(** X2: every operation writes to its own collections only: users and
    sessions for registration, sessions for login, games for the admin
    game operations, orders for placing an order and for the status
    update; every other collection, and for every other operation the
    whole store, is left as it was. *)
Theorem writes_own_collections authorization op w name :
  ~ In name (writes op) ->
  coll (snd (handle authorization op w)) name = coll w name.
Proof. apply handle_untouched. Qed.

(** ** Admin operations without an admin *)

Lemma handle_not_admin authorization op w :
  admin_only op = true ->
  (forall u, fst (get_current_user authorization w) = Return (Some u) ->
             get u "role" <> Some (VStr "admin")) ->
  snd (handle authorization op w) = snd (get_current_user authorization w) /\
  forall r, fst (handle authorization op w) <> Return r.
Proof.
  intros Hop Hrole. rewrite (handle_admin_only _ _ Hop).
  unfold bind, require_admin, raise. cbv beta.
  destruct (get_current_user authorization w) as [[[u|]|c d|e] w1];
    cbn [fst snd] in *;
    try (split; [reflexivity | discriminate]).
  specialize (Hrole u eq_refl). apply eq_str_false in Hrole. rewrite Hrole.
  cbn [negb fst snd]. split; [reflexivity | discriminate].
Qed.

(** X3: an admin-only operation does nothing for a caller who is not an
    authenticated admin: whatever the parameters, it answers with an
    error, performs no store operation beyond those of authentication,
    and leaves the store as it was. *)
Theorem admin_only_needs_admin authorization op w :
  admin_only op = true ->
  (forall u, fst (get_current_user authorization w) = Return (Some u) ->
             get u "role" <> Some (VStr "admin")) ->
  snd (handle authorization op w) = snd (get_current_user authorization w) /\
  db (snd (handle authorization op w)) = db w /\
  forall r, fst (handle authorization op w) <> Return r.
Proof.
  intros Hop Hrole. destruct (handle_not_admin _ _ _ Hop Hrole) as [Hw Hr].
  split; [exact Hw|]. split; [|exact Hr].
  rewrite Hw. apply get_current_user_db.
Qed.

Lemma writes_game_admin_only op : In COL_GAME (writes op) -> admin_only op = true.
Proof. destruct op; cbn; intros H; try reflexivity; intuition discriminate. Qed.

(** X4: the catalogue changes only through an admin: if a request
    leaves the game collection different from what it was, the request
    was one of the admin game operations and its token authenticated a
    user whose role is "admin". *)
Theorem games_change_only_by_admin authorization op w :
  coll (snd (handle authorization op w)) COL_GAME <> coll w COL_GAME ->
  In COL_GAME (writes op) /\
  exists u, fst (get_current_user authorization w) = Return (Some u) /\
            get u "role" = Some (VStr "admin").
Proof.
  intros Hchange.
  destruct (in_dec string_dec COL_GAME (writes op)) as [Hin|Hout];
    [|exfalso; apply Hchange; now apply handle_untouched].
  split; [exact Hin|].
  destruct (fst (get_current_user authorization w)) as [[u|]|c d|e] eqn:Hauth.
  - destruct (eq_str (get u "role") "admin") eqn:Hrole.
    + exists u. split; [reflexivity | now apply eq_str_true].
    + exfalso. apply Hchange.
      destruct (handle_not_admin authorization op w (writes_game_admin_only _ Hin))
        as [Hw _].
      { intros u' Hu'. rewrite Hauth in Hu'. injection Hu' as <-.
        now apply eq_str_false. }
      unfold coll. now rewrite Hw, get_current_user_db.
  - exfalso. apply Hchange.
    destruct (handle_not_admin authorization op w (writes_game_admin_only _ Hin))
      as [Hw _]; [rewrite Hauth; discriminate|].
    unfold coll. now rewrite Hw, get_current_user_db.
  - exfalso. apply Hchange.
    destruct (handle_not_admin authorization op w (writes_game_admin_only _ Hin))
      as [Hw _]; [rewrite Hauth; discriminate|].
    unfold coll. now rewrite Hw, get_current_user_db.
  - exfalso. apply Hchange.
    destruct (handle_not_admin authorization op w (writes_game_admin_only _ Hin))
      as [Hw _]; [rewrite Hauth; discriminate|].
    unfold coll. now rewrite Hw, get_current_user_db.
Qed.


(** ** Login *)

Lemma login_refused_unknown payload w :
  let q := [Field "email" (Eq (str_lower (LoginRequest.email payload)))] in
  List.find (matches q) (coll w COL_USER) = None ->
  login payload w =
  (HTTPException 401 "Invalid email or password", log_op (FindOne COL_USER q) w).
Proof. intros q Hf. unfold login, bind, find_one. fold q. now rewrite Hf. Qed.

Lemma login_refused_password payload w u :
  let q := [Field "email" (Eq (str_lower (LoginRequest.email payload)))] in
  List.find (matches q) (coll w COL_USER) = Some u ->
  get u "password_hash" <> Some (VStr (hash_password (LoginRequest.password payload))) ->
  login payload w =
  (HTTPException 401 "Invalid email or password", log_op (FindOne COL_USER q) w).
Proof.
  intros q Hf Hpw. unfold login, bind, find_one. fold q. rewrite Hf.
  apply eq_str_false in Hpw. now rewrite Hpw.
Qed.

Lemma login_world payload w u :
  let q := [Field "email" (Eq (str_lower (LoginRequest.email payload)))] in
  List.find (matches q) (coll w COL_USER) = Some u ->
  get u "password_hash" = Some (VStr (hash_password (LoginRequest.password payload))) ->
  snd (login payload w) =
  snd (create_session (ObjectId.to_str (doc_id u)) (log_op (FindOne COL_USER q) w)).
Proof.
  intros q Hf Hpw. unfold login, bind at 1, find_one. fold q. rewrite Hf.
  apply eq_str_true in Hpw. rewrite Hpw. cbn [negb].
  unfold bind at 1. rewrite create_session_eq.
  unfold bind, str_field, email_field, ret, crash.
  destruct (get u "role") as [[| | | |role|]|];
    destruct (get u "name") as [[| | | |name|]|];
    destruct (get u "email") as [[| | | |email|]|]; reflexivity.
Qed.

(** X5: login answers 401, with one and the same message, when no user
    is stored under the lowercased email and when the stored hash is not
    the hash of the password; a refused login draws no token and stores
    no session.  A login that succeeds found a user whose hash matches,
    answers the token just drawn with that user's email, and stores a
    session for that user. *)
Theorem login_checks_credentials payload w :
  let q := [Field "email" (Eq (str_lower (LoginRequest.email payload)))] in
  let found := List.find (matches q) (coll w COL_USER) in
  let refused :=
    (HTTPException 401 "Invalid email or password", log_op (FindOne COL_USER q) w) in
  (found = None -> login payload w = refused) /\
  (forall u, found = Some u ->
     get u "password_hash"
       <> Some (VStr (hash_password (LoginRequest.password payload))) ->
     login payload w = refused) /\
  (forall resp, fst (login payload w) = Return resp ->
     exists u,
       found = Some u /\
       get u "password_hash"
         = Some (VStr (hash_password (LoginRequest.password payload))) /\
       TokenResponse.token resp = token_src w (tokens_drawn w) /\
       TokenResponse.email resp = str_lower (LoginRequest.email payload) /\
       coll (snd (login payload w)) COL_SESSION =
         (coll w COL_SESSION ++
          [issued_session (ObjectId.to_str (doc_id u)) w])%list).
Proof.
  intros q found refused. split; [|split].
  - apply login_refused_unknown.
  - intros u. apply login_refused_password.
  - intros resp Hresp. subst found.
    destruct (List.find (matches q) (coll w COL_USER)) as [u|] eqn:Hf;
      [|rewrite (login_refused_unknown _ _ Hf) in Hresp; discriminate].
    destruct (eq_str (get u "password_hash")
                (hash_password (LoginRequest.password payload))) eqn:Hpw;
      [apply eq_str_true in Hpw
      |apply eq_str_false in Hpw;
       rewrite (login_refused_password _ _ _ Hf Hpw) in Hresp; discriminate].
    exists u. split; [reflexivity|]. split; [exact Hpw|].
    assert (Hemail : get u "email" = Some (VStr (str_lower (LoginRequest.email payload)))).
    { apply find_some in Hf as [_ Hm]. unfold q in Hm.
      rewrite matches_field_eq in Hm. now apply eq_str_true. }
    rewrite (login_world _ _ _ Hf Hpw).
    split; [|split; [|apply (create_session_sessions _ (log_op (FindOne COL_USER q) w))]].
    + unfold login, bind at 1, find_one in Hresp. fold q in Hresp. rewrite Hf in Hresp.
      apply eq_str_true in Hpw. rewrite Hpw in Hresp. cbn [negb] in Hresp.
      unfold bind at 1 in Hresp. rewrite create_session_eq in Hresp.
      unfold bind, str_field, email_field in Hresp. rewrite Hemail in Hresp.
      destruct (get u "role") as [[| | | |role|]|];
        destruct (get u "name") as [[| | | |name|]|];
        cbn [fst snd ret crash] in Hresp; try discriminate Hresp;
        now injection Hresp as <-.
    + unfold login, bind at 1, find_one in Hresp. fold q in Hresp. rewrite Hf in Hresp.
      apply eq_str_true in Hpw. rewrite Hpw in Hresp. cbn [negb] in Hresp.
      unfold bind at 1 in Hresp. rewrite create_session_eq in Hresp.
      unfold bind, str_field, email_field in Hresp. rewrite Hemail in Hresp.
      destruct (get u "role") as [[| | | |role|]|];
        destruct (get u "name") as [[| | | |name|]|];
        cbn [fst snd ret crash] in Hresp; try discriminate Hresp;
        now injection Hresp as <-.
Qed.


(** ** Registration, composed *)

Lemma register_succeeds_free payload w resp :
  fst (register payload w) = Return resp ->
  List.find (matches [Field "email" (Eq (str_lower (RegisterRequest.email payload)))])
    (coll w COL_USER) = None.
Proof.
  intros Hreg.
  destruct (List.find _ (coll w COL_USER)) as [u|] eqn:Hf; [|reflexivity].
  rewrite (register_taken _ _ _ Hf) in Hreg. discriminate.
Qed.

(** X6: the token that a successful registration answers opens a
    session at once: presented as a bearer token at any time up to seven
    days after the registration, it authenticates as the user just
    created, whatever requests are served in between; the identifier and
    the token handed out are taken to be unused. *)
Theorem register_token_authenticates payload w resp reqs t h :
  let u := registered_user payload w in
  fst (register payload w) = Return resp ->
  List.find (matches [ById (doc_id u)]) (coll w COL_USER) = None ->
  List.find (matches [Field "token" (Eq (token_src w (tokens_drawn w)))])
    (coll w COL_SESSION) = None ->
  bearer h (TokenResponse.token resp) ->
  t <= clock w + 604800 ->
  fst (get_current_user (Some h) (set_clock t (run reqs (snd (register payload w)))))
  = Return (Some u).
Proof.
  intros u Hreg Hid Htok Hb Ht.
  pose proof (register_succeeds_free _ _ _ Hreg) as Hfree.
  destruct (register_free _ _ Hfree) as (Hr & Hu1 & Hs1 & _).
  fold u in Hu1, Hs1. rewrite Hr in Hreg. injection Hreg as <-.
  cbn [TokenResponse.token] in Hb.
  destruct (run_grows reqs (snd (register payload w))) as (us & ss & Hus & _ & Hss).
  rewrite Hu1 in Hus. rewrite Hs1 in Hss.
  match type of Hss with
  | _ = ((_ ++ [?d]) ++ _)%list => set (sess := d) in *
  end.
  assert (Hfind : List.find
            (matches [Field "token" (Eq (token_src w (tokens_drawn w)))])
            (coll (set_clock t (run reqs (snd (register payload w)))) COL_SESSION)
          = Some sess).
  { rewrite coll_set_clock, Hss. apply find_app_some.
    rewrite (find_app_none _ _ _ Htok). cbn [List.find].
    rewrite matches_field_eq.
    replace (eq_str _ _) with true; [reflexivity|].
    symmetry. apply eq_str_true. reflexivity. }
  rewrite (get_current_user_session _ _ sess (clock w + SESSION_TTL_SECONDS) _
             Hb Hfind eq_refl).
  replace (clock (set_clock t _) >? clock w + SESSION_TTL_SECONDS) with false
    by (symmetry; rewrite Z.gtb_ltb; apply Z.ltb_ge;
        change (clock (set_clock t _)) with t;
        change SESSION_TTL_SECONDS with 604800; lia).
  replace (get sess "user_id") with (Some (VStr (ObjectId.to_str (doc_id u))))
    by reflexivity.
  change (doc_id u) with (ObjectId.of_N (oid_src w (oids_drawn w))).
  rewrite of_str_of_N.
  f_equal. rewrite coll_set_clock, Hus.
  apply find_app_some. rewrite (find_app_none _ _ _ Hid). cbn [List.find].
  rewrite matches_by_id, object_id_eqb_refl. reflexivity.
Qed.

(** X7: an email registers once: after a successful registration, every
    later registration whose email equals it up to case is refused with
    400, whatever requests are served in between. *)
Theorem register_same_email_twice p1 p2 w resp reqs t :
  fst (register p1 w) = Return resp ->
  str_lower (RegisterRequest.email p2) = str_lower (RegisterRequest.email p1) ->
  fst (register p2 (set_clock t (run reqs (snd (register p1 w)))))
  = HTTPException 400 "Email already registered".
Proof.
  intros Hreg Hemail.
  pose proof (register_succeeds_free _ _ _ Hreg) as Hfree.
  destruct (register_free _ _ Hfree) as (_ & Hu1 & _).
  destruct (run_grows reqs (snd (register p1 w))) as (us & ss & Hus & _ & _).
  rewrite Hu1 in Hus.
  assert (Hex : exists u', List.find
            (matches [Field "email" (Eq (str_lower (RegisterRequest.email p2)))])
            (coll (set_clock t (run reqs (snd (register p1 w)))) COL_USER) = Some u').
  { apply find_field_exists. rewrite coll_set_clock, Hus, Hemail.
    apply Exists_app. left. apply Exists_app. right.
    apply Exists_cons_hd. reflexivity. }
  destruct Hex as [u' Hu']. now rewrite (register_taken _ _ _ Hu').
Qed.

(** X8: sessions are never revoked: over any run of the API the
    sessions stored before are still stored after, in place and
    unchanged, followed by the sessions opened since. *)
Theorem sessions_only_appended reqs w :
  exists ss, coll (run reqs w) COL_SESSION = (coll w COL_SESSION ++ ss)%list.
Proof.
  destruct (run_grows reqs w) as (us & ss & _ & _ & Hs). now exists ss.
Qed.


(** ** Orders are kept *)

#[local] Instance orders_kept_preorder : PreOrder orders_kept.
Proof.
  split.
  - intros w. exists []. now rewrite app_nil_r.
  - intros w1 w2 w3 [n1 H1] [n2 H2]. exists (n1 ++ n2)%list.
    now rewrite H2, H1, app_assoc.
Qed.

Lemma appended_orders_kept w w' : appended COL_ORDER w w' -> orders_kept w w'.
Proof. intros [new H]. exists (order_core <$> new). now rewrite H, fmap_app. Qed.

Lemma appended_update_one name name' q upd :
  name' <> name -> keeps (appended name) (update_one name' q upd).
Proof. intros H w. apply untouched_appended. now apply coll_update_one_ne. Qed.

Lemma appended_delete_one name name' q :
  name' <> name -> keeps (appended name) (delete_one name' q).
Proof. intros H w. apply untouched_appended. now apply coll_delete_one_ne. Qed.

Ltac appended_leaf :=
  lazymatch goal with
  | |- keeps _ (insert_one _ _) => apply appended_insert_one
  | |- keeps _ (update_one _ _ _) => apply appended_update_one; discriminate
  | |- keeps _ (delete_one _ _) => apply appended_delete_one; discriminate
  | |- keeps _ _ => intros ?; exists []; rewrite app_nil_r; reflexivity
  end.

(** But for the status update, an operation can only add orders. *)
Lemma handle_appends_orders authorization op :
  (forall order_id payload, op <> PostAdminOrderStatus order_id payload) ->
  keeps (appended COL_ORDER) (handle authorization op).
Proof.
  intros Hop. destruct op; try (exfalso; eapply Hop; reflexivity);
    cbn [handle];
    unfold root, test_database, list_collection_names, register, login, me,
      list_games, get_game, get_current_user, require_admin, create_game,
      update_game, delete_game, create_order, my_orders, admin_list_orders;
    walk ltac:(fun _ => appended_leaf).
Qed.

Lemma status_update_core s now (f : gmap string value) :
  delete "status" (delete "updated_at"
    ((<["status" := VStr s]> (<["updated_at" := VInt now]> ∅)) ∪ f))
  = delete "status" (delete "updated_at" f).
Proof.
  apply map_eq. intros k.
  destruct (decide (k = "status")) as [->|Hs];
    [now rewrite !lookup_delete_eq|].
  rewrite !(lookup_delete_ne _ "status") by congruence.
  destruct (decide (k = "updated_at")) as [->|Hu];
    [now rewrite !lookup_delete_eq|].
  rewrite !(lookup_delete_ne _ "updated_at") by congruence.
  apply lookup_union_r.
  rewrite !lookup_insert_ne by congruence. apply lookup_empty.
Qed.

Lemma update_first_core q s now docs docs' :
  update_first q (<["status" := VStr s]> (<["updated_at" := VInt now]> ∅)) docs
    = Some docs' ->
  order_core <$> docs' = order_core <$> docs.
Proof.
  revert docs'. induction docs as [|d docs IH]; intros docs'; cbn [update_first];
    [discriminate|].
  destruct (matches q d).
  - intros [= <-]. cbn [fmap list_fmap]. f_equal.
    unfold order_core; cbn [doc_id doc_fields]. f_equal. apply status_update_core.
  - destruct (update_first q _ docs) as [docs1|]; [|discriminate].
    intros [= <-]. cbn [fmap list_fmap]. f_equal. now apply IH.
Qed.

Lemma orders_kept_update_status q s now :
  keeps orders_kept
    (update_one COL_ORDER q (<["status" := VStr s]> (<["updated_at" := VInt now]> ∅))).
Proof.
  intros w. unfold update_one.
  destruct (update_first q _ (coll w COL_ORDER)) as [docs|] eqn:Hupd.
  - exists []. rewrite app_nil_r. cbn [snd]. rewrite coll_log_op.
    unfold coll at 1, set_coll; cbn [db]. rewrite lookup_insert_eq. cbn.
    now apply update_first_core in Hupd.
  - exists []. now rewrite app_nil_r.
Qed.

Lemma handle_orders_kept authorization op : keeps orders_kept (handle authorization op).
Proof.
  destruct op;
    try (intros w; apply appended_orders_kept, handle_appends_orders; discriminate).
  cbn [handle]. unfold get_current_user, require_admin, update_order_status.
  walk ltac:(fun _ =>
    lazymatch goal with
    | |- keeps _ (update_one _ _ _) => apply orders_kept_update_status
    | |- keeps _ _ => intros ?; exists []; rewrite app_nil_r; reflexivity
    end).
Qed.

Lemma run_orders_kept reqs w : orders_kept w (run reqs w).
Proof.
  revert w. induction reqs as [|[[t authorization] op] reqs IH]; intros w.
  - reflexivity.
  - cbn [run]. etransitivity; [|apply IH].
    etransitivity; [|apply handle_orders_kept].
    exists []. now rewrite app_nil_r.
Qed.

(** X9: orders are never deleted, and an order's id, owner, game,
    transaction identifier, payment method and delivery email never
    change: over any run of the API the orders stored before are still
    stored after, in place, equal up to [status] and [updated_at]. *)
Theorem orders_never_lost reqs w :
  exists new,
    order_core <$> coll (run reqs w) COL_ORDER
    = ((order_core <$> coll w COL_ORDER) ++ new)%list.
Proof. apply run_orders_kept. Qed.


(** ** Placing orders *)

Lemma post_orders_success authorization payload w r :
  fst (handle authorization (PostOrders payload) w) = Return r ->
  exists user w1,
    get_current_user authorization w = (Return user, w1) /\
    coll (snd (handle authorization (PostOrders payload) w)) COL_ORDER
    = (coll w COL_ORDER ++ [placed_order payload user w1])%list /\
    r = JOrder (ObjectId.to_str (doc_id (placed_order payload user w1)))
          "Order placed. Delivery within 2 hours after verification.".
Proof.
  destruct (get_current_user authorization w) as [[user|c d|e] w1] eqn:Hauth;
    try (cbn [handle]; unfold bind at 1; rewrite Hauth; discriminate).
  rewrite (handle_post_orders _ _ _ _ _ Hauth).
  assert (Hdb : db w1 = db w).
  { change w1 with (snd (Return user, w1)). rewrite <- Hauth.
    apply get_current_user_db. }
  unfold fmap_M, bind.
  destruct (ObjectId.of_str (CreateOrderRequest.game_id payload)) as [o|] eqn:Ho;
    [|rewrite (create_order_invalid _ _ _ Ho); discriminate].
  rewrite (create_order_run _ _ _ _ Ho).
  destruct (List.find (matches [ById o]) (coll w1 COL_GAME)); [|discriminate].
  destruct (List.find _ (coll w1 COL_ORDER)); [discriminate|].
  cbn [fst snd ret]. intros [= <-]. exists user, w1.
  split; [reflexivity|]. split; [|reflexivity].
  rewrite coll_insert_one_eq, !coll_log_op. unfold coll. now rewrite Hdb.
Qed.

Lemma post_orders_duplicate authorization payload w :
  List.find
    (matches [Field "transaction_id"
                (Eq (CreateOrderRequest.transaction_id payload))])
    (coll w COL_ORDER) <> None ->
  forall r, fst (handle authorization (PostOrders payload) w) <> Return r.
Proof.
  intros Hdup r.
  destruct (get_current_user authorization w) as [[user|c d|e] w1] eqn:Hauth;
    try (cbn [handle]; unfold bind at 1; rewrite Hauth; discriminate).
  rewrite (handle_post_orders _ _ _ _ _ Hauth).
  assert (Hdb : db w1 = db w).
  { change w1 with (snd (Return user, w1)). rewrite <- Hauth.
    apply get_current_user_db. }
  unfold fmap_M, bind.
  destruct (ObjectId.of_str (CreateOrderRequest.game_id payload)) as [o|] eqn:Ho;
    [|rewrite (create_order_invalid _ _ _ Ho); discriminate].
  rewrite (create_order_run _ _ _ _ Ho).
  destruct (List.find (matches [ById o]) (coll w1 COL_GAME)); [|discriminate].
  replace (coll w1 COL_ORDER) with (coll w COL_ORDER)
    by (unfold coll; now rewrite Hdb).
  destruct (List.find _ (coll w COL_ORDER)); [discriminate|].
  now contradiction Hdup.
Qed.

Lemma order_core_transaction_id d d' :
  order_core d = order_core d' ->
  get d "transaction_id" = get d' "transaction_id".
Proof.
  unfold order_core, get. intros [= _ Hf].
  apply (f_equal (fun m => m !! "transaction_id")) in Hf.
  now rewrite !lookup_delete_ne in Hf by discriminate.
Qed.

(** X10: a transaction identifier pays for one order only: once an
    order has been placed with it, no later [POST /orders] carrying the
    same identifier succeeds, whoever sends it and whatever requests are
    served in between. *)
Theorem transaction_id_used_once a1 p1 w r1 reqs t a2 p2 :
  fst (handle a1 (PostOrders p1) w) = Return r1 ->
  CreateOrderRequest.transaction_id p2 = CreateOrderRequest.transaction_id p1 ->
  forall r2,
    fst (handle a2 (PostOrders p2)
           (set_clock t (run reqs (snd (handle a1 (PostOrders p1) w)))))
    <> Return r2.
Proof.
  intros Hfirst Htxn.
  destruct (post_orders_success _ _ _ _ Hfirst) as (user & w1 & _ & Horders & _).
  destruct (run_orders_kept reqs (snd (handle a1 (PostOrders p1) w))) as [new Hkept].
  rewrite Horders, fmap_app in Hkept.
  assert (Hin : order_core (placed_order p1 user w1)
                ∈ order_core <$> coll (run reqs (snd (handle a1 (PostOrders p1) w)))
                                   COL_ORDER).
  { rewrite Hkept. apply elem_of_app. left. apply elem_of_app. right.
    apply list_elem_of_fmap_2. now left. }
  apply list_elem_of_fmap_1 in Hin as (d & Hcore & Hd).
  apply post_orders_duplicate. rewrite coll_set_clock, Htxn.
  assert (Hex : exists u, List.find
            (matches [Field "transaction_id"
                        (Eq (CreateOrderRequest.transaction_id p1))])
            (coll (run reqs (snd (handle a1 (PostOrders p1) w))) COL_ORDER) = Some u).
  { apply find_field_exists, Exists_exists. exists d. split; [exact Hd|].
    rewrite (order_core_transaction_id d (placed_order p1 user w1))
      by (symmetry; exact Hcore).
    reflexivity. }
  destruct Hex as [u Hu]. rewrite Hu. discriminate.
Qed.


(** ** Replacing and removing the first match *)

Lemma find_split {A} (f : A -> bool) l x :
  List.find f l = Some x ->
  exists pre post, l = (pre ++ x :: post)%list /\ List.find f pre = None /\ f x = true.
Proof.
  induction l as [|y l IH]; cbn [List.find]; [discriminate|].
  destruct (f y) eqn:Hy.
  - intros [= <-]. now exists [], l.
  - intros Hf. destruct (IH Hf) as (pre & post & -> & Hpre & Hx).
    exists (y :: pre), post. cbn [List.find]. now rewrite Hy.
Qed.

Lemma update_first_split q upd pre d post :
  List.find (matches q) pre = None ->
  matches q d = true ->
  update_first q upd (pre ++ d :: post)
  = Some (pre ++ Doc (doc_id d) (upd ∪ doc_fields d) :: post)%list.
Proof.
  intros Hpre Hd. induction pre as [|y pre IH]; cbn [update_first app List.find] in *.
  - now rewrite Hd.
  - destruct (matches q y); [discriminate|]. now rewrite (IH Hpre).
Qed.

Lemma delete_first_split q pre d post :
  List.find (matches q) pre = None ->
  matches q d = true ->
  delete_first q (pre ++ d :: post) = Some (pre ++ post)%list.
Proof.
  intros Hpre Hd. induction pre as [|y pre IH]; cbn [delete_first app List.find] in *.
  - now rewrite Hd.
  - destruct (matches q y); [discriminate|]. now rewrite (IH Hpre).
Qed.

Lemma delete_first_none q docs :
  List.find (matches q) docs = None -> delete_first q docs = None.
Proof.
  induction docs as [|d docs IH]; simpl; [reflexivity|].
  destruct (matches q d); [discriminate|]. intros H. now rewrite IH.
Qed.

(** ** The clock is not the handlers' to set *)

#[local] Instance same_clock_preorder : PreOrder same_clock.
Proof.
  split; [intros w; reflexivity|].
  intros w1 w2 w3 H12 H23. unfold same_clock in *. congruence.
Qed.

Lemma handle_clock authorization op w :
  clock (snd (handle authorization op w)) = clock w.
Proof.
  change (same_clock w (snd (handle authorization op w))).
  revert w. change (keeps same_clock (handle authorization op)).
  destruct op; cbn [handle];
    unfold root, test_database, list_collection_names, register, login, me,
      list_games, get_game, get_current_user, require_admin, create_game,
      update_game, delete_game, create_order, my_orders, admin_list_orders,
      update_order_status;
    walk ltac:(fun _ =>
      lazymatch goal with
      | |- keeps _ (update_one _ _ _) =>
          intros ?; unfold update_one;
          match goal with |- context [update_first ?q ?u ?l] =>
            destruct (update_first q u l) end; reflexivity
      | |- keeps _ (delete_one _ _) =>
          intros ?; unfold delete_one;
          match goal with |- context [delete_first ?q ?l] =>
            destruct (delete_first q l) end; reflexivity
      | |- keeps _ _ => intros ?; reflexivity
      end).
Qed.


(** ** Order status *)

Lemma update_one_found name q upd w pre d post :
  coll w name = (pre ++ d :: post)%list ->
  List.find (matches q) pre = None ->
  matches q d = true ->
  update_one name q upd w =
  (Return 1%nat,
   log_op (UpdateOne name q upd)
     (set_coll name (pre ++ Doc (doc_id d) (upd ∪ doc_fields d) :: post)%list w)).
Proof.
  intros Hc Hpre Hd. unfold update_one.
  now rewrite Hc, (update_first_split _ _ _ _ _ Hpre Hd).
Qed.

Lemma update_one_missing name q upd w :
  List.find (matches q) (coll w name) = None ->
  update_one name q upd w = (Return 0%nat, log_op (UpdateOne name q upd) w).
Proof. intros Hf. unfold update_one. now rewrite (update_first_none _ _ _ Hf). Qed.

Lemma coll_set_coll name docs w : coll (set_coll name docs w) name = docs.
Proof. unfold coll, set_coll; cbn [db]. now rewrite lookup_insert_eq. Qed.

Lemma auth_world_coll authorization w user w1 name :
  get_current_user authorization w = (Return user, w1) ->
  coll w1 name = coll w name /\ clock w1 = clock w /\ db w1 = db w.
Proof.
  intros Hauth.
  assert (Hdb : db w1 = db w).
  { change w1 with (snd (Return user, w1)). rewrite <- Hauth.
    apply get_current_user_db. }
  split; [unfold coll; now rewrite Hdb|]. split; [|exact Hdb].
  change w1 with (snd (Return user, w1)). rewrite <- Hauth.
  apply get_current_user_clock.
Qed.

Lemma update_order_status_missing order_id payload user w o :
  allowed_status (UpdateOrderStatusRequest.status payload) = true ->
  ObjectId.of_str order_id = Some o ->
  List.find (matches [ById o]) (coll w COL_ORDER) = None ->
  exists w', update_order_status order_id payload user w
             = (HTTPException 404 "Order not found", w') /\ db w' = db w.
Proof.
  intros Hs Ho Hf. unfold update_order_status. rewrite Hs. cbn [negb].
  unfold bind at 1. rewrite (oid_valid _ _ _ Ho).
  unfold bind at 1, time_now. unfold bind.
  rewrite (update_one_missing _ _ _ _ Hf). eexists. split; reflexivity.
Qed.

Lemma update_order_status_found order_id payload user w o pre d post :
  let s := UpdateOrderStatusRequest.status payload in
  let upd := <["status" := VStr s]> (<["updated_at" := VInt (clock w)]> ∅) in
  allowed_status s = true ->
  ObjectId.of_str order_id = Some o ->
  coll w COL_ORDER = (pre ++ d :: post)%list ->
  List.find (matches [ById o]) pre = None ->
  matches [ById o] d = true ->
  update_order_status order_id payload user w =
  (Return true,
   log_op (UpdateOne COL_ORDER [ById o] upd)
     (set_coll COL_ORDER
        (pre ++ Doc (doc_id d) (upd ∪ doc_fields d) :: post)%list w)).
Proof.
  intros s upd Hs Ho Hc Hpre Hd. unfold update_order_status. fold s. rewrite Hs.
  cbn [negb]. unfold bind at 1. rewrite (oid_valid _ _ _ Ho).
  unfold bind at 1, time_now. unfold bind. fold upd.
  now rewrite (update_one_found _ _ _ _ _ _ _ Hc Hpre Hd).
Qed.

(** X11: for an admin, the status update refuses a status outside
    pending, verified, delivered and cancelled with 400 before it looks
    at the id or the store; with an allowed status it answers 404 when no
    order has the id, and otherwise sets [status] and [updated_at] on the
    first order with that id, whatever its status was, and leaves its
    other fields and all other orders as they were. *)
Theorem order_status_update authorization order_id payload w u w1 :
  let s := UpdateOrderStatusRequest.status payload in
  let result := handle authorization (PostAdminOrderStatus order_id payload) w in
  get_current_user authorization w = (Return (Some u), w1) ->
  get u "role" = Some (VStr "admin") ->
  (allowed_status s = false ->
     result = (HTTPException 400 "Invalid status", w1)) /\
  (forall o, allowed_status s = true -> ObjectId.of_str order_id = Some o ->
     List.find (matches [ById o]) (coll w COL_ORDER) = None ->
     fst result = HTTPException 404 "Order not found" /\ db (snd result) = db w) /\
  (forall o d, allowed_status s = true -> ObjectId.of_str order_id = Some o ->
     List.find (matches [ById o]) (coll w COL_ORDER) = Some d ->
     fst result = Return (JUpdated true) /\
     exists pre post d',
       coll w COL_ORDER = (pre ++ d :: post)%list /\
       coll (snd result) COL_ORDER = (pre ++ d' :: post)%list /\
       doc_id d' = doc_id d /\
       get d' "status" = Some (VStr s) /\
       get d' "updated_at" = Some (VInt (clock w)) /\
       forall k, k <> "status" -> k <> "updated_at" -> get d' k = get d k).
Proof.
  intros s result Hauth Hrole. subst result.
  rewrite (handle_as_admin _ (PostAdminOrderStatus order_id payload) _ _ _
             eq_refl Hauth Hrole).
  destruct (auth_world_coll _ _ _ _ COL_ORDER Hauth) as (Hcoll & Hclock & Hdb).
  cbn [behind_gate]. unfold fmap_M, bind.
  split; [|split].
  - intros Hs. unfold update_order_status. fold s. rewrite Hs. reflexivity.
  - intros o Hs Ho Hf. rewrite <- Hcoll in Hf.
    destruct (update_order_status_missing order_id payload u w1 o Hs Ho Hf)
      as (w' & -> & Hw').
    split; [reflexivity | cbn [snd]; congruence].
  - intros o d Hs Ho Hf.
    destruct (find_split _ _ _ Hf) as (pre & post & Hsplit & Hpre & Hd).
    rewrite (update_order_status_found order_id payload u w1 o pre d post Hs Ho)
      by (rewrite ?Hcoll; assumption).
    split; [reflexivity|].
    eexists pre, post, _. split; [exact Hsplit|].
    split; [cbn [snd ret]; rewrite coll_log_op; apply coll_set_coll|].
    split; [reflexivity|]. split; [|split].
    + unfold get; cbn [doc_fields]. apply lookup_union_Some_l, lookup_insert_eq.
    + unfold get; cbn [doc_fields]. rewrite Hclock.
      apply lookup_union_Some_l. rewrite lookup_insert_ne by discriminate.
      apply lookup_insert_eq.
    + intros k Hk1 Hk2. unfold get; cbn [doc_fields]. apply lookup_union_r.
      rewrite !lookup_insert_ne by congruence. apply lookup_empty.
Qed.


(** ** A user's own orders *)

Lemma my_orders_run authorization w u w1 :
  let q := [Field "user_id" (Eq (ObjectId.to_str (doc_id u)))] in
  get_current_user authorization w = (Return (Some u), w1) ->
  handle authorization GetOrdersMine w =
  (Return (JDocs (stringify_id <$> List.filter (matches q) (coll w COL_ORDER))),
   log_op (Find COL_ORDER q None) w1).
Proof.
  intros q Hauth. destruct (auth_world_coll _ _ _ _ COL_ORDER Hauth) as (Hcoll & _).
  cbn [handle]. unfold bind at 1. rewrite Hauth.
  unfold fmap_M, my_orders, bind, find, ret. fold q. now rewrite Hcoll.
Qed.

Lemma pair_of_fst {A B} (p : A * B) a : fst p = a -> p = (a, snd p).
Proof. destruct p. cbn. now intros ->. Qed.

(** X12: [GET /orders/mine] answers 401 without an identity; for an
    authenticated user it answers all the stored orders whose [user_id]
    is that user's id, and no other: not another user's, and not an
    order placed anonymously.  It changes nothing in the store. *)
Theorem my_orders_own authorization w :
  let result := handle authorization GetOrdersMine w in
  (fst (get_current_user authorization w) = Return None ->
     fst result = HTTPException 401 "Unauthorized") /\
  (forall u, fst (get_current_user authorization w) = Return (Some u) ->
     exists own,
       fst result = Return (JDocs (stringify_id <$> own)) /\
       (forall d, In d own <->
                  In d (coll w COL_ORDER) /\
                  get d "user_id" = Some (VStr (ObjectId.to_str (doc_id u)))) /\
       db (snd result) = db w).
Proof.
  intros result. subst result. split.
  - intros Hauth. apply pair_of_fst in Hauth.
    cbn [handle]. unfold bind at 1. rewrite Hauth. reflexivity.
  - intros u Hauth. apply pair_of_fst in Hauth.
    rewrite (my_orders_run _ _ _ _ Hauth). eexists. split; [reflexivity|].
    split.
    + intros d. rewrite filter_In, matches_field_eq, eq_str_true. reflexivity.
    + cbn [snd]. now destruct (auth_world_coll _ _ _ _ COL_ORDER Hauth) as (_ & _ & ?).
Qed.

(** X13: an order placed with a user's token shows in that user's
    [GET /orders/mine] right after: a document with the id that
    [POST /orders] answered, the transaction identifier sent and status
    pending. *)
Theorem placed_order_listed authorization payload w u id message :
  fst (get_current_user authorization w) = Return (Some u) ->
  fst (handle authorization (PostOrders payload) w) = Return (JOrder id message) ->
  exists l d,
    fst (handle authorization GetOrdersMine
           (snd (handle authorization (PostOrders payload) w)))
      = Return (JDocs l) /\
    In d l /\
    d !! "_id" = Some (VStr id) /\
    d !! "transaction_id"
      = Some (VStr (CreateOrderRequest.transaction_id payload)) /\
    d !! "status" = Some (VStr "pending").
Proof.
  intros Hauth Hpost.
  destruct (post_orders_success _ _ _ _ Hpost) as (user & w1 & Hauth1 & Horders & Hr).
  rewrite Hauth1 in Hauth. cbn [fst] in Hauth. injection Hauth as ->.
  injection Hr as -> _.
  set (w' := snd (handle authorization (PostOrders payload) w)) in *.
  assert (Hstable : fst (get_current_user authorization w') = Return (Some u)).
  { rewrite (get_current_user_stable authorization w w').
    - now rewrite Hauth1.
    - apply handle_untouched. cbn. intros [H|[]]. discriminate.
    - apply handle_untouched. cbn. intros [H|[]]. discriminate.
    - apply handle_clock. }
  apply pair_of_fst in Hstable. rewrite (my_orders_run _ _ _ _ Hstable).
  eexists _, (stringify_id (placed_order payload (Some u) w1)).
  split; [reflexivity|]. split; [|split; [|split]].
  - apply in_map, filter_In. split.
    + rewrite Horders. apply in_or_app. right. now left.
    + rewrite matches_field_eq. apply eq_str_true. reflexivity.
  - apply lookup_insert_eq.
  - reflexivity.
  - reflexivity.
Qed.


(** ** The catalogue: create, read *)

Lemma create_game_run payload user w :
  GameSchema.price_ok (GameCreateRequest.price payload) = true ->
  create_game payload user w =
  (Return (ObjectId.to_str (doc_id (created_game payload w))),
   snd (insert_one COL_GAME (doc_fields (created_game payload w)) w)).
Proof. intros Hp. unfold create_game. rewrite Hp. reflexivity. Qed.

Lemma create_game_invalid payload user w :
  GameSchema.price_ok (GameCreateRequest.price payload) = false ->
  create_game payload user w = (Uncaught "ValidationError", w).
Proof. intros Hp. unfold create_game. rewrite Hp. reflexivity. Qed.

Lemma get_game_found game_id o g w :
  ObjectId.of_str game_id = Some o ->
  List.find (matches [ById o]) (coll w COL_GAME) = Some g ->
  get_game game_id w =
  (Return (stringify_id g), log_op (FindOne COL_GAME [ById o]) w).
Proof.
  intros Ho Hf. unfold get_game, bind at 1. rewrite (oid_valid _ _ _ Ho).
  unfold bind, find_one. now rewrite Hf.
Qed.

Lemma get_game_missing game_id o w :
  ObjectId.of_str game_id = Some o ->
  List.find (matches [ById o]) (coll w COL_GAME) = None ->
  get_game game_id w =
  (HTTPException 404 "Game not found", log_op (FindOne COL_GAME [ById o]) w).
Proof.
  intros Ho Hf. unfold get_game, bind at 1. rewrite (oid_valid _ _ _ Ho).
  unfold bind, find_one. now rewrite Hf.
Qed.

Lemma created_game_id payload w :
  ObjectId.of_str (ObjectId.to_str (doc_id (created_game payload w)))
  = Some (doc_id (created_game payload w)).
Proof.
  apply of_str_of_N.
Qed.

(** X14: a game created by an admin reads back: [GET /games/{id}] with
    the id that [POST /admin/games] answered returns the game with that
    id and with the payload's title, platform, description, price,
    images, category and stock flag, the id the store assigns being
    unused.  A payload whose price is negative or not a number is
    rejected by the schema: nothing is stored. *)
Theorem game_round_trip admin any payload w u w1 :
  let created := handle admin (PostAdminGames payload) w in
  get_current_user admin w = (Return (Some u), w1) ->
  get u "role" = Some (VStr "admin") ->
  (GameSchema.price_ok (GameCreateRequest.price payload) = false ->
     fst created = Uncaught "ValidationError" /\ db (snd created) = db w) /\
  (GameSchema.price_ok (GameCreateRequest.price payload) = true ->
   List.find (matches [ById (doc_id (created_game payload w))]) (coll w COL_GAME)
     = None ->
   exists id doc,
     fst created = Return (JId id) /\
     fst (handle any (GetGame id) (snd created)) = Return (JDoc doc) /\
     doc !! "_id" = Some (VStr id) /\
     forall k, k <> "_id" -> k <> "created_at" -> k <> "updated_at" ->
               doc !! k = GameSchema.model_dump (game_of payload) !! k).
Proof.
  intros created Hauth Hrole. subst created.
  rewrite (handle_as_admin _ (PostAdminGames payload) _ _ _ eq_refl Hauth Hrole).
  destruct (auth_world_coll _ _ _ _ COL_GAME Hauth) as (Hcoll & Hclock & Hdb).
  cbn [behind_gate]. split.
  - intros Hp. unfold fmap_M, bind. rewrite (create_game_invalid _ _ _ Hp).
    split; [reflexivity | exact Hdb].
  - intros Hp Hfresh.
    assert (Hsame : created_game payload w1 = created_game payload w).
    { unfold created_game. rewrite Hclock.
      destruct (get_current_user_logged admin w) as (ops & Hw1 & _).
      rewrite Hauth in Hw1. cbn [snd] in Hw1. now subst w1. }
    assert (Hrun : fmap_M JId (create_game payload u) w1 =
                   (Return (JId (ObjectId.to_str (doc_id (created_game payload w)))),
                    snd (insert_one COL_GAME (doc_fields (created_game payload w)) w1))).
    { unfold fmap_M, bind. rewrite (create_game_run _ _ _ Hp), Hsame. reflexivity. }
    rewrite Hrun. cbn [fst snd].
    exists (ObjectId.to_str (doc_id (created_game payload w))),
           (stringify_id (created_game payload w)).
    split; [reflexivity|]. split; [|split].
    + cbn [handle]. unfold fmap_M, bind.
      rewrite (get_game_found _ _ (created_game payload w) _ (created_game_id _ _)).
      * reflexivity.
      * rewrite coll_insert_one_eq, Hcoll.
        rewrite (find_app_none _ _ _ Hfresh). cbn [List.find].
        replace (Doc (ObjectId.of_N (oid_src w1 (oids_drawn w1)))
                   (doc_fields (created_game payload w)))
          with (created_game payload w)
          by (rewrite <- Hsame; reflexivity).
        now rewrite matches_by_id, object_id_eqb_refl.
    + apply lookup_insert_eq.
    + intros k H1 H2 H3. unfold stringify_id.
      rewrite lookup_insert_ne by congruence. cbn [created_game doc_fields].
      now rewrite !lookup_insert_ne by congruence.
Qed.


(** ** The catalogue: update *)

Lemma updates_elem payload k v :
  (k, v) ∈ updates_of payload <-> (k, Some v) ∈ GameUpdateRequest.items payload.
Proof.
  unfold updates_of. rewrite list_elem_of_omap. split.
  - intros ([k' [v'|]] & Hin & Hf); cbn in Hf; [|discriminate].
    now injection Hf as -> ->.
  - intros Hin. now exists (k, Some v).
Qed.

Lemma items_functional payload k v v' :
  (k, v) ∈ GameUpdateRequest.items payload ->
  (k, v') ∈ GameUpdateRequest.items payload -> v = v'.
Proof.
  unfold GameUpdateRequest.items. rewrite !elem_of_cons, !elem_of_nil.
  intros H H'.
  repeat (destruct H as [H|H]; [injection H as -> ->|]); try contradiction;
    repeat (destruct H' as [H'|H']; [try discriminate H'; now injection H' as ->|]);
    contradiction.
Qed.

Lemma items_not_updated_at payload v :
  ("updated_at", v) ∉ GameUpdateRequest.items payload.
Proof.
  unfold GameUpdateRequest.items. rewrite !elem_of_cons, !elem_of_nil.
  intros H. repeat (destruct H as [H|H]; [discriminate H|]). contradiction.
Qed.

Lemma updates_lookup_set payload k v :
  (k, Some v) ∈ GameUpdateRequest.items payload ->
  (list_to_map (updates_of payload) : gmap string value) !! k = Some v.
Proof.
  intros Hin. apply elem_of_list_to_map_1'; [|now apply updates_elem].
  intros y Hy. apply updates_elem in Hy.
  pose proof (items_functional _ _ _ _ Hin Hy) as Heq. now injection Heq.
Qed.

Lemma updates_lookup_unset payload k :
  (forall v, (k, Some v) ∉ GameUpdateRequest.items payload) ->
  (list_to_map (updates_of payload) : gmap string value) !! k = None.
Proof.
  intros Hout. apply not_elem_of_list_to_map_1. rewrite list_elem_of_fmap.
  intros ([k' v] & -> & Hin). apply updates_elem in Hin. now apply (Hout v).
Qed.

Lemma update_game_found game_id payload user w o pre g post :
  let upd := <["updated_at" := VInt (clock w)]> (list_to_map (updates_of payload)) in
  updates_of payload <> [] ->
  ObjectId.of_str game_id = Some o ->
  coll w COL_GAME = (pre ++ g :: post)%list ->
  List.find (matches [ById o]) pre = None ->
  matches [ById o] g = true ->
  update_game game_id payload user w =
  (Return true,
   log_op (UpdateOne COL_GAME [ById o] upd)
     (set_coll COL_GAME
        (pre ++ Doc (doc_id g) (upd ∪ doc_fields g) :: post)%list w)).
Proof.
  intros upd Hupd Ho Hc Hpre Hg. unfold update_game.
  destruct (updates_of payload) as [|kv rest] eqn:Hu; [contradiction|].
  unfold bind at 1, time_now. unfold bind at 1. rewrite (oid_valid _ _ _ Ho).
  unfold bind. subst upd.
  now rewrite (update_one_found _ _ _ _ _ _ _ Hc Hpre Hg).
Qed.

(** X15: an admin's [PUT /admin/games/{id}] that sets at least one
    field, on an id some game has, answers [{"updated": True}] and
    rewrites the first game with that id: every field the payload sets
    takes the payload's value, [updated_at] takes the time of the
    request, every other field and the id stay, and so do all other
    games, in place. *)
Theorem game_update admin game_id payload w u w1 o g :
  let result := handle admin (PutAdminGame game_id payload) w in
  get_current_user admin w = (Return (Some u), w1) ->
  get u "role" = Some (VStr "admin") ->
  updates_of payload <> [] ->
  ObjectId.of_str game_id = Some o ->
  List.find (matches [ById o]) (coll w COL_GAME) = Some g ->
  fst result = Return (JUpdated true) /\
  exists pre post g',
    coll w COL_GAME = (pre ++ g :: post)%list /\
    coll (snd result) COL_GAME = (pre ++ g' :: post)%list /\
    doc_id g' = doc_id g /\
    get g' "updated_at" = Some (VInt (clock w)) /\
    (forall k v, (k, Some v) ∈ GameUpdateRequest.items payload -> get g' k = Some v) /\
    (forall k, k <> "updated_at" ->
               (forall v, (k, Some v) ∉ GameUpdateRequest.items payload) ->
               get g' k = get g k).
Proof.
  intros result Hauth Hrole Hupd Ho Hf. subst result.
  rewrite (handle_as_admin _ (PutAdminGame game_id payload) _ _ _ eq_refl Hauth Hrole).
  destruct (auth_world_coll _ _ _ _ COL_GAME Hauth) as (Hcoll & Hclock & Hdb).
  destruct (find_split _ _ _ Hf) as (pre & post & Hsplit & Hpre & Hg).
  cbn [behind_gate]. unfold fmap_M, bind.
  rewrite (update_game_found game_id payload u w1 o pre g post Hupd Ho)
    by (rewrite ?Hcoll; assumption).
  split; [reflexivity|].
  eexists pre, post, _. split; [exact Hsplit|].
  split; [cbn [snd ret]; rewrite coll_log_op; apply coll_set_coll|].
  split; [reflexivity|]. rewrite Hclock. split; [|split].
  - unfold get; cbn [doc_fields]. apply lookup_union_Some_l, lookup_insert_eq.
  - intros k v Hin. unfold get; cbn [doc_fields]. apply lookup_union_Some_l.
    rewrite lookup_insert_ne
      by (intros <-; exact (items_not_updated_at _ _ Hin)).
    now apply updates_lookup_set.
  - intros k Hk Hout. unfold get; cbn [doc_fields]. apply lookup_union_r.
    rewrite lookup_insert_ne by congruence. now apply updates_lookup_unset.
Qed.


(** ** The catalogue: delete *)

Lemma find_by_id_none o l :
  o ∉ doc_id <$> l -> List.find (matches [ById o]) l = None.
Proof.
  induction l as [|d l IH]; cbn [List.find fmap list_fmap]; [reflexivity|].
  rewrite not_elem_of_cons. intros [Hne Hl]. rewrite matches_by_id.
  unfold ObjectId.eqb.
  destruct (String.eqb_spec (doc_id d) o) as [Heq|_]; [now contradiction Hne | now apply IH].
Qed.

Lemma delete_game_found game_id user w o pre g post :
  ObjectId.of_str game_id = Some o ->
  coll w COL_GAME = (pre ++ g :: post)%list ->
  List.find (matches [ById o]) pre = None ->
  matches [ById o] g = true ->
  delete_game game_id user w =
  (Return true,
   log_op (DeleteOne COL_GAME [ById o]) (set_coll COL_GAME (pre ++ post)%list w)).
Proof.
  intros Ho Hc Hpre Hg. unfold delete_game, bind at 1. rewrite (oid_valid _ _ _ Ho).
  unfold bind, delete_one. now rewrite Hc, (delete_first_split _ _ _ _ Hpre Hg).
Qed.

Lemma delete_game_missing game_id user w o :
  ObjectId.of_str game_id = Some o ->
  List.find (matches [ById o]) (coll w COL_GAME) = None ->
  delete_game game_id user w =
  (HTTPException 404 "Game not found", log_op (DeleteOne COL_GAME [ById o]) w).
Proof.
  intros Ho Hf. unfold delete_game, bind at 1. rewrite (oid_valid _ _ _ Ho).
  unfold bind, delete_one. now rewrite (delete_first_none _ _ Hf).
Qed.

(** X16: an admin's [DELETE /admin/games/{id}] answers 404 and changes
    nothing when no game has the id; otherwise it removes the first game
    with that id and leaves the others in place.  When ids are unique in
    the collection the game is then gone: reading it answers 404, and so
    does deleting it again. *)
Theorem game_delete admin any game_id w u w1 o :
  let result := handle admin (DeleteAdminGame game_id) w in
  get_current_user admin w = (Return (Some u), w1) ->
  get u "role" = Some (VStr "admin") ->
  ObjectId.of_str game_id = Some o ->
  (List.find (matches [ById o]) (coll w COL_GAME) = None ->
     fst result = HTTPException 404 "Game not found" /\ db (snd result) = db w) /\
  (forall g, List.find (matches [ById o]) (coll w COL_GAME) = Some g ->
     fst result = Return (JDeleted true) /\
     exists pre post,
       coll w COL_GAME = (pre ++ g :: post)%list /\
       coll (snd result) COL_GAME = (pre ++ post)%list /\
       (NoDup (doc_id <$> coll w COL_GAME) ->
        fst (handle any (GetGame game_id) (snd result))
          = HTTPException 404 "Game not found" /\
        fst (handle admin (DeleteAdminGame game_id) (snd result))
          = HTTPException 404 "Game not found")).
Proof.
  intros result Hauth Hrole Ho.
  assert (Hstable : fst (get_current_user admin (snd result)) = Return (Some u)).
  { rewrite (get_current_user_stable admin w (snd result)).
    - now rewrite Hauth.
    - apply handle_untouched. cbn. intros [H|[]]. discriminate.
    - apply handle_untouched. cbn. intros [H|[]]. discriminate.
    - apply handle_clock. }
  apply pair_of_fst in Hstable.
  destruct (auth_world_coll _ _ _ _ COL_GAME Hstable) as (Hcoll2 & _).
  pose proof (handle_as_admin _ (DeleteAdminGame game_id) _ _ _ eq_refl Hstable Hrole)
    as Hagain.
  destruct (auth_world_coll _ _ _ _ COL_GAME Hauth) as (Hcoll & Hclock & Hdb).
  assert (Hfirst : result = fmap_M JDeleted (delete_game game_id u) w1).
  { subst result.
    now rewrite (handle_as_admin _ (DeleteAdminGame game_id) _ _ _ eq_refl Hauth Hrole). }
  clearbody result. split.
  - intros Hf. rewrite Hfirst. unfold fmap_M, bind.
    rewrite (delete_game_missing _ _ _ _ Ho) by (now rewrite Hcoll).
    split; [reflexivity | exact Hdb].
  - intros g Hf.
    destruct (find_split _ _ _ Hf) as (pre & post & Hsplit & Hpre & Hg).
    assert (Hrun : result =
                   (Return (JDeleted true),
                    log_op (DeleteOne COL_GAME [ById o])
                      (set_coll COL_GAME (pre ++ post)%list w1))).
    { rewrite Hfirst. unfold fmap_M, bind.
      rewrite (delete_game_found _ _ _ _ pre g post Ho)
        by (rewrite ?Hcoll; assumption).
      reflexivity. }
    subst result. rewrite Hrun in *. cbn [fst snd] in *.
    split; [reflexivity|].
    exists pre, post. split; [exact Hsplit|].
    assert (Hafter : coll (log_op (DeleteOne COL_GAME [ById o])
                        (set_coll COL_GAME (pre ++ post)%list w1)) COL_GAME
                     = (pre ++ post)%list)
      by (rewrite coll_log_op; apply coll_set_coll).
    split; [exact Hafter|].
    intros Hnodup.
    assert (Hgone : List.find (matches [ById o]) (pre ++ post) = None).
    { apply find_by_id_none. rewrite Hsplit, fmap_app, fmap_cons in Hnodup.
      apply NoDup_app in Hnodup as (_ & Hdisj & Hpost).
      apply NoDup_cons in Hpost as [Hpost _].
      rewrite matches_by_id in Hg. apply object_id_eqb_eq in Hg. rewrite Hg in *.
      rewrite fmap_app, elem_of_app. intros [Hin|Hin]; [|contradiction].
      apply (Hdisj o Hin). now left. }
    split.
    + cbn [handle]. unfold fmap_M, bind.
      rewrite (get_game_missing _ _ _ Ho) by (now rewrite Hafter). reflexivity.
    + rewrite Hagain. cbn [behind_gate]. unfold fmap_M, bind.
      rewrite (delete_game_missing _ _ _ _ Ho)
        by (now rewrite Hcoll2, Hafter).
      reflexivity.
Qed.


(** ** Listings *)

Lemma filter_all {A} (f : A -> bool) l :
  (forall x, f x = true) -> List.filter f l = l.
Proof.
  intros Hf. induction l as [|x l IH]; cbn [List.filter]; [reflexivity|].
  now rewrite Hf, IH.
Qed.

Lemma in_take {A} (n : nat) (l : list A) x : In x (take n l) -> In x l.
Proof.
  rewrite <- !list_elem_of_In. intros H.
  apply list_elem_of_lookup in H as [i Hi].
  apply lookup_take_Some in Hi as [Hi _].
  apply list_elem_of_lookup. now exists i.
Qed.


(** The filter of [admin_list_orders] holds no pattern. *)
Lemma admin_orders_query_ok status :
  query_ok match given status with
           | Some s => [Field "status" (Eq s)]
           | None => []
           end = true.
Proof. now destruct (given status). Qed.

(** X18: for an admin, [GET /admin/orders] answers at most 100 orders,
    all of them stored orders; with a non-empty status parameter each has
    exactly that status, and without one the answer is the first 100
    orders of the collection.  It writes nothing. *)
Theorem admin_orders_bounded authorization status w u w1 :
  let result := handle authorization (GetAdminOrders status) w in
  get_current_user authorization w = (Return (Some u), w1) ->
  get u "role" = Some (VStr "admin") ->
  exists l,
    fst result = Return (JDocs (stringify_id <$> l)) /\
    db (snd result) = db w /\
    (length l <= 100)%nat /\
    (forall d, In d l -> In d (coll w COL_ORDER)) /\
    (forall s, given status = Some s ->
               forall d, In d l -> get d "status" = Some (VStr s)) /\
    (given status = None -> l = take 100 (coll w COL_ORDER)).
Proof.
  intros result Hauth Hrole. subst result.
  rewrite (handle_as_admin _ (GetAdminOrders status) _ _ _ eq_refl Hauth Hrole).
  destruct (auth_world_coll _ _ _ _ COL_ORDER Hauth) as (Hcoll & _ & Hdb).
  cbn [behind_gate]. unfold fmap_M, admin_list_orders, bind, find, ret. cbv zeta.
  rewrite admin_orders_query_ok. cbn [fst snd]. rewrite Hcoll.
  eexists. split; [reflexivity|]. split; [exact Hdb|]. split; [|split; [|split]].
  - rewrite length_take. lia.
  - intros d Hin. apply in_take in Hin. now apply filter_In in Hin.
  - intros s Hs d Hin. rewrite Hs in Hin. apply in_take in Hin.
    apply filter_In in Hin as [_ Hm]. rewrite matches_field_eq in Hm.
    now apply eq_str_true.
  - intros Hs. rewrite Hs. now rewrite filter_all.
Qed.


(** X19: without an admin the stored orders stand: a request whose
    token does not authenticate an admin leaves every stored order in
    place and unchanged, and can only add orders after them. *)
Theorem orders_altered_only_by_admin authorization op w :
  (forall u, fst (get_current_user authorization w) = Return (Some u) ->
             get u "role" <> Some (VStr "admin")) ->
  exists new,
    coll (snd (handle authorization op w)) COL_ORDER = (coll w COL_ORDER ++ new)%list.
Proof.
  intros Hrole.
  destruct (admin_only op) eqn:Hop.
  - destruct (handle_not_admin _ _ _ Hop Hrole) as [Hw _].
    exists []. rewrite app_nil_r. unfold coll.
    now rewrite Hw, get_current_user_db.
  - apply handle_appends_orders. intros order_id payload ->. discriminate.
Qed.


(** ** Emails stay unique *)

Lemma email_of_Some d e : email_of d = Some e <-> get d "email" = Some (VStr e).
Proof.
  unfold email_of. destruct (get d "email") as [[| | | |x|]|];
    split; try discriminate; congruence.
Qed.

Lemma emails_distinct_snoc users d email :
  emails_lowercase users ->
  emails_distinct users ->
  get d "email" = Some (VStr (str_lower email)) ->
  List.find (matches [Field "email" (Eq (str_lower email))]) users = None ->
  emails_distinct (users ++ [d]).
Proof.
  intros Hlow Hdis Hd Hfree. unfold emails_distinct in *.
  rewrite omap_app, fmap_app. apply NoDup_app. split; [assumption|]. split.
  - intros x Hx Hx'.
    cbn [omap list_omap] in Hx'. rewrite (proj2 (email_of_Some _ _) Hd) in Hx'.
    cbn in Hx'. apply list_elem_of_singleton in Hx'. rewrite str_lower_idem in Hx'.
    apply list_elem_of_fmap in Hx as (e & -> & He).
    apply list_elem_of_omap in He as (u & Hu & He).
    apply email_of_Some in He.
    unfold emails_lowercase in Hlow. rewrite Forall_forall in Hlow.
    rewrite (Hlow u Hu e He) in Hx'. subst e.
    assert (Hex : exists u', List.find (matches [Field "email" (Eq (str_lower email))])
                               users = Some u').
    { apply find_field_exists, Exists_exists. exists u. split; assumption. }
    destruct Hex as [u' Hu']. congruence.
  - cbn [omap list_omap]. rewrite (proj2 (email_of_Some _ _) Hd). cbn.
    apply NoDup_singleton.
Qed.

Lemma handle_emails_distinct authorization op w :
  emails_lowercase (coll w COL_USER) ->
  emails_distinct (coll w COL_USER) ->
  emails_distinct (coll (snd (handle authorization op w)) COL_USER).
Proof.
  intros Hlow Hdis.
  assert (Hother : (forall payload, op <> PostRegister payload) ->
                   emails_distinct (coll (snd (handle authorization op w)) COL_USER)).
  { intros Hop.
    destruct (keeps_handle same_users same_users_view same_users_session
                authorization op Hop w) as [-> _]. exact Hdis. }
  destruct op; try (apply Hother; discriminate).
  assert (Hsnd : snd (handle authorization (PostRegister payload) w)
                 = snd (register payload w)).
  { cbn [handle]. unfold fmap_M, bind, ret.
    now destruct (register payload w) as [[resp|c d|e] w1]. }
  rewrite Hsnd.
  destruct (List.find
              (matches [Field "email" (Eq (str_lower (RegisterRequest.email payload)))])
              (coll w COL_USER)) as [u|] eqn:Hf.
  - rewrite (register_taken _ _ _ Hf). exact Hdis.
  - destruct (register_free _ _ Hf) as (_ & Hu & _). rewrite Hu.
    now apply (emails_distinct_snoc _ _ (RegisterRequest.email payload)).
Qed.

Lemma run_emails_distinct reqs w :
  emails_lowercase (coll w COL_USER) ->
  emails_distinct (coll w COL_USER) ->
  emails_distinct (coll (run reqs w) COL_USER).
Proof.
  revert w. induction reqs as [|[[t authorization] op] reqs IH]; intros w Hlow Hdis.
  - exact Hdis.
  - cbn [run]. apply IH.
    + apply (run_emails_lowercase [(t, authorization, op)] w Hlow).
    + now apply handle_emails_distinct.
Qed.

(** X20: if the stored emails are lowercase and no two users share
    one, then after any sequence of requests the stored emails are still
    lowercase and no two users share one, also up to case. *)
Theorem emails_stay_unique reqs w :
  emails_lowercase (coll w COL_USER) ->
  emails_distinct (coll w COL_USER) ->
  emails_lowercase (coll (run reqs w) COL_USER) /\
  emails_distinct (coll (run reqs w) COL_USER).
Proof.
  intros Hlow Hdis. split.
  - now apply run_emails_lowercase.
  - now apply run_emails_distinct.
Qed.


(** ** The status codes of each operation *)

Lemma raises_only_mono (P Q : Z -> Prop) {A} (m : M A) :
  (forall c, P c -> Q c) -> raises_only P m -> raises_only Q m.
Proof. intros HPQ Hm w c d H. exact (HPQ c (Hm w c d H)). Qed.

(** The authenticator raises no HTTP error: it converts the session's
    user id only after [ObjectId.is_valid] has accepted it. *)
Lemma get_current_user_no_error authorization :
  raises_only (fun _ => False) (get_current_user authorization).
Proof.
  intros w c d. unfold get_current_user.
  destruct authorization as [h|]; [|discriminate].
  destruct (_ || _); [discriminate|].
  destruct (Py.split_space_1 h) as [token|]; [|discriminate].
  unfold bind, find_one, time_now, ret, raise, crash. cbv beta.
  destruct (List.find _ _) as [sess|]; [|discriminate].
  cbn [fst snd].
  destruct (py_int _); [|discriminate].
  destruct (_ >? _); [discriminate|].
  destruct (get sess "user_id") as [[| | | |s|]|] eqn:Hs; cbn;
    try discriminate.
  unfold oid. destruct (ObjectId.is_valid s) eqn:Hv; [|discriminate].
  unfold ObjectId.is_valid in Hv.
  destruct (ObjectId.of_str s); [|discriminate Hv].
  unfold ret. cbn. discriminate.
Qed.


Ltac status_step :=
  lazymatch goal with
  | |- raises_only _ (let _ := _ in _) => cbv zeta
  | |- raises_only ?P (ret _) => apply (raises_only_ret P)
  | |- raises_only ?P (crash _) => apply (raises_only_crash P)
  | |- raises_only ?P (raise _ _) => apply (raises_only_raise P); simpl; auto 6
  | |- raises_only ?P time_now => apply (raises_only_time_now P)
  | |- raises_only ?P (find_one _ _) => apply (raises_only_find_one P)
  | |- raises_only ?P (find _ _ _) => apply (raises_only_find P)
  | |- raises_only ?P (oid _) => apply (raises_only_oid P); simpl; auto 6
  | |- raises_only ?P (create_document _ _) => apply (raises_only_create_document P)
  | |- raises_only ?P (update_one _ _ _) => apply (raises_only_update_one P)
  | |- raises_only ?P (delete_one _ _) => apply (raises_only_delete_one P)
  | |- raises_only ?P (get_current_user _) =>
      apply (raises_only_mono (fun _ => False) P);
      [intros ? [] | apply get_current_user_no_error]
  | |- raises_only ?P (fmap_M _ _) => apply (raises_only_fmap_M P)
  | |- raises_only ?P (bind _ _) => apply (raises_only_bind P); [|intros ?]
  | |- raises_only _ (create_session _) => unfold create_session
  | |- raises_only _ (str_field _ _ _) => unfold str_field
  | |- raises_only _ (email_field _) => unfold email_field
  | |- raises_only _ (match ?x with _ => _ end) => destruct x
  end.

Lemma handle_statuses authorization op :
  raises_only (fun c => In c (statuses op)) (handle authorization op).
Proof.
  destruct op; cbn [handle statuses];
    unfold root, test_database, register, login, me, list_games, get_game,
      require_admin, create_game, update_game, delete_game, create_order, my_orders,
      admin_list_orders, update_order_status;
    repeat status_step.
  all: intros ? ? ?; discriminate.
Qed.

(** X21: an operation is refused only with the status codes of its
    own checks: the public listings with none, registration with 400,
    login with 401, the caller's own views with 401, reading a game or
    placing an order with 400 or 404, and the admin operations with 401
    or 403, and 400 or 404 where they take an id. *)
Theorem refused_only_with authorization op w c d :
  fst (handle authorization op w) = HTTPException c d -> In c (statuses op).
Proof. apply handle_statuses. Qed.


(** ** Orders placed without a session *)

Lemma my_orders_listing authorization w l :
  fst (handle authorization GetOrdersMine w) = Return (JDocs l) ->
  exists u,
    fst (get_current_user authorization w) = Return (Some u) /\
    l = stringify_id <$>
          List.filter (matches [Field "user_id" (Eq (ObjectId.to_str (doc_id u)))])
            (coll w COL_ORDER).
Proof.
  destruct (get_current_user authorization w) as [[[u|]|c d|e] w1] eqn:Hauth;
    try (cbn [handle]; unfold bind at 1; rewrite Hauth; discriminate).
  rewrite (my_orders_run _ _ _ _ Hauth). cbn [fst]. intros [= <-].
  exists u. split; reflexivity.
Qed.

(** X22: an order placed without a session belongs to no user: right
    after it is placed, [GET /orders/mine] lists no order with its
    transaction identifier, whoever asks. *)
Theorem anonymous_order_unlisted authorization payload w r any l d :
  fst (get_current_user authorization w) = Return None ->
  fst (handle authorization (PostOrders payload) w) = Return r ->
  fst (handle any GetOrdersMine (snd (handle authorization (PostOrders payload) w)))
    = Return (JDocs l) ->
  In d l ->
  d !! "transaction_id" <> Some (VStr (CreateOrderRequest.transaction_id payload)).
Proof.
  intros Hanon Hpost Hlist Hd.
  assert (Hfree : List.find
                    (matches [Field "transaction_id"
                                (Eq (CreateOrderRequest.transaction_id payload))])
                    (coll w COL_ORDER) = None).
  { destruct (List.find _ (coll w COL_ORDER)) eqn:Hf; [|reflexivity].
    exfalso. refine (post_orders_duplicate authorization payload w _ r Hpost).
    rewrite Hf. discriminate. }
  destruct (post_orders_success _ _ _ _ Hpost) as (user & w1 & Hauth & Horders & _).
  rewrite Hauth in Hanon. cbn [fst] in Hanon. injection Hanon as ->.
  destruct (my_orders_listing _ _ _ Hlist) as (u & _ & ->).
  rewrite Horders in Hd.
  apply in_map_iff in Hd as (o & <- & Ho).
  apply filter_In in Ho as [Ho Hmine].
  unfold stringify_id. rewrite lookup_insert_ne by discriminate.
  apply in_app_or in Ho as [Ho|[<-|[]]].
  - pose proof (find_none _ _ Hfree o Ho) as Hm.
    rewrite matches_field_eq in Hm. now apply eq_str_false in Hm.
  - rewrite matches_field_eq in Hmine. discriminate Hmine.
Qed.

End GameStore.

(** * The properties on the sample store *)

Lemma sample_lower_idem s : sample_lower (sample_lower s) = sample_lower s.
Proof. apply lower_idem. Qed.


Lemma session_valid_until_expiry_witness :
  bearer "BEARER token-0000" "token-0000" /\
  List.find (matches sample_regex [Field "token" (Eq "token-0000")])
    (coll sample_world COL_SESSION) = None /\
  fst (get_current_user sample_int sample_regex (Some "BEARER token-0000")
         (set_clock (1000 + 604800)
            (run "k" sample_digest sample_lower sample_int sample_compiles sample_regex
               [(1500, None, GetGames None None None)]
               (snd (create_session (ObjectId.to_str (ObjectId.of_N 2)) sample_world)))))
  = Return (Some sample_user).
Proof.
  assert (Hb : bearer "BEARER token-0000" "token-0000")
    by (exists "BEARER"; split; reflexivity).
  assert (Hf : List.find (matches sample_regex [Field "token" (Eq "token-0000")])
                 (coll sample_world COL_SESSION) = None)
    by (vm_compute; reflexivity).
  split; [exact Hb|]. split; [exact Hf|].
  destruct (session_valid_until_expiry "k" sample_digest sample_lower
        sample_int sample_compiles sample_regex sample_world
              (ObjectId.to_str (ObjectId.of_N 2)) "BEARER token-0000"
              [(1500, None, GetGames None None None)] (1000 + 604800) Hb Hf)
    as (_ & Hvalid & _).
  apply (Hvalid (ObjectId.of_N 2) sample_user).
  - vm_compute; reflexivity.
  - vm_compute; reflexivity.
  - vm_compute; discriminate.
Defined.

Lemma admin_gate_witness :
  admin_only (DeleteAdminGame (ObjectId.to_str (ObjectId.of_N 21))) = true /\
  handle "k" sample_digest sample_lower sample_int sample_compiles
          sample_regex (Some "Bearer bob-token")
    (DeleteAdminGame (ObjectId.to_str (ObjectId.of_N 21))) sample_world =
  (HTTPException 403 "Admin access required",
   snd (get_current_user sample_int sample_regex (Some "Bearer bob-token") sample_world)).
Proof.
  split; [reflexivity|].
  destruct (admin_gate "k" sample_digest sample_lower sample_int sample_compiles
          sample_regex (Some "Bearer bob-token")
              (DeleteAdminGame (ObjectId.to_str (ObjectId.of_N 21))) sample_world eq_refl)
    as (_ & Hforbidden & _).
  apply (Hforbidden sample_user).
  - vm_compute; reflexivity.
  - vm_compute; discriminate.
Defined.

Lemma authenticate_anonymous_witness :
  get_current_user sample_int sample_regex (Some "Basic Ym9iOnNlY3JldA==") sample_world
    = (Return None, sample_world) /\
  fst (get_current_user sample_int sample_regex (Some "Bearer no-such-token") sample_world)
    = Return None /\
  fst (get_current_user sample_int sample_regex (Some "bearer ghost-token") sample_world)
    = Return None.
Proof.
  destruct (authenticate_anonymous sample_int
          sample_regex) as (_ & Hscheme & Hunknown & Hdangling).
  split; [|split].
  - apply Hscheme. vm_compute; reflexivity.
  - apply (Hunknown _ "no-such-token").
    + exists "Bearer"; split; reflexivity.
    + vm_compute; reflexivity.
  - apply (Hdangling _ "ghost-token"
             (Doc (ObjectId.of_N 13) (SessionSchema.model_dump
                        (SessionSchema.Build (ObjectId.to_str (ObjectId.of_N 9))
                              "ghost-token" 5000)))
             5000).
    + exists "bearer"; split; reflexivity.
    + vm_compute; reflexivity.
    + vm_compute; reflexivity.
    + intros s o Hs Ho. vm_compute in Hs. injection Hs as <-.
      vm_compute in Ho. injection Ho as <-. vm_compute; reflexivity.
Defined.

Lemma register_then_login_witness :
  fst (register "k" sample_digest sample_lower
          sample_regex sample_registration sample_world)
    = Return (TokenResponse.Build "token-0000" "user" "Carol" "carol@example.com") /\
  fst (get_current_user sample_int sample_regex (Some "Bearer token-0001")
         (set_clock (2000 + 604800)
            (run "k" sample_digest sample_lower sample_int sample_compiles sample_regex []
               (snd (login "k" sample_digest sample_lower sample_regex
                       (LoginRequest.Build "Carol@Example.com" "s3cret")
                       (set_clock 2000
                          (run "k" sample_digest sample_lower sample_int sample_compiles
                                  sample_regex []
                             (snd (register "k" sample_digest sample_lower sample_regex
                                     sample_registration sample_world)))))))))
  = Return (Some (registered_user "k" sample_digest sample_lower sample_registration
        sample_world)).
Proof.
  assert (Hreg : fst (register "k" sample_digest sample_lower
          sample_regex sample_registration
                        sample_world)
                 = Return (TokenResponse.Build "token-0000" "user" "Carol"
                             "carol@example.com"))
    by (vm_compute; reflexivity).
  split; [exact Hreg|].
  destruct (register_then_login "k" sample_digest sample_lower
        sample_int sample_compiles sample_regex sample_registration
              sample_world _ [] 2000 [] (2000 + 604800) "Bearer token-0001" Hreg)
    as (_ & resp2 & Hlogin & Hauth).
  - vm_compute; reflexivity.
  - vm_compute; reflexivity.
  - apply Hauth.
    + assert (Htok : TokenResponse.token resp2 = "token-0001").
      { assert (Heq : Return resp2 =
                      Return (TokenResponse.Build "token-0001" "user" "Carol"
                                "carol@example.com"))
          by (rewrite <- Hlogin; vm_compute; reflexivity).
        injection Heq as ->. reflexivity. }
      rewrite Htok. apply bearer_canonical.
    + vm_compute; discriminate.
Defined.

Lemma me_hides_password_hash_witness :
  exists d,
    fst (handle "k" sample_digest sample_lower sample_int sample_compiles
            sample_regex (Some "Bearer bob-token") GetMe
           sample_world) = Return (JDoc d) /\
    d !! "password_hash" = None /\
    d !! "email" = Some (VStr "bob@example.com").
Proof.
  assert (Hme : fst (handle "k" sample_digest sample_lower sample_int sample_compiles
          sample_regex (Some "Bearer bob-token")
                       GetMe sample_world)
                = Return (JDoc (delete "password_hash"
                                  (stringify_id sample_user))))
    by (vm_compute; reflexivity).
  destruct (me_hides_password_hash "k" sample_digest sample_lower
        sample_int sample_compiles sample_regex _ _ _ Hme)
    as (u & d & _ & Hr & Hhash & _ & _).
  exists d. injection Hr as Hd. split; [now rewrite <- Hd|].
  split; [exact Hhash|]. rewrite <- Hd. vm_compute; reflexivity.
Defined.

Lemma register_email_unique_witness :
  emails_lowercase sample_lower (coll sample_world COL_USER) /\
  fst (register "k" sample_digest sample_lower sample_regex
         (RegisterRequest.Build "Bobby" "BOB@Example.COM" "pw") sample_world)
  = HTTPException 400 "Email already registered".
Proof.
  assert (Hlow : emails_lowercase sample_lower (coll sample_world COL_USER)).
  { change (coll sample_world COL_USER) with [sample_admin; sample_user].
    repeat constructor; intros e He; vm_compute in He; injection He as <-;
      reflexivity. }
  split; [exact Hlow|].
  destruct (register_email_unique "k" sample_digest sample_lower sample_lower_idem
          sample_regex
              (RegisterRequest.Build "Bobby" "BOB@Example.COM" "pw")
              sample_world) as (_ & Htaken & _).
  apply (Htaken Hlow).
  change (coll sample_world COL_USER) with [sample_admin; sample_user].
  apply Exists_cons_tl, Exists_cons_hd.
  exists "bob@example.com". split; reflexivity.
Defined.

Lemma create_order_checks_witness :
  get_current_user sample_int
          sample_regex None sample_world = (Return None, sample_world) /\
  ObjectId.of_str (ObjectId.to_str (ObjectId.of_N 21)) = Some (ObjectId.of_N 21) /\
  fst (handle "k" sample_digest sample_lower sample_int sample_compiles sample_regex None
         (PostOrders (CreateOrderRequest.Build (ObjectId.to_str (ObjectId.of_N 21)) "TX-1"
                        "dave@example.com")) sample_world)
  = HTTPException 400 "Transaction ID already used" /\
  exists order,
    fst (handle "k" sample_digest sample_lower sample_int sample_compiles sample_regex None
           (PostOrders (CreateOrderRequest.Build (ObjectId.to_str (ObjectId.of_N 21)) "TX-2"
                          "dave@example.com")) sample_world)
    = Return (JOrder (ObjectId.to_str (doc_id order))
                "Order placed. Delivery within 2 hours after verification.") /\
    get order "status" = Some (VStr "pending") /\
    get order "user_id" = Some VNone.
Proof.
  split; [reflexivity|]. split; [vm_compute; reflexivity|]. split.
  - destruct (create_order_checks "k" sample_digest sample_lower
        sample_int sample_compiles sample_regex None
                (CreateOrderRequest.Build (ObjectId.to_str (ObjectId.of_N 21)) "TX-1"
                   "dave@example.com")
                sample_world None sample_world (ObjectId.of_N 21) eq_refl)
      as (_ & Hdup & _); [vm_compute; reflexivity|].
    destruct Hdup as (H400 & _); [vm_compute; discriminate|].
    apply H400. vm_compute; discriminate.
  - destruct (create_order_checks "k" sample_digest sample_lower
        sample_int sample_compiles sample_regex None
                (CreateOrderRequest.Build (ObjectId.to_str (ObjectId.of_N 21)) "TX-2"
                   "dave@example.com")
                sample_world None sample_world (ObjectId.of_N 21) eq_refl)
      as (_ & _ & Hok); [vm_compute; reflexivity|].
    destruct Hok as (order & Hr & _ & Hstatus & Huser & _).
    + vm_compute; discriminate.
    + vm_compute; reflexivity.
    + exists order. split; [exact Hr|]. split; [exact Hstatus | exact Huser].
Defined.

Lemma update_missing_game_not_found_witness :
  get_current_user sample_int sample_regex (Some "Bearer admin-token") sample_world
    = (Return (Some sample_admin),
       snd (get_current_user sample_int
               sample_regex (Some "Bearer admin-token") sample_world)) /\
  fst (handle "k" sample_digest sample_lower sample_int sample_compiles
          sample_regex (Some "Bearer admin-token")
         (PutAdminGame (ObjectId.to_str (ObjectId.of_N 77)) title_update) sample_world)
  = HTTPException 404 "Game not found".
Proof.
  assert (Hauth : get_current_user sample_int
          sample_regex (Some "Bearer admin-token") sample_world
                  = (Return (Some sample_admin),
                     snd (get_current_user sample_int
                             sample_regex (Some "Bearer admin-token")
                            sample_world)))
    by (vm_compute; reflexivity).
  split; [exact Hauth|].
  apply (update_missing_game_not_found "k" sample_digest sample_lower
        sample_int sample_compiles sample_regex
           (Some "Bearer admin-token") (ObjectId.to_str (ObjectId.of_N 77)) title_update
           sample_world sample_admin _ (ObjectId.of_N 77) Hauth).
  - vm_compute; reflexivity.
  - vm_compute; reflexivity.
  - vm_compute; reflexivity.
  - vm_compute; discriminate.
Defined.

(** The claim of C8 as stated fails for a payload that sets no field:
    the admin's request, with a well-formed id that matches no game, is
    answered with [{"updated": False}] and no error. *)
Lemma update_game_empty_payload_counterexample :
  fst (get_current_user sample_int sample_regex (Some "Bearer admin-token") sample_world)
    = Return (Some sample_admin) /\
  get sample_admin "role" = Some (VStr "admin") /\
  ObjectId.of_str (ObjectId.to_str (ObjectId.of_N 77)) = Some (ObjectId.of_N 77) /\
  List.find (matches
          sample_regex [ById (ObjectId.of_N 77)]) (coll sample_world COL_GAME) = None /\
  fst (handle "k" sample_digest sample_lower sample_int sample_compiles
          sample_regex (Some "Bearer admin-token")
         (PutAdminGame (ObjectId.to_str (ObjectId.of_N 77)) empty_update) sample_world)
  = Return (JUpdated false).
Proof. repeat split; vm_compute; reflexivity. Qed.

Lemma malformed_id_rejected_witness :
  ObjectId.is_valid "not-an-id" = false /\
  handle "k" sample_digest sample_lower sample_int sample_compiles
          sample_regex None (GetGame "not-an-id") sample_world
    = (HTTPException 400 "Invalid id format", sample_world) /\
  handle "k" sample_digest sample_lower sample_int sample_compiles
          sample_regex (Some "Bearer admin-token")
    (DeleteAdminGame "not-an-id") sample_world
    = (HTTPException 400 "Invalid id format",
       snd (get_current_user sample_int
               sample_regex (Some "Bearer admin-token") sample_world)).
Proof.
  assert (Hid : ObjectId.is_valid "not-an-id" = false) by reflexivity.
  split; [exact Hid|].
  destruct (malformed_id_rejected "k" sample_digest sample_lower
        sample_int sample_compiles sample_regex "not-an-id" Hid)
    as (Hget & _ & Hadmin & _ & _).
  split; [apply Hget|].
  destruct (Hadmin (Some "Bearer admin-token") sample_world sample_admin
              (snd (get_current_user sample_int sample_regex (Some "Bearer admin-token")
                      sample_world)))
    as (Hdelete & _).
  - vm_compute; reflexivity.
  - vm_compute; reflexivity.
  - exact Hdelete.
Defined.

(** The claim of C9 as stated fails on the admin operations: a
    malformed id sent without a token is answered with 401, not 400, and
    an admin's [PUT] that sets no field is answered with
    [{"updated": False}].  It fails as well for an id of 24 characters
    with white space between pairs of digits: not 24 hexadecimal digits,
    yet the constructor accepts it, the store is searched with it and
    the answer is 404. *)
Lemma malformed_id_counterexample :
  ObjectId.is_valid "not-an-id" = false /\
  fst (handle "k" sample_digest sample_lower sample_int sample_compiles sample_regex
         None (DeleteAdminGame "not-an-id") sample_world)
    = HTTPException 401 "Unauthorized" /\
  fst (handle "k" sample_digest sample_lower sample_int sample_compiles sample_regex
         (Some "Bearer admin-token") (PutAdminGame "not-an-id" empty_update)
         sample_world)
    = Return (JUpdated false) /\
  hex24 "00 00 00 00 00 00 00 15 " = false /\
  handle "k" sample_digest sample_lower sample_int sample_compiles sample_regex
    None (GetGame "00 00 00 00 00 00 00 15 ") sample_world
    = (HTTPException 404 "Game not found",
       log_op (FindOne COL_GAME [ById (ObjectId.bytes_of 8 21)]) sample_world).
Proof. repeat split; vm_compute; reflexivity. Qed.

Lemma users_only_by_registration_witness :
  (forall payload,
      PostLogin (LoginRequest.Build "bob@example.com" "guess") <> PostRegister payload) /\
  coll (snd (handle "k" sample_digest sample_lower sample_int sample_compiles
          sample_regex None
               (PostLogin (LoginRequest.Build "bob@example.com" "guess"))
               sample_world)) COL_USER
  = coll sample_world COL_USER.
Proof.
  assert (Hop : forall payload,
             PostLogin (LoginRequest.Build "bob@example.com" "guess")
             <> PostRegister payload) by discriminate.
  split; [exact Hop|].
  destruct (users_only_by_registration "k" sample_digest sample_lower
        sample_int sample_compiles sample_regex)
    as (Hother & _).
  apply Hother, Hop.
Defined.

(** * The further properties on the sample store *)

Lemma sample_admin_authenticates :
  get_current_user sample_int sample_regex (Some "Bearer admin-token") sample_world
  = (Return (Some sample_admin),
     snd (get_current_user sample_int
             sample_regex (Some "Bearer admin-token") sample_world)).
Proof. vm_compute; reflexivity. Qed.

Lemma sample_user_authenticates :
  fst (get_current_user sample_int sample_regex (Some "Bearer bob-token") sample_world)
  = Return (Some sample_user).
Proof. vm_compute; reflexivity. Qed.

Lemma sample_user_not_admin u :
  fst (get_current_user sample_int sample_regex (Some "Bearer bob-token") sample_world)
    = Return (Some u) ->
  get u "role" <> Some (VStr "admin").
Proof.
  rewrite sample_user_authenticates. intros [= <-]. vm_compute. discriminate.
Qed.

Lemma writes_own_collections_witness :
  ~ In COL_GAME
      (writes (PostOrders (CreateOrderRequest.Build (ObjectId.to_str (ObjectId.of_N
            21)) "TX-2"
                             "dave@example.com"))) /\
  coll (snd (handle "k" sample_digest sample_lower sample_int sample_compiles
          sample_regex None
               (PostOrders (CreateOrderRequest.Build (ObjectId.to_str (ObjectId.of_N
                     21)) "TX-2"
                              "dave@example.com")) sample_world)) COL_GAME
  = coll sample_world COL_GAME.
Proof.
  assert (Hout : ~ In COL_GAME
            (writes (PostOrders (CreateOrderRequest.Build (ObjectId.to_str
                  (ObjectId.of_N 21))
                                   "TX-2" "dave@example.com"))))
    by (cbn; intros [H|[]]; discriminate H).
  split; [exact Hout|].
  apply (writes_own_collections "k" sample_digest sample_lower
        sample_int sample_compiles sample_regex), Hout.
Defined.

Lemma admin_only_needs_admin_witness :
  admin_only (DeleteAdminGame (ObjectId.to_str (ObjectId.of_N 21))) = true /\
  db (snd (handle "k" sample_digest sample_lower sample_int sample_compiles
          sample_regex (Some "Bearer bob-token")
             (DeleteAdminGame (ObjectId.to_str (ObjectId.of_N 21))) sample_world))
  = db sample_world.
Proof.
  split; [reflexivity|].
  destruct (admin_only_needs_admin "k" sample_digest sample_lower
        sample_int sample_compiles sample_regex
              (Some "Bearer bob-token") (DeleteAdminGame (ObjectId.to_str
                    (ObjectId.of_N 21)))
              sample_world eq_refl sample_user_not_admin) as (_ & Hdb & _).
  exact Hdb.
Defined.

Lemma games_change_only_by_admin_witness :
  coll (snd (handle "k" sample_digest sample_lower sample_int sample_compiles
          sample_regex (Some "Bearer admin-token")
               (PostAdminGames sample_game_request) sample_world)) COL_GAME
    <> coll sample_world COL_GAME /\
  exists u,
    fst (get_current_user sample_int sample_regex (Some "Bearer admin-token") sample_world)
      = Return (Some u) /\
    get u "role" = Some (VStr "admin").
Proof.
  assert (Hchange :
    coll (snd (handle "k" sample_digest sample_lower sample_int sample_compiles
            sample_regex (Some "Bearer admin-token")
                 (PostAdminGames sample_game_request) sample_world)) COL_GAME
    <> coll sample_world COL_GAME).
  { intros H. apply (f_equal length) in H. vm_compute in H. discriminate H. }
  split; [exact Hchange|].
  exact (proj2 (games_change_only_by_admin "k" sample_digest sample_lower
        sample_int sample_compiles sample_regex _ _ _ Hchange)).
Defined.

Lemma login_checks_credentials_witness :
  login "k" sample_digest sample_lower sample_regex
    (LoginRequest.Build "nobody@example.com" "pw") sample_world
  = (HTTPException 401 "Invalid email or password",
     log_op (FindOne COL_USER [Field "email" (Eq "nobody@example.com")]) sample_world) /\
  login "k" sample_digest sample_lower sample_regex
    (LoginRequest.Build "BOB@example.com" "wrong") sample_world
  = (HTTPException 401 "Invalid email or password",
     log_op (FindOne COL_USER [Field "email" (Eq "bob@example.com")]) sample_world).
Proof.
  split.
  - destruct (login_checks_credentials "k" sample_digest sample_lower sample_regex
                (LoginRequest.Build "nobody@example.com" "pw") sample_world)
      as (Hunknown & _).
    apply Hunknown. vm_compute; reflexivity.
  - destruct (login_checks_credentials "k" sample_digest sample_lower sample_regex
                (LoginRequest.Build "BOB@example.com" "wrong") sample_world)
      as (_ & Hwrong & _).
    apply (Hwrong sample_user).
    + vm_compute; reflexivity.
    + vm_compute. discriminate.
Defined.

Lemma register_token_authenticates_witness :
  fst (register "k" sample_digest sample_lower
          sample_regex sample_registration sample_world)
    = Return (TokenResponse.Build "token-0000" "user" "Carol" "carol@example.com") /\
  fst (get_current_user sample_int sample_regex (Some "Bearer token-0000")
         (set_clock (1000 + 604800)
            (run "k" sample_digest sample_lower sample_int sample_compiles sample_regex
               [(1200, Some "Bearer bob-token", GetMe)]
               (snd (register "k" sample_digest sample_lower
                       sample_regex sample_registration
                       sample_world)))))
  = Return (Some (registered_user "k" sample_digest sample_lower sample_registration
        sample_world)).
Proof.
  assert (Hreg : fst (register "k" sample_digest sample_lower
          sample_regex sample_registration
                        sample_world)
                 = Return (TokenResponse.Build "token-0000" "user" "Carol"
                             "carol@example.com"))
    by (vm_compute; reflexivity).
  split; [exact Hreg|].
  apply (register_token_authenticates "k" sample_digest sample_lower
        sample_int sample_compiles sample_regex
           sample_registration sample_world _ _ _ _ Hreg).
  - vm_compute; reflexivity.
  - vm_compute; reflexivity.
  - apply bearer_canonical.
  - vm_compute; discriminate.
Defined.

Lemma register_same_email_twice_witness :
  sample_lower "CAROL@EXAMPLE.COM" = sample_lower "Carol@Example.com" /\
  fst (register "k" sample_digest sample_lower sample_regex
         (RegisterRequest.Build "Other" "CAROL@EXAMPLE.COM" "pw")
         (set_clock 2000
            (run "k" sample_digest sample_lower sample_int sample_compiles sample_regex
               [(1500, None, GetGames None None None)]
               (snd (register "k" sample_digest sample_lower
                       sample_regex sample_registration
                       sample_world)))))
  = HTTPException 400 "Email already registered".
Proof.
  split; [reflexivity|].
  apply (register_same_email_twice "k" sample_digest sample_lower
        sample_int sample_compiles sample_regex
           sample_registration (RegisterRequest.Build "Other" "CAROL@EXAMPLE.COM" "pw")
           sample_world
           (TokenResponse.Build "token-0000" "user" "Carol" "carol@example.com")).
  - vm_compute; reflexivity.
  - reflexivity.
Defined.

Lemma transaction_id_used_once_witness :
  fst (handle "k" sample_digest sample_lower sample_int sample_compiles sample_regex None
         (PostOrders (CreateOrderRequest.Build (ObjectId.to_str (ObjectId.of_N 21)) "TX-2"
                        "dave@example.com")) sample_world)
    = Return (JOrder (ObjectId.to_str (ObjectId.of_N 100))
                "Order placed. Delivery within 2 hours after verification.") /\
  forall r2,
    fst (handle "k" sample_digest sample_lower sample_int sample_compiles
            sample_regex (Some "Bearer bob-token")
           (PostOrders (CreateOrderRequest.Build (ObjectId.to_str (ObjectId.of_N 21)) "TX-2"
                          "eve@example.com"))
           (set_clock 3000
              (run "k" sample_digest sample_lower sample_int sample_compiles sample_regex
                 [(2000, Some "Bearer admin-token",
                   PostAdminOrderStatus (ObjectId.to_str (ObjectId.of_N 100))
                     (UpdateOrderStatusRequest.Build "verified"))]
                 (snd (handle "k" sample_digest sample_lower sample_int sample_compiles
                         sample_regex None
                         (PostOrders (CreateOrderRequest.Build (ObjectId.to_str
                               (ObjectId.of_N 21))
                                        "TX-2" "dave@example.com")) sample_world)))))
    <> Return r2.
Proof.
  assert (Hfirst :
    fst (handle "k" sample_digest sample_lower sample_int sample_compiles sample_regex None
           (PostOrders (CreateOrderRequest.Build (ObjectId.to_str (ObjectId.of_N 21)) "TX-2"
                          "dave@example.com")) sample_world)
    = Return (JOrder (ObjectId.to_str (ObjectId.of_N 100))
                "Order placed. Delivery within 2 hours after verification."))
    by (vm_compute; reflexivity).
  split; [exact Hfirst|].
  exact (transaction_id_used_once "k" sample_digest sample_lower
        sample_int sample_compiles sample_regex _ _ _ _ _ _ _
           (CreateOrderRequest.Build (ObjectId.to_str (ObjectId.of_N 21)) "TX-2"
                 "eve@example.com")
           Hfirst eq_refl).
Defined.

Lemma order_status_update_witness :
  handle "k" sample_digest sample_lower sample_int sample_compiles
          sample_regex (Some "Bearer admin-token")
    (PostAdminOrderStatus (ObjectId.to_str (ObjectId.of_N 31))
       (UpdateOrderStatusRequest.Build "shipped")) sample_world
  = (HTTPException 400 "Invalid status",
     snd (get_current_user sample_int
             sample_regex (Some "Bearer admin-token") sample_world)) /\
  fst (handle "k" sample_digest sample_lower sample_int sample_compiles
          sample_regex (Some "Bearer admin-token")
         (PostAdminOrderStatus (ObjectId.to_str (ObjectId.of_N 31))
            (UpdateOrderStatusRequest.Build "delivered")) sample_world)
  = Return (JUpdated true).
Proof.
  split.
  - destruct (order_status_update "k" sample_digest sample_lower
        sample_int sample_compiles sample_regex
                (Some "Bearer admin-token") (ObjectId.to_str (ObjectId.of_N 31))
                (UpdateOrderStatusRequest.Build "shipped") sample_world _ _
                sample_admin_authenticates eq_refl) as (Hbad & _).
    apply Hbad. reflexivity.
  - destruct (order_status_update "k" sample_digest sample_lower
        sample_int sample_compiles sample_regex
                (Some "Bearer admin-token") (ObjectId.to_str (ObjectId.of_N 31))
                (UpdateOrderStatusRequest.Build "delivered") sample_world _ _
                sample_admin_authenticates eq_refl) as (_ & _ & Hfound).
    destruct (Hfound (ObjectId.of_N 31) sample_order) as (Hres & _).
    + reflexivity.
    + vm_compute; reflexivity.
    + vm_compute; reflexivity.
    + exact Hres.
Defined.

Lemma my_orders_own_witness :
  fst (get_current_user sample_int sample_regex (Some "Bearer bob-token") sample_world)
    = Return (Some sample_user) /\
  exists own,
    fst (handle "k" sample_digest sample_lower sample_int sample_compiles
            sample_regex (Some "Bearer bob-token")
           GetOrdersMine sample_world)
      = Return (JDocs (stringify_id <$> own)) /\
    ~ In sample_order own.
Proof.
  split; [exact sample_user_authenticates|].
  destruct (my_orders_own "k" sample_digest sample_lower sample_int sample_compiles
          sample_regex (Some "Bearer bob-token")
              sample_world) as (_ & Hsome).
  destruct (Hsome sample_user sample_user_authenticates) as (own & Hres & Hown & _).
  exists own. split; [exact Hres|].
  intros Hin. apply Hown in Hin. destruct Hin as (_ & Huser).
  vm_compute in Huser. discriminate Huser.
Defined.

Lemma placed_order_listed_witness :
  fst (handle "k" sample_digest sample_lower sample_int sample_compiles
          sample_regex (Some "Bearer bob-token")
         (PostOrders (CreateOrderRequest.Build (ObjectId.to_str (ObjectId.of_N 21)) "TX-2"
                        "bob@example.com")) sample_world)
    = Return (JOrder (ObjectId.to_str (ObjectId.of_N 100))
                "Order placed. Delivery within 2 hours after verification.") /\
  exists l d,
    fst (handle "k" sample_digest sample_lower sample_int sample_compiles
            sample_regex (Some "Bearer bob-token") GetOrdersMine
           (snd (handle "k" sample_digest sample_lower sample_int sample_compiles
                   sample_regex (Some "Bearer bob-token")
                   (PostOrders (CreateOrderRequest.Build (ObjectId.to_str
                         (ObjectId.of_N 21)) "TX-2"
                                  "bob@example.com")) sample_world)))
      = Return (JDocs l) /\
    In d l /\
    d !! "_id" = Some (VStr (ObjectId.to_str (ObjectId.of_N 100))) /\
    d !! "transaction_id" = Some (VStr "TX-2") /\
    d !! "status" = Some (VStr "pending").
Proof.
  assert (Hplaced :
    fst (handle "k" sample_digest sample_lower sample_int sample_compiles
            sample_regex (Some "Bearer bob-token")
           (PostOrders (CreateOrderRequest.Build (ObjectId.to_str (ObjectId.of_N 21)) "TX-2"
                          "bob@example.com")) sample_world)
    = Return (JOrder (ObjectId.to_str (ObjectId.of_N 100))
                "Order placed. Delivery within 2 hours after verification."))
    by (vm_compute; reflexivity).
  split; [exact Hplaced|].
  exact (placed_order_listed "k" sample_digest sample_lower sample_int sample_compiles
          sample_regex _ _ _ _ _ _
           sample_user_authenticates Hplaced).
Defined.

Lemma game_round_trip_witness :
  GameSchema.price_ok (GameCreateRequest.price sample_game_request) = true /\
  exists id doc,
    fst (handle "k" sample_digest sample_lower sample_int sample_compiles
            sample_regex (Some "Bearer admin-token")
           (PostAdminGames sample_game_request) sample_world) = Return (JId id) /\
    fst (handle "k" sample_digest sample_lower sample_int sample_compiles
            sample_regex None (GetGame id)
           (snd (handle "k" sample_digest sample_lower sample_int sample_compiles
                   sample_regex (Some "Bearer admin-token")
                   (PostAdminGames sample_game_request) sample_world)))
      = Return (JDoc doc) /\
    doc !! "_id" = Some (VStr id) /\
    doc !! "title" = Some (VStr "Go").
Proof.
  split; [reflexivity|].
  destruct (game_round_trip "k" sample_digest sample_lower sample_int sample_compiles
          sample_regex
              (Some "Bearer admin-token") None sample_game_request sample_world _ _
              sample_admin_authenticates eq_refl) as (_ & Hok).
  destruct Hok as (id & doc & Hcreated & Hread & Hid & Hfields).
  - reflexivity.
  - vm_compute; reflexivity.
  - exists id, doc.
    split; [exact Hcreated|]. split; [exact Hread|]. split; [exact Hid|].
    rewrite Hfields by discriminate. reflexivity.
Defined.

Lemma game_update_witness :
  updates_of title_update <> [] /\
  fst (handle "k" sample_digest sample_lower sample_int sample_compiles
          sample_regex (Some "Bearer admin-token")
         (PutAdminGame (ObjectId.to_str (ObjectId.of_N 21)) title_update) sample_world)
    = Return (JUpdated true) /\
  exists pre post g',
    coll sample_world COL_GAME = (pre ++ sample_game :: post)%list /\
    coll (snd (handle "k" sample_digest sample_lower sample_int sample_compiles
            sample_regex (Some "Bearer admin-token")
                 (PutAdminGame (ObjectId.to_str (ObjectId.of_N 21)) title_update)
                       sample_world))
      COL_GAME = (pre ++ g' :: post)%list /\
    get g' "title" = Some (VStr "Go") /\
    get g' "platform" = Some (VStr "PC").
Proof.
  assert (Hsome : updates_of title_update <> []) by (vm_compute; discriminate).
  split; [exact Hsome|].
  destruct (game_update "k" sample_digest sample_lower sample_int sample_compiles
          sample_regex (Some "Bearer admin-token")
              (ObjectId.to_str (ObjectId.of_N 21)) title_update sample_world _ _
                    (ObjectId.of_N 21) sample_game
              sample_admin_authenticates eq_refl Hsome)
    as (Hres & pre & post & g' & Hbefore & Hafter & _ & _ & Hset & Hkept).
  - vm_compute; reflexivity.
  - vm_compute; reflexivity.
  - split; [exact Hres|].
    exists pre, post, g'.
    split; [exact Hbefore|]. split; [exact Hafter|]. split.
    + apply Hset. vm_compute. left.
    + rewrite (Hkept "platform"); [reflexivity|discriminate|].
      intros v Hin. vm_compute in Hin.
      repeat (apply elem_of_cons in Hin; destruct Hin as [Hin|Hin];
              [discriminate Hin|]).
      apply elem_of_nil in Hin. exact Hin.
Defined.

Lemma game_delete_witness :
  NoDup (doc_id <$> coll sample_world COL_GAME) /\
  fst (handle "k" sample_digest sample_lower sample_int sample_compiles
          sample_regex (Some "Bearer admin-token")
         (DeleteAdminGame (ObjectId.to_str (ObjectId.of_N 21))) sample_world)
    = Return (JDeleted true) /\
  fst (handle "k" sample_digest sample_lower sample_int sample_compiles
          sample_regex None (GetGame (ObjectId.to_str (ObjectId.of_N 21)))
         (snd (handle "k" sample_digest sample_lower sample_int sample_compiles
                 sample_regex (Some "Bearer admin-token")
                 (DeleteAdminGame (ObjectId.to_str (ObjectId.of_N 21))) sample_world)))
    = HTTPException 404 "Game not found" /\
  fst (handle "k" sample_digest sample_lower sample_int sample_compiles
          sample_regex (Some "Bearer admin-token")
         (DeleteAdminGame (ObjectId.to_str (ObjectId.of_N 21)))
         (snd (handle "k" sample_digest sample_lower sample_int sample_compiles
                 sample_regex (Some "Bearer admin-token")
                 (DeleteAdminGame (ObjectId.to_str (ObjectId.of_N 21))) sample_world)))
    = HTTPException 404 "Game not found".
Proof.
  assert (Hnodup : NoDup (doc_id <$> coll sample_world COL_GAME)).
  { change (NoDup [(ObjectId.of_N 21)]). apply NoDup_singleton. }
  split; [exact Hnodup|].
  destruct (game_delete "k" sample_digest sample_lower sample_int sample_compiles
          sample_regex (Some "Bearer admin-token")
              None (ObjectId.to_str (ObjectId.of_N 21)) sample_world _ _ (ObjectId.of_N 21)
              sample_admin_authenticates eq_refl) as (_ & Hfound).
  - vm_compute; reflexivity.
  - destruct (Hfound sample_game) as (Hres & pre & post & _ & _ & Hgone).
    + vm_compute; reflexivity.
    + destruct (Hgone Hnodup) as (Hget & Hagain).
      split; [exact Hres|]. split; [exact Hget|exact Hagain].
Defined.


Lemma admin_orders_bounded_witness :
  get sample_admin "role" = Some (VStr "admin") /\
  exists l,
    fst (handle "k" sample_digest sample_lower sample_int sample_compiles
            sample_regex (Some "Bearer admin-token")
           (GetAdminOrders (Some "pending")) sample_world)
      = Return (JDocs (stringify_id <$> l)) /\
    (length l <= 100)%nat /\
    forall d, In d l -> get d "status" = Some (VStr "pending").
Proof.
  split; [reflexivity|].
  destruct (admin_orders_bounded "k" sample_digest sample_lower
        sample_int sample_compiles sample_regex
              (Some "Bearer admin-token") (Some "pending") sample_world _ _
              sample_admin_authenticates eq_refl)
    as (l & Hres & _ & Hlen & _ & Hstatus & _).
  exists l. split; [exact Hres|]. split; [exact Hlen|].
  exact (Hstatus "pending" eq_refl).
Defined.

Lemma orders_altered_only_by_admin_witness :
  (forall u,
     fst (get_current_user sample_int sample_regex (Some "Bearer bob-token") sample_world)
       = Return (Some u) ->
     get u "role" <> Some (VStr "admin")) /\
  exists new,
    coll (snd (handle "k" sample_digest sample_lower sample_int sample_compiles
            sample_regex (Some "Bearer bob-token")
                 (PostAdminOrderStatus (ObjectId.to_str (ObjectId.of_N 31))
                    (UpdateOrderStatusRequest.Build "cancelled")) sample_world))
      COL_ORDER
    = (coll sample_world COL_ORDER ++ new)%list.
Proof.
  split; [exact sample_user_not_admin|].
  exact (orders_altered_only_by_admin "k" sample_digest sample_lower
        sample_int sample_compiles sample_regex _ _ _
           sample_user_not_admin).
Defined.

Lemma sample_emails_lowercase : emails_lowercase sample_lower (coll sample_world COL_USER).
Proof.
  change (coll sample_world COL_USER) with [sample_admin; sample_user].
  repeat constructor; intros e He; vm_compute in He; injection He as <-;
    reflexivity.
Qed.

Lemma sample_emails_distinct : emails_distinct sample_lower (coll sample_world COL_USER).
Proof.
  change (NoDup ["ada@example.com"; "bob@example.com"]).
  apply NoDup_cons. split; [|apply NoDup_singleton].
  intros H. apply list_elem_of_singleton in H. discriminate H.
Qed.

Lemma emails_stay_unique_witness :
  (emails_lowercase sample_lower (coll sample_world COL_USER) /\
   emails_distinct sample_lower (coll sample_world COL_USER)) /\
  emails_lowercase sample_lower
    (coll (run "k" sample_digest sample_lower sample_int sample_compiles sample_regex
             [(1100, None, PostRegister sample_registration);
              (1200, None,
               PostRegister (RegisterRequest.Build "Other" "CAROL@EXAMPLE.COM" "pw"))]
             sample_world) COL_USER) /\
  emails_distinct sample_lower
    (coll (run "k" sample_digest sample_lower sample_int sample_compiles sample_regex
             [(1100, None, PostRegister sample_registration);
              (1200, None,
               PostRegister (RegisterRequest.Build "Other" "CAROL@EXAMPLE.COM" "pw"))]
             sample_world) COL_USER).
Proof.
  split; [split; [exact sample_emails_lowercase | exact sample_emails_distinct]|].
  exact (emails_stay_unique "k" sample_digest sample_lower sample_lower_idem
        sample_int sample_compiles sample_regex _ sample_world
           sample_emails_lowercase sample_emails_distinct).
Defined.

Lemma refused_only_with_witness :
  fst (handle "k" sample_digest sample_lower sample_int sample_compiles
          sample_regex (Some "Bearer bob-token")
         (DeleteAdminGame (ObjectId.to_str (ObjectId.of_N 21))) sample_world)
    = HTTPException 403 "Admin access required" /\
  In 403 (statuses (DeleteAdminGame (ObjectId.to_str (ObjectId.of_N 21)))).
Proof.
  assert (Hrefused :
    fst (handle "k" sample_digest sample_lower sample_int sample_compiles
            sample_regex (Some "Bearer bob-token")
           (DeleteAdminGame (ObjectId.to_str (ObjectId.of_N 21))) sample_world)
    = HTTPException 403 "Admin access required")
    by (vm_compute; reflexivity).
  split; [exact Hrefused|].
  exact (refused_only_with "k" sample_digest sample_lower sample_int sample_compiles
          sample_regex _ _ _ _ _ Hrefused).
Defined.

Lemma anonymous_order_unlisted_witness :
  let bob := Some "Bearer bob-token" in
  let w := snd (handle "k" sample_digest sample_lower sample_int sample_compiles
                  sample_regex bob
                  (PostOrders (CreateOrderRequest.Build
                                 (ObjectId.to_str (ObjectId.of_N 21)) "TX-B"
                                 "bob@example.com")) sample_world) in
  let anonymous := CreateOrderRequest.Build (ObjectId.to_str (ObjectId.of_N 21))
                     "TX-2" "dave@example.com" in
  fst (get_current_user sample_int sample_regex None w) = Return None /\
  (exists r,
     fst (handle "k" sample_digest sample_lower sample_int sample_compiles
            sample_regex None (PostOrders anonymous) w) = Return r) /\
  exists l d,
    fst (handle "k" sample_digest sample_lower sample_int sample_compiles
           sample_regex bob GetOrdersMine
           (snd (handle "k" sample_digest sample_lower sample_int sample_compiles
                   sample_regex None (PostOrders anonymous) w)))
      = Return (JDocs l) /\
    In d l /\
    d !! "transaction_id" = Some (VStr "TX-B") /\
    d !! "transaction_id" <> Some (VStr "TX-2").
Proof.
  intros bob w anonymous.
  assert (Hanon : fst (get_current_user sample_int sample_regex None w) = Return None)
    by reflexivity.
  assert (Hpost : exists r,
    fst (handle "k" sample_digest sample_lower sample_int sample_compiles
           sample_regex None (PostOrders anonymous) w) = Return r)
    by (eexists; vm_compute; reflexivity).
  split; [exact Hanon|]. split; [exact Hpost|].
  destruct Hpost as [r Hpost].
  assert (Hlist : exists l d,
    fst (handle "k" sample_digest sample_lower sample_int sample_compiles
           sample_regex bob GetOrdersMine
           (snd (handle "k" sample_digest sample_lower sample_int sample_compiles
                   sample_regex None (PostOrders anonymous) w)))
      = Return (JDocs l) /\
    In d l /\
    d !! "transaction_id" = Some (VStr "TX-B")).
  { eexists _, _. split; [vm_compute; reflexivity|].
    split; [left; reflexivity | vm_compute; reflexivity]. }
  destruct Hlist as (l & d & Hlist & Hd & Hmine).
  exists l, d. split; [exact Hlist|]. split; [exact Hd|]. split; [exact Hmine|].
  exact (anonymous_order_unlisted "k" sample_digest sample_lower sample_int
           sample_compiles sample_regex None anonymous w r bob l d
           Hanon Hpost Hlist Hd).
Defined.
